(** * Student attendance system: a shallow embedding of [app.py]

    The development follows the layout of the program:

    - [Dict]: the insertion-ordered Python [dict] with string keys, on
      which both [Student.attendance] and [AttendanceManager.students]
      are built;
    - [Py]: a small state-and-output monad for the methods that mutate
      [self] and [print];
    - [Student], [AttendanceManager]: the in-memory model and its CSV
      persistence, over a disk that says what reading a file yields and
      whether a write goes through;
    - [AttendanceDB]: the SQLite backend, with its three tables as lists
      of rows;
    - the reports ([list_students], [print_table], [enhanced_summary],
      [view_student_attendance]), the fake data generator and the admin
      login.

    The theorems come last. *)

From Stdlib Require Import List String Bool Arith Lia ZArith.
From Stdlib Require Import PrimFloat PrimInt63 FloatOps SpecFloat DecimalString.
From Stdlib Require Import Ascii Sorted Permutation.
Import ListNotations.

Local Open Scope string_scope.
Local Open Scope list_scope.

Set Implicit Arguments.

(* ================================================================= *)
(** ** Python dictionaries *)

(** No string occurs twice in the list. *)
Fixpoint distinct (l : list string) : bool :=
  match l with
  | [] => true
  | x :: l' => negb (existsb (String.eqb x) l') && distinct l'
  end.

(** A [dict] keeps its keys in insertion order; assigning to a key that
    is already there replaces the value where it stands, assigning to a
    new key appends.  Iteration ([items], [values], [len]) follows that
    order, which is what [save_to_csv] writes. *)

Module Dict.
Section WithValue.
Variable V : Type.

Definition t : Type := list (string * V).

Definition empty : t := [].

(** [d.get(k)] / [d[k]] *)
Fixpoint get (k : string) (d : t) : option V :=
  match d with
  | [] => None
  | (k', v) :: d' => if String.eqb k k' then Some v else get k d'
  end.

(** [k in d] *)
Definition contains (k : string) (d : t) : bool :=
  match get k d with
  | Some _ => true
  | None => false
  end.

(** [d[k] = v] *)
Fixpoint set (k : string) (v : V) (d : t) : t :=
  match d with
  | [] => [(k, v)]
  | (k', v') :: d' =>
      if String.eqb k k' then (k', v) :: d' else (k', v') :: set k v d'
  end.

Definition keys (d : t) : list string := map fst d.
Definition values (d : t) : list V := map snd d.
Definition items (d : t) : list (string * V) := d.
Definition len (d : t) : nat := List.length d.

(** The representation invariant of a dictionary: no key twice. *)
Definition wf (d : t) : Prop := distinct (keys d) = true.

End WithValue.

Arguments empty {V}.
End Dict.

(* ================================================================= *)
(** ** State and console output *)

(** A method runs on a state (the object it is called on), returns a
    value, leaves a new state and may have printed lines. *)

Record Outcome (St A : Type) : Type := mkOutcome
  { value : A;
    state : St;
    printed : list string }.

Definition Py (St A : Type) : Type := St -> Outcome St A.

Definition ret {St A : Type} (a : A) : Py St A :=
  fun s => mkOutcome a s [].

Definition bind {St A B : Type} (m : Py St A) (k : A -> Py St B) : Py St B :=
  fun s =>
    let r1 := m s in
    let r2 := k (value r1) (state r1) in
    mkOutcome (value r2) (state r2) (printed r1 ++ printed r2).

Definition get_self {St : Type} : Py St St :=
  fun s => mkOutcome s s [].

Definition put_self {St : Type} (s' : St) : Py St unit :=
  fun _ => mkOutcome tt s' [].

Definition print {St : Type} (line : string) : Py St unit :=
  fun s => mkOutcome tt s [line].

Declare Scope py_scope.
Delimit Scope py_scope with py.
Notation "x <- m ;; k" := (bind m (fun x => k))
  (at level 61, m at next level, right associativity) : py_scope.
Notation "m ;; k" := (bind m (fun _ => k))
  (at level 61, right associativity) : py_scope.

(** [for x in xs: body(x)] *)
Fixpoint for_each {St A : Type} (xs : list A) (body : A -> Py St unit)
  : Py St unit :=
  match xs with
  | [] => ret tt
  | x :: xs' => bind (body x) (fun _ => for_each xs' body)
  end.

(* ================================================================= *)
(** ** Numbers *)

(** Python's [present_days / total] is the binary64 quotient of two
    machine-size counts; the counts are converted through [uint63],
    which is exact for every count below [2^53]. *)

Fixpoint int_of_nat (n : nat) : int :=
  match n with
  | O => 0%uint63
  | S k => PrimInt63.add (int_of_nat k) 1%uint63
  end.

Definition float_of_nat (n : nat) : float := PrimFloat.of_uint63 (int_of_nat n).

(** [sum(1 for x in xs if f x)] *)
Definition sum_ones {A : Type} (f : A -> bool) (xs : list A) : nat :=
  list_sum (map (fun _ => 1) (filter f xs)).

(* ================================================================= *)
(** ** class Student *)

Module Student.

Record t : Type := mk
  { student_id : string;
    name : string;
    attendance : Dict.t bool   (* Key: date, Value: True/False *) }.

(** [Student.__init__] *)
Definition init (student_id name : string) : t :=
  mk student_id name Dict.empty.

(** [Student.mark_attendance(date=None, present=True)]; [today] is the
    value of [datetime.today().strftime('%Y-%m-%d')] at the call. *)
Definition mark_attendance (today : string) (self : t)
    (date : option string) (present : bool) : t :=
  let date := match date with
              | None => today
              | Some d => d
              end in
  mk (student_id self) (name self)
     (Dict.set date present (attendance self)).

(** [Student.get_attendance_percentage] *)
Definition get_attendance_percentage (self : t) : float :=
  let total := Dict.len (attendance self) in
  let present_days :=
    sum_ones (fun status : bool => status) (Dict.values (attendance self)) in
  if (0 <? total)%nat
  then PrimFloat.mul
         (PrimFloat.div (float_of_nat present_days) (float_of_nat total))
         100%float
  else 0%float.

End Student.

(* ================================================================= *)
(** ** CSV files *)

(** [csv.writer.writerow] receives a list of cells and [csv.reader]
    yields lists of cells: a record is a list of cells. *)

Definition csv_row : Type := list string.
Definition csv_file : Type := list csv_row.

(** What [load_from_csv] meets at a file name: [os.path.exists] is false,
    or [csv.reader] over [open(filename, 'r')] yields [records] and then
    either ends ([raised = None]) or an exception with text [e] leaves
    the [with] block ([raised = Some e]: [open] itself, the decoder or
    [csv.Error]; with [records = []] when it is [open] that raises). *)
Inductive file_state : Type :=
  | Missing
  | Reads (records : csv_file) (raised : option string).

(** What [open(filename, 'w', newline='')] and the writes of
    [save_to_csv] meet at a file name: everything is written, [open]
    raises (the file is as before), or a write raises after [open] has
    truncated the file, which is left in the state [remains]. *)
Inductive write_outcome : Type :=
  | Written
  | OpenRaises (e : string)
  | WriteRaises (e : string) (remains : file_state).

(** The disk: the state of every file name, and what a write to it
    meets. *)
Record filesystem : Type := mkFilesystem
  { file_at : string -> file_state;
    on_write : string -> write_outcome }.

(** No file anywhere, and every write goes through. *)
Definition no_files : filesystem :=
  mkFilesystem (fun _ => Missing) (fun _ => Written).

(** The disk with the file [filename] in the state [st]. *)
Definition with_file (fs : filesystem) (filename : string) (st : file_state)
  : filesystem :=
  mkFilesystem
    (fun f => if String.eqb f filename then st else file_at fs f)
    (on_write fs).

Definition cr : ascii := "013"%char.
Definition lf : ascii := "010"%char.

(** [save_to_csv] opens the file with [newline=''], [load_from_csv]
    without: reading translates every [\r\n] and every other [\r] to
    [\n], also inside a quoted cell. *)
Fixpoint universal_newlines (text : string) : string :=
  match text with
  | EmptyString => EmptyString
  | String c rest =>
      if Ascii.eqb c cr then
        match rest with
        | String c' _ =>
            if Ascii.eqb c' lf then universal_newlines rest
            else String lf (universal_newlines rest)
        | EmptyString => String lf EmptyString
        end
      else String c (universal_newlines rest)
  end.

(** [csv.field_size_limit()], which the program leaves at its default. *)
Definition field_limit : N := 131072.

Definition fits (cell : string) : bool :=
  (N.of_nat (String.length cell) <=? field_limit)%N.

(** [str(e)] of the [csv.Error] of a cell over the limit. *)
Definition field_too_large : string :=
  "field larger than field limit (131072)".

(** What [csv.reader] over [open(filename, 'r')] gives for a file that
    [csv.writer] wrote the records [rows] to: the quoting of the writer
    is undone by the reader, the newlines inside the cells are
    translated, and a cell over the limit raises once the records before
    it have been yielded.  (The file is read with the encoding it was
    written with, and a NUL character in a cell is read as it is, as
    Python does from version 3.11 on.) *)
Fixpoint read_back (rows : csv_file) : csv_file * option string :=
  match rows with
  | [] => ([], None)
  | row :: rest =>
      let row' := map universal_newlines row in
      if forallb fits row' then
        let '(records, raised) := read_back rest in
        (row' :: records, raised)
      else ([], Some field_too_large)
  end.

Definition written_file (rows : csv_file) : file_state :=
  let '(records, raised) := read_back rows in Reads records raised.

(** [str(present)], which the writer applies to a cell that is not a
    string. *)
Definition str_of_bool (b : bool) : string :=
  if b then "True" else "False".

(* ================================================================= *)
(** ** class AttendanceManager *)

Module AttendanceManager.

Record t : Type := mk
  { students : Dict.t Student.t }.

(** [AttendanceManager.__init__] *)
Definition init : t := mk Dict.empty.

Local Open Scope py_scope.

(** [AttendanceManager.add_student] *)
Definition add_student (student_id name : string) : Py t bool :=
  self <- get_self ;;
  if Dict.contains student_id (students self) then
    print ("[WARN] Student " ++ student_id ++ " already exists.") ;;
    ret false
  else
    put_self (mk (Dict.set student_id (Student.init student_id name)
                           (students self))) ;;
    print ("[INFO] Student " ++ name ++ " added with ID " ++ student_id
           ++ ".") ;;
    ret true.

(** [self.students[student_id].mark_attendance(date, present)]: the
    student object stored under the key is mutated where it is.  Both
    callers have made sure that the key is there. *)
Definition mark_stored (today student_id : string) (date : option string)
    (present : bool) : Py t unit :=
  self <- get_self ;;
  match Dict.get student_id (students self) with
  | Some student =>
      put_self (mk (Dict.set student_id
                      (Student.mark_attendance today student date present)
                      (students self)))
  | None => ret tt
  end.

(** [AttendanceManager.mark_attendance(student_id, present=True,
    date=None)] *)
Definition mark_attendance (today student_id : string) (present : bool)
    (date : option string) : Py t bool :=
  self <- get_self ;;
  if negb (Dict.contains student_id (students self)) then
    print ("[ERROR] Student ID " ++ student_id ++ " not found.") ;;
    ret false
  else
    mark_stored today student_id date present ;;
    print ("[INFO] Attendance marked for " ++ student_id ++ ".") ;;
    ret true.

(** The records [save_to_csv] writes: for each student, in the order of
    the roster, one record per date, in the order of the student's
    attendance. *)
Definition rows_of (self : t) : csv_file :=
  flat_map
    (fun '(student_id, student) =>
       map (fun '(date, present) =>
              [student_id; Student.name student; date; str_of_bool present])
           (Dict.items (Student.attendance student)))
    (Dict.items (students self)).

(** [AttendanceManager.save_to_csv]: the method leaves [self] as it is
    and returns the disk after the call.  The [except] branch prints the
    text of the exception. *)
Definition save_to_csv (fs : filesystem) (filename : string)
  : Py t filesystem :=
  self <- get_self ;;
  match on_write fs filename with
  | Written =>
      print ("[INFO] Attendance data saved to '" ++ filename ++ "'.") ;;
      ret (with_file fs filename (written_file (rows_of self)))
  | OpenRaises e =>
      print ("[ERROR] Failed to save file: " ++ e) ;;
      ret fs
  | WriteRaises e remains =>
      print ("[ERROR] Failed to save file: " ++ e) ;;
      ret (with_file fs filename remains)
  end.

(** The body of the loop of [load_from_csv]. *)
Definition load_row (today : string) (row : csv_row) : Py t unit :=
  if negb (List.length row =? 4)%nat then
    ret tt                                      (* continue *)
  else
    match row with
    | [student_id; name; date; present] =>
        let present := String.eqb present "True" in
        self <- get_self ;;
        (if negb (Dict.contains student_id (students self)) then
           put_self (mk (Dict.set student_id (Student.init student_id name)
                                  (students self)))
         else ret tt) ;;
        mark_stored today student_id (Some date) present
    | _ => ret tt
    end.

(** [AttendanceManager.load_from_csv].  The body of the loop raises
    nothing; when the reader raises, the records it has yielded have
    been merged and the [except] branch prints the text of the
    exception. *)
Definition load_from_csv (today : string) (fs : filesystem)
    (filename : string) : Py t unit :=
  match file_at fs filename with
  | Missing =>
      print ("[WARN] File '" ++ filename ++ "' not found.")
  | Reads records raised =>
      for_each records (load_row today) ;;
      match raised with
      | None => print ("[INFO] Data loaded from '" ++ filename ++ "'.")
      | Some e => print ("[ERROR] Failed to load file: " ++ e)
      end
  end.

End AttendanceManager.

(* ================================================================= *)
(** ** class AttendanceDB *)

(** What a statement run through [cursor.execute] may raise. *)
Inductive exception : Type :=
  | IntegrityError (msg : string).

Definition message (e : exception) : string :=
  match e with
  | IntegrityError msg => msg
  end.

Inductive result (A : Type) : Type :=
  | Ok (a : A)
  | Raise (e : exception).

Arguments Ok {A} a.
Arguments Raise {A} e.

(** [int(present)] *)
Definition int_of_bool (b : bool) : Z := if b then 1%Z else 0%Z.

Module AttendanceDB.

Definition user_row : Type := (string * string)%type.
Definition student_row : Type := (string * string)%type.
Definition attendance_row : Type := (string * string * Z)%type.

(** The connection and the three tables of [_create_tables].
    [foreign_keys] is the connection's [PRAGMA foreign_keys]: SQLite
    checks a [FOREIGN KEY] clause only where it is on. *)
Record t : Type := mk
  { foreign_keys : bool;
    users : list user_row;             (* username PRIMARY KEY, password *)
    students : list student_row;       (* student_id PRIMARY KEY, name *)
    attendance : list attendance_row   (* PRIMARY KEY (student_id, date) *) }.

(** [AttendanceDB.__init__] on a database file holding the given rows:
    [sqlite3.connect] leaves [foreign_keys] off, no statement of the
    program turns it on, and [CREATE TABLE IF NOT EXISTS] keeps the
    rows. *)
Definition init (u : list user_row) (s : list student_row)
    (a : list attendance_row) : t :=
  mk false u s a.

(** A database file that did not exist yet. *)
Definition fresh : t := init [] [] [].

Definition same_key (student_id date : string) (r : attendance_row) : bool :=
  String.eqb (fst (fst r)) student_id && String.eqb (snd (fst r)) date.

(** [INSERT INTO users VALUES (?, ?)] *)
Definition insert_user (username password : string) (db : t)
  : result t :=
  if existsb (fun r : user_row => String.eqb (fst r) username) (users db)
  then Raise (IntegrityError "UNIQUE constraint failed: users.username")
  else Ok (mk (foreign_keys db) (users db ++ [(username, password)])
              (students db) (attendance db)).

(** [SELECT * FROM users WHERE username = ? AND password = ?] *)
Definition select_user (username password : string) (db : t)
  : list user_row :=
  filter (fun r : user_row =>
            String.eqb (fst r) username && String.eqb (snd r) password)
         (users db).

(** [INSERT INTO students VALUES (?, ?)] *)
Definition insert_student (student_id name : string) (db : t)
  : result t :=
  if existsb (fun r : student_row => String.eqb (fst r) student_id)
             (students db)
  then Raise (IntegrityError "UNIQUE constraint failed: students.student_id")
  else Ok (mk (foreign_keys db) (users db)
              (students db ++ [(student_id, name)]) (attendance db)).

(** [INSERT OR REPLACE INTO attendance (student_id, date, present)
    VALUES (?, ?, ?)]: the row with the same primary key goes, the new
    row comes, and the foreign key is checked where the connection
    enforces it. *)
Definition insert_or_replace_attendance (student_id date : string)
    (present : Z) (db : t) : result t :=
  if foreign_keys db
     && negb (existsb (fun r : student_row => String.eqb (fst r) student_id)
                      (students db))
  then Raise (IntegrityError "FOREIGN KEY constraint failed")
  else Ok (mk (foreign_keys db) (users db) (students db)
              (filter (fun r => negb (same_key student_id date r))
                      (attendance db)
               ++ [(student_id, date, present)])).

Local Open Scope py_scope.

(** [AttendanceDB.add_user] *)
Definition add_user (username password : string) : Py t unit :=
  self <- get_self ;;
  match insert_user username password self with
  | Ok db' => put_self db'
  | Raise (IntegrityError _) => print "[ERROR] User already exists."
  end.

(** [AttendanceDB.authenticate] *)
Definition authenticate (username password : string) : Py t bool :=
  self <- get_self ;;
  match hd_error (select_user username password self) with   (* fetchone *)
  | Some _ => ret true
  | None => ret false
  end.

(** [AttendanceDB.add_student] *)
Definition add_student (student_id name : string) : Py t unit :=
  self <- get_self ;;
  match insert_student student_id name self with
  | Ok db' => put_self db'
  | Raise (IntegrityError _) =>
      print ("[WARN] Student " ++ student_id ++ " already exists.")
  end.

(** [AttendanceDB.mark_attendance] *)
Definition mark_attendance (student_id date : string) (present : bool)
  : Py t unit :=
  self <- get_self ;;
  match insert_or_replace_attendance student_id date (int_of_bool present)
                                     self with
  | Ok db' => put_self db'
  | Raise e => print ("[ERROR] " ++ message e)
  end.

End AttendanceDB.

(* ================================================================= *)
(** ** Observations on the in-memory model *)

(** The dates on which a student has a record, each once. *)
Definition dates_recorded (s : Student.t) : list string :=
  nodup string_dec (Dict.keys (Student.attendance s)).

(** The dictionary marks the date present. *)
Definition marked_present (d : Dict.t bool) (k : string) : bool :=
  match Dict.get k d with
  | Some true => true
  | _ => false
  end.

(** Those of them on which the student is marked present. *)
Definition dates_present (s : Student.t) : list string :=
  filter (marked_present (Student.attendance s)) (dates_recorded s).

(** What the roster records for a student on a date. *)
Definition recorded (m : AttendanceManager.t) (student_id date : string)
  : option bool :=
  match Dict.get student_id (AttendanceManager.students m) with
  | Some s => Dict.get date (Student.attendance s)
  | None => None
  end.


(** The invariant of a roster: it is a dictionary of students filed
    under their own id, and each attendance is a dictionary. *)
Definition student_wf (entry : string * Student.t) : bool :=
  String.eqb (Student.student_id (snd entry)) (fst entry)
  && distinct (Dict.keys (Student.attendance (snd entry))).

Definition roster_wf (m : AttendanceManager.t) : Prop :=
  distinct (Dict.keys (AttendanceManager.students m))
  && forallb student_wf (AttendanceManager.students m) = true.

(** The roster with the students that have no attendance left out. *)
Definition with_attendance (m : AttendanceManager.t) : AttendanceManager.t :=
  AttendanceManager.mk
    (filter (fun entry : string * Student.t =>
               match Student.attendance (snd entry) with
               | [] => false
               | _ :: _ => true
               end)
            (AttendanceManager.students m)).

(** The roster after the loop of [load_from_csv] has run on some
    records. *)
Definition load_rows (today : string) (rows : csv_file)
    (m : AttendanceManager.t) : AttendanceManager.t :=
  fold_left (fun acc row => state (AttendanceManager.load_row today row acc))
            rows m.

(** The records [save_to_csv] writes for one student. *)
Definition rows_of_student (student_id name : string) (att : Dict.t bool)
  : csv_file :=
  map (fun '(date, present) => [student_id; name; date; str_of_bool present])
      att.

(** The record sets the entry of student [student_id] on [date]. *)
Definition row_marks (student_id date : string) (row : csv_row) : bool :=
  match row with
  | [i; _; d; _] => String.eqb i student_id && String.eqb d date
  | _ => false
  end.

(** The record is about student [student_id]. *)
Definition row_names (student_id : string) (row : csv_row) : bool :=
  match row with
  | [i; _; _; _] => String.eqb i student_id
  | _ => false
  end.

(** The records [load_from_csv] reads: none where the file is missing. *)
Definition records_at (fs : filesystem) (filename : string) : csv_file :=
  match file_at fs filename with
  | Reads records _ => records
  | Missing => []
  end.

(** The text holds a carriage return. *)
Fixpoint has_cr (text : string) : bool :=
  match text with
  | EmptyString => false
  | String c rest => Ascii.eqb c cr || has_cr rest
  end.

(** A cell that the reader gives back as the writer got it: it holds no
    carriage return and is not over the limit of a field. *)
Definition plain (cell : string) : bool :=
  negb (has_cr cell) && fits cell.

(** The ids, names and dates of the roster are plain cells. *)
Definition plain_roster (m : AttendanceManager.t) : bool :=
  forallb (fun entry : string * Student.t =>
             plain (fst entry)
             && plain (Student.name (snd entry))
             && forallb plain (Dict.keys (Student.attendance (snd entry))))
          (AttendanceManager.students m).


(** The date a call of [mark_attendance] writes to. *)
Definition effective_date (today : string) (date : option string) : string :=
  match date with
  | None => today
  | Some d => d
  end.

(* ================================================================= *)
(** ** Observations on the database *)

(** The values the [attendance] table holds for a student and a date:
    [SELECT present FROM attendance WHERE student_id = ? AND date = ?]. *)
Definition db_recorded (student_id date : string) (db : AttendanceDB.t)
  : list Z :=
  map snd (filter (AttendanceDB.same_key student_id date)
                  (AttendanceDB.attendance db)).

(** The primary key of [users] holds: no username twice. *)
Definition users_unique (db : AttendanceDB.t) : Prop :=
  distinct (map fst (AttendanceDB.users db)) = true.

(** Every attendance row names a row of [students]: what the
    [FOREIGN KEY] clause of the schema declares. *)
Definition references_hold (db : AttendanceDB.t) : bool :=
  forallb (fun r : AttendanceDB.attendance_row =>
             existsb (fun st : AttendanceDB.student_row =>
                        String.eqb (fst st) (fst (fst r)))
                     (AttendanceDB.students db))
          (AttendanceDB.attendance db).

(* ================================================================= *)
(** ** Example data *)

Definition ann : Student.t :=
  Student.mark_attendance "2024-01-03"
    (Student.mark_attendance "2024-01-03" (Student.init "S1" "Ann")
       (Some "2024-01-01") true)
    (Some "2024-01-02") false.

Definition roster_with_ann : AttendanceManager.t :=
  state (AttendanceManager.add_student "S1" "Ann" AttendanceManager.init).

Definition literal_file : csv_file :=
  [["S1"; "Ann"; "2024-01-01"; "True"];
   ["S1"; "Ann"; "2024-01-02"; "true"];
   ["S1"; "Ann"; "2024-01-03"; "1"]].

Definition roster_ann_bob : AttendanceManager.t :=
  AttendanceManager.mk
    [("S1", Student.mk "S1" "Ann" [("2024-01-01", true)]);
     ("S2", Student.mk "S2" "Bob" [])].

Definition merge_file : csv_file :=
  [["S1"; "Anna"; "2024-01-02"; "False"];
   ["S3"; "Cy"; "2024-01-02"; "True"]].

Definition roster_marked : AttendanceManager.t :=
  AttendanceManager.mk
    [("S1", Student.mk "S1" "Ann" [("2024-01-01", true); ("2024-01-02", false)]);
     ("S2", Student.mk "S2" "Bob" []);
     ("S3", Student.mk "S3" "Cy" [("2024-01-02", true)])].

(** A name with a carriage return in it, and the same name as it is
    read. *)
Definition name_with_cr : string := String "x" (String cr "y").

Definition roster_cr_name : AttendanceManager.t :=
  AttendanceManager.mk
    [("S1", Student.mk "S1" name_with_cr [("2024-01-01", true)])].



(** A disk on which the directory of [nodir/a.csv] does not exist. *)
Definition no_directory : filesystem :=
  mkFilesystem
    (fun _ => Missing)
    (fun f => if String.eqb f "nodir/a.csv"
              then OpenRaises
                     "[Errno 2] No such file or directory: 'nodir/a.csv'"
              else Written).

Definition db_with_admin : AttendanceDB.t :=
  state (AttendanceDB.add_user "admin" "s3cret" AttendanceDB.fresh).

(* ================================================================= *)
(** ** Text *)

(** Strings are sequences of characters with a code point below 256. *)

(** The newline character. *)
Definition nl : string := String (Ascii.ascii_of_nat 10) "".

(** [str(n)] for a count. *)
Definition str_of_nat (n : nat) : string :=
  NilZero.string_of_uint (Nat.to_uint n).

(** [str(n)] for an integer that is not negative. *)
Definition str_of_Z (n : Z) : string :=
  NilZero.string_of_uint (N.to_uint (Z.to_N n)).

(** [str(n)] for an integer. *)
Definition str_of_int (n : Z) : string :=
  NilZero.string_of_int (Z.to_int n).

(** [range(n)] for an integer [n]: empty when [n] is not positive. *)
Definition range (n : Z) : list nat := seq 0 (Z.to_nat n).

(** [c * n] for a character [c]. *)
Fixpoint replicate (n : nat) (c : Ascii.ascii) : string :=
  match n with
  | O => ""
  | S k => String c (replicate k c)
  end.

(** [s.ljust(width)] *)
Definition ljust (s : string) (width : nat) : string :=
  s ++ replicate (width - String.length s) " "%char.

(** [sep.join(parts)] *)
Fixpoint join (sep : string) (parts : list string) : string :=
  match parts with
  | [] => ""
  | [p] => p
  | p :: rest => p ++ sep ++ join sep rest
  end.

(** [m / 2^k] rounded to the nearest integer, a tie to the even one. *)
Definition round_half_even (m k : Z) : Z :=
  let d := (2 ^ k)%Z in
  let q := (m / d)%Z in
  let r := (m mod d)%Z in
  match (2 * r ?= d)%Z with
  | Lt => q
  | Gt => (q + 1)%Z
  | Eq => if Z.even q then q else (q + 1)%Z
  end.

(** The number [m * 2^e] in hundredths, rounded to the nearest. *)
Definition hundredths (m : positive) (e : Z) : Z :=
  if (0 <=? e)%Z then (100 * Z.pos m * 2 ^ e)%Z
  else round_half_even (100 * Z.pos m) (- e).

Definition sign_text (negative : bool) : string :=
  if negative then "-" else "".

(** [f"{x:.2f}"]: the decimal with two places nearest to the value of
    the float, a tie going to the even digit. *)
Definition format_2f (x : float) : string :=
  match Prim2SF x with
  | S754_nan => "nan"
  | S754_infinity s => sign_text s ++ "inf"
  | S754_zero s => sign_text s ++ "0.00"
  | S754_finite s m e =>
      let q := hundredths m e in
      sign_text s ++ str_of_Z (q / 100) ++ "."
      ++ (if (q mod 100 <? 10)%Z then "0" else "") ++ str_of_Z (q mod 100)
  end.

(* ================================================================= *)
(** ** Student and AttendanceManager: the reports *)

(** [Student.__str__] *)
Definition student_str (self : Student.t) : string :=
  Student.student_id self ++ " - " ++ Student.name self.

(** [Student.get_attendance_summary] *)
Definition get_attendance_summary (self : Student.t) : string :=
  Student.student_id self ++ " | " ++ Student.name self ++ " | "
  ++ format_2f (Student.get_attendance_percentage self) ++ "%".

(** [AttendanceManager.list_students] *)
Definition list_students : Py AttendanceManager.t unit :=
  (self <- get_self ;;
   print (nl ++ "--- All Students ---") ;;
   for_each (Dict.values (AttendanceManager.students self))
            (fun student => print (student_str student)) ;;
   print ("Total: " ++ str_of_nat (Dict.len (AttendanceManager.students self))
          ++ " students." ++ nl))%py.

(** [AttendanceManager.summary_report] as the class body defines it,
    before the module rebinds the name to [enhanced_summary]. *)
Definition summary_report : Py AttendanceManager.t unit :=
  (self <- get_self ;;
   print (nl ++ "--- Attendance Summary ---") ;;
   for_each (Dict.values (AttendanceManager.students self))
            (fun student => print (get_attendance_summary student)) ;;
   print nl)%py.

(** [col_widths[i] = w] *)
Fixpoint set_width (col_widths : list nat) (i w : nat) : list nat :=
  match col_widths, i with
  | [], _ => []
  | _ :: rest, O => w :: rest
  | w0 :: rest, S j => w0 :: set_width rest j w
  end.

(** The inner loop of [print_table] over one row, from column [i] on:
    [col_widths[i] = max(col_widths[i], len(str(cell)))].  [None] is the
    [IndexError] of a row with more cells than there are headers. *)
Fixpoint widen_row (col_widths : list nat) (i : nat) (row : list string)
  : option (list nat) :=
  match row with
  | [] => Some col_widths
  | cell :: row' =>
      match nth_error col_widths i with
      | None => None
      | Some w =>
          widen_row (set_width col_widths i (Nat.max w (String.length cell)))
                    (S i) row'
      end
  end.

(** The outer loop of [print_table]. *)
Fixpoint widen (col_widths : list nat) (rows : list (list string))
  : option (list nat) :=
  match rows with
  | [] => Some col_widths
  | row :: rows' =>
      match widen_row col_widths 0 row with
      | None => None
      | Some col_widths' => widen col_widths' rows'
      end
  end.

(** The cells of a row from column [i] on, each padded to the width of
    its column. *)
Fixpoint padded_cells (col_widths : list nat) (i : nat) (row : list string)
  : list string :=
  match row with
  | [] => []
  | cell :: row' =>
      ljust cell (nth i col_widths 0) :: padded_cells col_widths (S i) row'
  end.

(** [format_row] of [print_table] *)
Definition format_row (col_widths : list nat) (row : list string) : string :=
  join " | " (padded_cells col_widths 0 row).

(** The rule under the headers:
    ["-" * (sum(col_widths) + 3 * (len(headers) - 1))]. *)
Definition rule (col_widths : list nat) (headers : list string) : string :=
  replicate
    (Z.to_nat (Z.of_nat (list_sum col_widths)
               + 3 * (Z.of_nat (List.length headers) - 1)))
    "-"%char.

(** [print_table(headers, rows)], the cells given as [str] makes them.
    The widths are computed before anything is printed, so an
    [IndexError] leaves the console as it was; the value tells whether
    the table was printed. *)
Definition print_table {St : Type} (headers : list string)
    (rows : list (list string)) : Py St bool :=
  match widen (map String.length headers) rows with
  | None => ret false
  | Some col_widths =>
      (print (nl ++ format_row col_widths headers) ;;
       print (rule col_widths headers) ;;
       for_each rows (fun row => print (format_row col_widths row)) ;;
       print "" ;;
       ret true)%py
  end.

(** The row [enhanced_summary] builds for a student. *)
Definition summary_row (student : Student.t) : list string :=
  let total_days := Dict.len (Student.attendance student) in
  let present_days :=
    sum_ones (fun present : bool => present)
             (Dict.values (Student.attendance student)) in
  let percentage :=
    if (total_days =? 0)%nat then "0.00%"
    else (format_2f
            (PrimFloat.mul
               (PrimFloat.div (float_of_nat present_days)
                              (float_of_nat total_days))
               100%float)
          ++ "%")%string in
  [Student.student_id student; Student.name student;
   str_of_nat present_days; str_of_nat total_days; percentage].

Definition summary_headers : list string :=
  ["ID"; "Name"; "Present Days"; "Total Days"; "Attendance %"].

(** [enhanced_summary(manager)], to which the module rebinds
    [AttendanceManager.summary_report]. *)
Definition enhanced_summary : Py AttendanceManager.t bool :=
  (manager <- get_self ;;
   print_table summary_headers
     (map summary_row (Dict.values (AttendanceManager.students manager))))%py.

(** The order of [sorted] on the items of an attendance: by date, then
    [False] before [True]. *)
Definition item_leb (a b : string * bool) : bool :=
  match String.compare (fst a) (fst b) with
  | Lt => true
  | Gt => false
  | Eq => implb (snd a) (snd b)
  end.

Fixpoint insert_item (a : string * bool) (l : list (string * bool))
  : list (string * bool) :=
  match l with
  | [] => [a]
  | b :: l' => if item_leb a b then a :: l else b :: insert_item a l'
  end.

(** [sorted(items)] *)
Fixpoint sorted (items : list (string * bool)) : list (string * bool) :=
  match items with
  | [] => []
  | a :: l => insert_item a (sorted l)
  end.

(** The line [view_student_attendance] prints for one date. *)
Definition status_line (item : string * bool) : string :=
  fst item ++ ": " ++ (if snd item then "Present" else "Absent").

(** [view_student_attendance(manager)]; [entered] is what
    [input("Enter Student ID: ")] returns. *)
Definition view_student_attendance (entered : string)
  : Py AttendanceManager.t unit :=
  (manager <- get_self ;;
   match Dict.get entered (AttendanceManager.students manager) with
   | None => print "[ERROR] Student not found."
   | Some student =>
       print (nl ++ "--- Attendance for " ++ Student.name student ++ " ---") ;;
       (match Student.attendance student with
        | [] => print "No attendance data available."
        | _ :: _ =>
            for_each (sorted (Dict.items (Student.attendance student)))
                     (fun item => print (status_line item))
        end) ;;
       print ("Attendance %: "
              ++ format_2f (Student.get_attendance_percentage student) ++ "%")
   end)%py.

(* ================================================================= *)
(** ** The fake data generator *)

(** What the random source and the clock give in one round of the outer
    loop: the four digits of the id, the five capitals of the name, and
    for the round [i] of the inner loop the date of the day and the coin
    [random.choice([True, False])]. *)
Record draw : Type := mkDraw
  { drawn_id : string;
    drawn_name : string;
    drawn_mark : nat -> string * bool }.

(** The dates and coins of the five rounds of the inner loop. *)
Definition drawn_marks (d : draw) : list (string * bool) :=
  map (drawn_mark d) (range 5).

(** [generate_fake_students(manager, count)]: [draws round] is what is
    drawn in the round [round] of [range(count)]. *)
Definition generate_fake_students (count : Z) (draws : nat -> draw)
  : Py AttendanceManager.t unit :=
  (for_each (map draws (range count))
     (fun d =>
        AttendanceManager.add_student (drawn_id d) (drawn_name d) ;;
        for_each (drawn_marks d)
          (fun mark =>
             AttendanceManager.mark_attendance (fst mark) (drawn_id d)
               (snd mark) (Some (fst mark)) ;;
             ret tt)) ;;
   print ("[INFO] " ++ str_of_int count ++ " fake students generated."))%py.

(* ================================================================= *)
(** ** The admin login *)

(** [str.isspace] on one character. *)
Definition is_space (c : ascii) : bool :=
  let n := nat_of_ascii c in
  ((9 <=? n) && (n <=? 13) || (28 <=? n) && (n <=? 32)
   || (n =? 133) || (n =? 160))%nat.

(** [s.lstrip()] *)
Fixpoint lstrip (s : string) : string :=
  match s with
  | EmptyString => EmptyString
  | String c s' => if is_space c then lstrip s' else s
  end.

(** [s.rstrip()] *)
Fixpoint rstrip (s : string) : string :=
  match s with
  | EmptyString => EmptyString
  | String c s' =>
      match rstrip s' with
      | EmptyString => if is_space c then EmptyString else String c EmptyString
      | String _ _ as r => String c r
      end
  end.

(** [s.strip()] *)
Definition strip (s : string) : string := rstrip (lstrip s).

(** [login(db)]; the arguments are what [input] and [getpass] return. *)
Definition login (typed_username typed_password : string)
  : Py AttendanceDB.t bool :=
  (print (nl ++ "--- Admin Login ---") ;;
   let username := strip typed_username in
   let password := strip typed_password in
   ok <- AttendanceDB.authenticate username password ;;
   if ok then
     print ("[INFO] Welcome, " ++ username ++ "!" ++ nl) ;;
     ret true
   else
     print "[ERROR] Invalid credentials." ;;
     ret false)%py.

(** [setup_admin_account(db)] *)
Definition setup_admin_account
    (typed_username typed_password typed_confirm : string)
  : Py AttendanceDB.t bool :=
  (print (nl ++ "--- Setup Admin Account ---") ;;
   let username := strip typed_username in
   let password := strip typed_password in
   let confirm := strip typed_confirm in
   if negb (String.eqb password confirm) then
     print "[ERROR] Passwords do not match." ;;
     ret false
   else
     AttendanceDB.add_user username password ;;
     print "[INFO] Admin account created." ;;
     ret true)%py.

(* ================================================================= *)
(** ** Sequences of operations *)

(** The calls the menu of the flat-file mode makes on the manager. *)
Inductive manager_op : Type :=
  | OpAddStudent (student_id name : string)
  | OpListStudents
  | OpMarkAttendance (today student_id : string) (present : bool)
                     (date : option string)
  | OpSummaryReport
  | OpSaveToCsv (fs : filesystem) (filename : string)
  | OpLoadFromCsv (today : string) (fs : filesystem) (filename : string)
  | OpViewStudentAttendance (entered : string)
  | OpGenerateFakeStudents (count : Z) (draws : nat -> draw).

Definition run_manager_op (o : manager_op) (m : AttendanceManager.t)
  : AttendanceManager.t :=
  match o with
  | OpAddStudent i n => state (AttendanceManager.add_student i n m)
  | OpListStudents => state (list_students m)
  | OpMarkAttendance t i p d => state (AttendanceManager.mark_attendance t i p d m)
  | OpSummaryReport => state (enhanced_summary m)
  | OpSaveToCsv fs f => state (AttendanceManager.save_to_csv fs f m)
  | OpLoadFromCsv t fs f => state (AttendanceManager.load_from_csv t fs f m)
  | OpViewStudentAttendance e => state (view_student_attendance e m)
  | OpGenerateFakeStudents n ds => state (generate_fake_students n ds m)
  end.

Definition run_manager_ops (ops : list manager_op) (m : AttendanceManager.t)
  : AttendanceManager.t :=
  fold_left (fun acc o => run_manager_op o acc) ops m.

(** The calls made on the database. *)
Inductive db_op : Type :=
  | DbAddUser (username password : string)
  | DbAuthenticate (username password : string)
  | DbAddStudent (student_id name : string)
  | DbMarkAttendance (student_id date : string) (present : bool)
  | DbLogin (typed_username typed_password : string)
  | DbSetupAdminAccount (typed_username typed_password typed_confirm : string).

Definition run_db_op (o : db_op) (db : AttendanceDB.t) : AttendanceDB.t :=
  match o with
  | DbAddUser u p => state (AttendanceDB.add_user u p db)
  | DbAuthenticate u p => state (AttendanceDB.authenticate u p db)
  | DbAddStudent i n => state (AttendanceDB.add_student i n db)
  | DbMarkAttendance i d p => state (AttendanceDB.mark_attendance i d p db)
  | DbLogin u p => state (login u p db)
  | DbSetupAdminAccount u p c => state (setup_admin_account u p c db)
  end.

Definition run_db_ops (ops : list db_op) (db : AttendanceDB.t)
  : AttendanceDB.t :=
  fold_left (fun acc o => run_db_op o acc) ops db.

(** No pair occurs twice in the list. *)
Fixpoint distinct_pairs (l : list (string * string)) : bool :=
  match l with
  | [] => true
  | x :: l' =>
      negb (existsb (fun y => String.eqb (fst x) (fst y)
                              && String.eqb (snd x) (snd y)) l')
      && distinct_pairs l'
  end.

(** The primary keys of the three tables hold, and the connection is as
    [sqlite3.connect] leaves it. *)
Definition db_wf (db : AttendanceDB.t) : Prop :=
  negb (AttendanceDB.foreign_keys db)
  && distinct (map fst (AttendanceDB.users db))
  && distinct (map fst (AttendanceDB.students db))
  && distinct_pairs (map fst (AttendanceDB.attendance db)) = true.

(** The name the [students] table holds for an id. *)
Definition db_student_name (student_id : string) (db : AttendanceDB.t)
  : option string :=
  option_map snd
    (find (fun r : AttendanceDB.student_row => String.eqb (fst r) student_id)
          (AttendanceDB.students db)).

(** The number of attendance entries of a roster. *)
Definition entry_count (m : AttendanceManager.t) : nat :=
  list_sum (map (fun entry : string * Student.t =>
                   Dict.len (Student.attendance (snd entry)))
                (AttendanceManager.students m)).

(** The first record of four cells that names a student. *)
Definition first_record_of (student_id : string) (file : csv_file)
  : option csv_row :=
  find (row_names student_id) file.

(** [m'] still has every student of [m], under the same id and name, and
    every date that student had a record on. *)
Definition extends (m m' : AttendanceManager.t) : Prop :=
  forall id s,
    Dict.get id (AttendanceManager.students m) = Some s ->
    exists s',
      Dict.get id (AttendanceManager.students m') = Some s'
      /\ Student.student_id s' = Student.student_id s
      /\ Student.name s' = Student.name s
      /\ forall d, Dict.contains d (Student.attendance s) = true ->
                   Dict.contains d (Student.attendance s') = true.

(** A record as [save_to_csv] writes them: four cells, the last one
    [True] or [False]. *)
Definition saved_record (row : csv_row) : bool :=
  match row with
  | [_; _; _; cell] => String.eqb cell "True" || String.eqb cell "False"
  | _ => false
  end.

(** A session of the menu, for the examples. *)
Definition busy_session : list manager_op :=
  [OpAddStudent "S1" "Eve";
   OpMarkAttendance "2024-01-05" "S1" false None;
   OpLoadFromCsv "2024-01-05"
     (with_file no_files "a.csv" (Reads merge_file None)) "a.csv";
   OpSaveToCsv no_directory "nodir/a.csv";
   OpGenerateFakeStudents 1
     (fun _ => mkDraw "S3" "QWERT" (fun i => ("2024-01-05", Nat.even i)));
   OpSummaryReport].


(** The entry that the last record about a student and a date writes,
    if a record of the file is about them. *)
Fixpoint last_mark (student_id date : string) (file : csv_file)
  : option bool :=
  match file with
  | [] => None
  | row :: rest =>
      match last_mark student_id date rest with
      | Some b => Some b
      | None =>
          if row_marks student_id date row
          then Some (String.eqb (nth 3 row "") "True")
          else None
      end
  end.

(** The roster has a record for the student on the date. *)
Definition has_entry (m : AttendanceManager.t) (student_id date : string)
  : bool :=
  match Dict.get student_id (AttendanceManager.students m) with
  | Some s => Dict.contains date (Student.attendance s)
  | None => false
  end.

(** Every record of four cells is about a student and a date that the
    roster has. *)
Definition settled (file : csv_file) (m : AttendanceManager.t) : bool :=
  forallb (fun row => match row with
                      | [i; _; d; _] => has_entry m i d
                      | _ => true
                      end) file.

(** A roster without its presence values: the ids in their order, and
    for each student its id, its name and its dates in their order. *)
Definition shape (m : AttendanceManager.t)
  : list (string * (string * string * list string)) :=
  map (fun entry : string * Student.t =>
         (fst entry,
          (Student.student_id (snd entry), Student.name (snd entry),
           Dict.keys (Student.attendance (snd entry)))))
      (AttendanceManager.students m).

(** A database with one user and one student, for the examples. *)
Definition db_small : AttendanceDB.t :=
  AttendanceDB.init [("admin", "s3cret")] [("S1", "Ann")]
                    [("S1", "2024-01-01", 1%Z)].

(** A session on the database, for the examples. *)
Definition db_session : list db_op :=
  [DbSetupAdminAccount "admin" "pw" "pw";
   DbLogin "admin" "pw";
   DbAddStudent "S1" "Bea";
   DbMarkAttendance "S1" "2024-01-01" false;
   DbMarkAttendance "S9" "2024-01-01" true;
   DbAddUser "admin" "again"].

(** The roster after one round of [generate_fake_students]. *)
Definition after_round (d : draw) (m : AttendanceManager.t)
  : AttendanceManager.t :=
  fold_left
    (fun acc mark =>
       state (AttendanceManager.mark_attendance (fst mark) (drawn_id d)
                (snd mark) (Some (fst mark)) acc))
    (drawn_marks d)
    (state (AttendanceManager.add_student (drawn_id d) (drawn_name d) m)).

(** The clock shows the same day at every mark of the rounds. *)
Definition same_day (today : string) (rounds : list draw) : bool :=
  forallb (fun d => forallb (fun mark => String.eqb (fst mark) today)
                            (drawn_marks d))
          rounds.

(** The dates a roster has for a student, [None] for an unknown id. *)
Definition dates_of (m : AttendanceManager.t) (student_id : string)
  : option (list string) :=
  option_map (fun s => Dict.keys (Student.attendance s))
             (Dict.get student_id (AttendanceManager.students m)).

(** Draws of the generator that hit the same id in every round. *)
Definition colliding_draws (round : nat) : draw :=
  if Nat.even round
  then mkDraw "1234" "ABCDE" (fun i => ("2024-01-05", Nat.even i))
  else mkDraw "1234" "XYZZY" (fun i => ("2024-01-05", Nat.odd i)).

(** No id and no date of the roster holds a carriage return. *)
Definition keys_without_cr (m : AttendanceManager.t) : bool :=
  forallb (fun entry : string * Student.t =>
             negb (has_cr (fst entry))
             && forallb (fun d => negb (has_cr d))
                        (Dict.keys (Student.attendance (snd entry))))
          (AttendanceManager.students m).

(** A file that cannot be read: [open] raises. *)
Definition unreadable : file_state :=
  Reads [] (Some "[Errno 13] Permission denied: 'a.csv'").

(** Every cell of the records fits the limit of a field once its
    newlines are translated. *)
Definition all_fit (rows : csv_file) : bool :=
  forallb (fun row => forallb fits (map universal_newlines row)) rows.

(** A name of 131073 characters, one over the limit of a field. *)
Definition oversize_name : string := replicate (N.to_nat 131073) "x"%char.

Definition roster_oversize : AttendanceManager.t :=
  AttendanceManager.mk
    [("S1", Student.mk "S1" "Ann" [("2024-01-01", true)]);
     ("S2", Student.mk "S2" oversize_name [("2024-01-01", false)]);
     ("S3", Student.mk "S3" "Cy" [("2024-01-01", true)])].

(* ================================================================= *)
(** * Facts about dictionaries *)

Create HintDb dict discriminated.

Ltac case_eqb a b :=
  destruct (String.eqb_spec a b); subst; try congruence.

Lemma existsb_eqb_iff x l : existsb (String.eqb x) l = true <-> In x l.
Proof.
  rewrite existsb_exists. split.
  - intros [y [Hy E]]. apply String.eqb_eq in E. now subst.
  - intros H. exists x. split; [assumption | apply String.eqb_refl].
Qed.

Lemma distinct_NoDup l : distinct l = true <-> NoDup l.
Proof.
  induction l as [|x l IH]; simpl.
  - split; [constructor | reflexivity].
  - rewrite andb_true_iff, negb_true_iff, IH. split.
    + intros [Hx Hl]. constructor; [|assumption].
      rewrite <- existsb_eqb_iff. congruence.
    + intros H. inversion H as [|? ? Hx Hl]; subst. split; [|assumption].
      rewrite <- existsb_eqb_iff in Hx. now destruct (existsb _ l).
Qed.

Section DictFacts.
Variable V : Type.
Implicit Types (d : Dict.t V) (k : string) (v : V).

Lemma get_set_same k v d : Dict.get k (Dict.set k v d) = Some v.
Proof.
  induction d as [|[k' v'] d IH]; simpl.
  - now rewrite String.eqb_refl.
  - case_eqb k k'; simpl.
    + now rewrite String.eqb_refl.
    + case_eqb k k'.
Qed.

Lemma get_set_other k k' v d :
  k' <> k -> Dict.get k' (Dict.set k v d) = Dict.get k' d.
Proof.
  intros Hne. induction d as [|[k0 v0] d IH]; simpl.
  - case_eqb k' k.
  - case_eqb k k0; simpl.
    + case_eqb k' k0.
    + now rewrite IH.
Qed.

Lemma get_none_iff k d : Dict.get k d = None <-> ~ In k (Dict.keys d).
Proof.
  induction d as [|[k' v'] d IH]; simpl.
  - tauto.
  - case_eqb k k'.
    + split; [discriminate | intros H; exfalso; apply H; now left].
    + rewrite IH. split; [intros H [E|I]; [congruence | tauto] | tauto].
Qed.

Lemma contains_iff k d :
  Dict.contains k d = true <-> In k (Dict.keys d).
Proof.
  unfold Dict.contains. destruct (Dict.get k d) eqn:E.
  - split; [intros _|reflexivity].
    destruct (in_dec string_dec k (Dict.keys d)) as [I|N]; [assumption|].
    apply get_none_iff in N. congruence.
  - apply get_none_iff in E. split; [discriminate | tauto].
Qed.

Lemma contains_false_iff k d :
  Dict.contains k d = false <-> ~ In k (Dict.keys d).
Proof.
  rewrite <- contains_iff. destruct (Dict.contains k d); split; congruence.
Qed.

Lemma get_some_in k v d : Dict.get k d = Some v -> In (k, v) d.
Proof.
  induction d as [|[k' v'] d IH]; simpl; [discriminate|].
  case_eqb k k'.
  - intros [= ->]. now left.
  - intros H. right. auto.
Qed.

Lemma wf_NoDup d : Dict.wf d <-> NoDup (Dict.keys d).
Proof. apply distinct_NoDup. Qed.

Lemma in_get_some k v d : Dict.wf d -> In (k, v) d -> Dict.get k d = Some v.
Proof.
  rewrite wf_NoDup. induction d as [|[k' v'] d IH]; simpl; [tauto|].
  intros Hnd [E|I].
  - injection E as -> ->. now rewrite String.eqb_refl.
  - inversion Hnd as [|? ? Hni Hnd']; subst.
    case_eqb k k'.
    + exfalso. apply Hni. change k' with (fst (k', v)). now apply in_map.
    + auto.
Qed.

(** Assigning to a new key appends. *)
Lemma set_new k v d : ~ In k (Dict.keys d) -> Dict.set k v d = d ++ [(k, v)].
Proof.
  induction d as [|[k' v'] d IH]; simpl; [reflexivity|].
  intros H. case_eqb k k'.
  - exfalso. apply H. now left.
  - rewrite IH; [reflexivity | tauto].
Qed.

(** Assigning to a key that is there replaces the value in place. *)
Lemma set_old k v v0 d1 d2 :
  ~ In k (Dict.keys d1) ->
  Dict.set k v (d1 ++ (k, v0) :: d2) = d1 ++ (k, v) :: d2.
Proof.
  induction d1 as [|[k' v'] d1 IH]; simpl.
  - now rewrite String.eqb_refl.
  - intros H. case_eqb k k'.
    + exfalso. apply H. now left.
    + rewrite IH; [reflexivity | tauto].
Qed.

Lemma get_app_new k v d :
  ~ In k (Dict.keys d) -> Dict.get k (d ++ [(k, v)]) = Some v.
Proof.
  induction d as [|[k' v'] d IH]; simpl.
  - now rewrite String.eqb_refl.
  - intros H. case_eqb k k'.
    + exfalso. apply H. now left.
    + apply IH. tauto.
Qed.

Lemma keys_set k v d :
  Dict.keys (Dict.set k v d)
  = if Dict.contains k d then Dict.keys d else Dict.keys d ++ [k].
Proof.
  unfold Dict.contains.
  induction d as [|[k' v'] d IH]; simpl; [reflexivity|].
  case_eqb k k'; simpl; [reflexivity|].
  rewrite IH. now destruct (Dict.get k d).
Qed.

Lemma wf_set k v d : Dict.wf d -> Dict.wf (Dict.set k v d).
Proof.
  rewrite !wf_NoDup. intros H. rewrite keys_set.
  destruct (Dict.contains k d) eqn:E; [assumption|].
  apply contains_false_iff in E.
  apply NoDup_app; [assumption | repeat constructor; auto | ].
  intros x Hx [<-|[]]. contradiction.
Qed.

Lemma wf_empty : Dict.wf (@Dict.empty V).
Proof. reflexivity. Qed.

End DictFacts.

#[export] Hint Resolve wf_set wf_empty : dict.

(* ================================================================= *)
(** * Student: the attendance percentage *)

Lemma sum_ones_length (A : Type) (f : A -> bool) (xs : list A) :
  sum_ones f xs = List.length (filter f xs).
Proof.
  unfold sum_ones. induction (filter f xs) as [|x l IH]; simpl; congruence.
Qed.

(** Counting the values that are true is counting the dates that are
    marked present. *)
Lemma present_values_by_date (d : Dict.t bool) :
  Dict.wf d ->
  List.length (filter (marked_present d) (Dict.keys d))
  = List.length (filter (fun status : bool => status) (Dict.values d)).
Proof.
  rewrite wf_NoDup.
  induction d as [|[k v] d IH]; simpl; intros Hnd; [reflexivity|].
  inversion Hnd as [|? ? Hni Hnd']; subst.
  unfold marked_present at 1. simpl. rewrite String.eqb_refl.
  assert (E : filter (marked_present ((k, v) :: d)) (Dict.keys d)
              = filter (marked_present d) (Dict.keys d)).
  { apply filter_ext_in. intros k0 Hin. unfold marked_present. simpl.
    case_eqb k0 k. }
  rewrite E. destruct v; simpl; rewrite IH; auto.
Qed.

Lemma dates_recorded_wf (s : Student.t) :
  Dict.wf (Student.attendance s) ->
  dates_recorded s = Dict.keys (Student.attendance s).
Proof.
  intros H. apply nodup_fixed_point. now apply wf_NoDup.
Qed.

(** ** C1 *)

(** C1. The percentage [get_attendance_percentage] returns is the number
    of dates marked present, divided by the number of distinct dates
    recorded, times 100; it is 0 for a student with no recorded date. *)
Theorem get_attendance_percentage_formula (s : Student.t) :
  Dict.wf (Student.attendance s) ->
  Student.get_attendance_percentage s
  = (if (List.length (dates_recorded s) =? 0)%nat
     then 0%float
     else PrimFloat.mul
            (PrimFloat.div (float_of_nat (List.length (dates_present s)))
                           (float_of_nat (List.length (dates_recorded s))))
            100%float)
  /\ (dates_recorded s = [] -> Student.get_attendance_percentage s = 0%float).
Proof.
  intros Hwf.
  assert (Hp : sum_ones (fun status : bool => status)
                 (Dict.values (Student.attendance s))
               = List.length (dates_present s)).
  { rewrite sum_ones_length. unfold dates_present.
    rewrite dates_recorded_wf by assumption.
    symmetry. apply (present_values_by_date Hwf). }
  assert (Hn : Dict.len (Student.attendance s) = List.length (dates_recorded s)).
  { rewrite dates_recorded_wf by assumption. unfold Dict.len, Dict.keys.
    now rewrite length_map. }
  unfold Student.get_attendance_percentage. rewrite Hp, Hn.
  split.
  - now destruct (List.length (dates_recorded s)).
  - intros ->. reflexivity.
Qed.

Lemma get_attendance_percentage_formula_witness :
  Student.get_attendance_percentage ann = 50%float
  /\ Student.get_attendance_percentage (Student.init "S2" "Bob") = 0%float.
Proof.
  split.
  - exact (proj1 (get_attendance_percentage_formula ann eq_refl)).
  - exact (proj2 (get_attendance_percentage_formula (Student.init "S2" "Bob")
                    eq_refl) eq_refl).
Defined.

(* ================================================================= *)
(** * The loop of [load_from_csv] *)

Lemma outcome_eta (St A : Type) (r : Outcome St A) :
  mkOutcome (value r) (state r) (printed r) = r.
Proof. now destruct r. Qed.

Lemma state_for_each_load_row today rows m :
  state (for_each rows (AttendanceManager.load_row today) m)
  = load_rows today rows m.
Proof.
  revert m. induction rows as [|row rows IH]; intros m; simpl; [reflexivity|].
  apply IH.
Qed.

Lemma load_rows_app today rows1 rows2 m :
  load_rows today (rows1 ++ rows2) m
  = load_rows today rows2 (load_rows today rows1 m).
Proof. apply fold_left_app. Qed.

Lemma load_rows_cons today row rows m :
  load_rows today (row :: rows) m
  = load_rows today rows (state (AttendanceManager.load_row today row m)).
Proof. reflexivity. Qed.

Lemma state_load_from_csv today fs filename m :
  state (AttendanceManager.load_from_csv today fs filename m)
  = load_rows today (records_at fs filename) m.
Proof.
  unfold AttendanceManager.load_from_csv, records_at.
  destruct (file_at fs filename) as [|records raised]; [reflexivity|].
  unfold bind. destruct raised; cbn [state print];
    apply state_for_each_load_row.
Qed.

Lemma records_at_reads fs filename records raised :
  file_at fs filename = Reads records raised ->
  records_at fs filename = records.
Proof. intros H. unfold records_at. now rewrite H. Qed.

(** A record that does not have four cells is passed over. *)
Lemma load_row_skip today row m :
  List.length row <> 4 ->
  AttendanceManager.load_row today row m = mkOutcome tt m [].
Proof.
  intros H. unfold AttendanceManager.load_row.
  destruct (Nat.eqb_spec (List.length row) 4); [contradiction|reflexivity].
Qed.

(** What a record of four cells does to the roster. *)
Lemma load_row_state today i n d p m :
  state (AttendanceManager.load_row today [i; n; d; p] m)
  = match Dict.get i (AttendanceManager.students m) with
    | Some s =>
        AttendanceManager.mk
          (Dict.set i (Student.mark_attendance today s (Some d)
                         (String.eqb p "True"))
                    (AttendanceManager.students m))
    | None =>
        AttendanceManager.mk
          (AttendanceManager.students m
           ++ [(i, Student.mk i n [(d, String.eqb p "True")])])
    end.
Proof.
  unfold AttendanceManager.load_row, AttendanceManager.mark_stored. cbn.
  unfold Dict.contains.
  destruct (Dict.get i (AttendanceManager.students m)) as [s|] eqn:E; cbn.
  - now rewrite E.
  - rewrite get_set_same. cbn.
    apply get_none_iff in E.
    rewrite (@set_new _ i (Student.init i n) (AttendanceManager.students m) E).
    now rewrite set_old by exact E.
Qed.

Lemma for_each_skip (St A : Type) (body : A -> Py St unit) (bad : A)
    (pre post : list A) (s : St) :
  (forall s0, body bad s0 = mkOutcome tt s0 []) ->
  for_each (pre ++ bad :: post) body s = for_each (pre ++ post) body s.
Proof.
  intros Hbad. revert s. induction pre as [|x pre IH]; intros s; simpl.
  - unfold bind. rewrite Hbad. simpl. apply outcome_eta.
  - unfold bind. now rewrite IH.
Qed.

Lemma row_cases (row : csv_row) :
  List.length row <> 4 \/ exists i n d p, row = [i; n; d; p].
Proof.
  destruct row as [|i [|n [|d [|p [|x row]]]]]; simpl;
    try (left; lia).
  right. now exists i, n, d, p.
Qed.

Section MoreDictFacts.
Variable V : Type.
Implicit Types (d : Dict.t V) (k : string) (v : V).

Lemma get_app_some k v d d' :
  Dict.get k d = Some v -> Dict.get k (d ++ d') = Some v.
Proof.
  induction d as [|[k0 v0] d IH]; simpl; [discriminate|].
  case_eqb k k0. auto.
Qed.

Lemma get_app_none k d d' :
  Dict.get k d = None -> Dict.get k (d ++ d') = Dict.get k d'.
Proof.
  induction d as [|[k0 v0] d IH]; simpl; [reflexivity|].
  case_eqb k k0. auto.
Qed.

End MoreDictFacts.

Section LoadRowSteps.
Variable today : string.
Implicit Types (m : AttendanceManager.t) (row : csv_row).

Let step row m := state (AttendanceManager.load_row today row m).

Lemma load_row_keeps_student row m id s :
  Dict.get id (AttendanceManager.students m) = Some s ->
  exists s',
    Dict.get id (AttendanceManager.students (step row m)) = Some s'
    /\ Student.name s' = Student.name s
    /\ Student.student_id s' = Student.student_id s.
Proof.
  intros Hs. unfold step.
  destruct (row_cases row) as [Hlen|(i & n & d & p & ->)].
  - rewrite load_row_skip by assumption. simpl. eauto.
  - rewrite load_row_state.
    destruct (Dict.get i (AttendanceManager.students m)) as [s0|] eqn:E; simpl.
    + case_eqb id i.
      * rewrite get_set_same. eexists. split; [reflexivity|].
        assert (s0 = s) by congruence. subst. auto.
      * rewrite get_set_other by assumption. eauto.
    + erewrite get_app_some by eassumption. eauto.
Qed.

Lemma load_row_records i n d p m :
  recorded (step [i; n; d; p] m) i d = Some (String.eqb p "True").
Proof.
  unfold step, recorded. rewrite load_row_state.
  destruct (Dict.get i (AttendanceManager.students m)) as [s0|] eqn:E; simpl.
  - rewrite get_set_same. simpl. apply get_set_same.
  - rewrite get_app_none by assumption. simpl.
    rewrite String.eqb_refl. simpl. now rewrite String.eqb_refl.
Qed.

Lemma load_row_frame row m id date :
  row_marks id date row = false ->
  recorded (step row m) id date = recorded m id date.
Proof.
  intros Hrow. unfold step.
  destruct (row_cases row) as [Hlen|(i & n & d & p & ->)].
  - now rewrite load_row_skip by assumption.
  - unfold recorded. rewrite load_row_state. simpl in Hrow.
    destruct (Dict.get i (AttendanceManager.students m)) as [s0|] eqn:E; simpl.
    + case_eqb id i.
      * rewrite get_set_same, E. simpl.
        rewrite String.eqb_refl in Hrow. simpl in Hrow.
        apply get_set_other. intros ->. now rewrite String.eqb_refl in Hrow.
      * now rewrite get_set_other by assumption.
    + case_eqb id i.
      * rewrite get_app_none, E by assumption. simpl.
        rewrite !String.eqb_refl. simpl.
        rewrite String.eqb_refl in Hrow. simpl in Hrow.
        case_eqb date d. now rewrite String.eqb_refl in Hrow.
      * destruct (Dict.get id (AttendanceManager.students m)) as [s1|] eqn:E1.
        -- now erewrite get_app_some by eassumption.
        -- rewrite get_app_none by assumption. simpl. case_eqb id i.
Qed.

Lemma load_row_no_new row m id :
  row_names id row = false ->
  Dict.get id (AttendanceManager.students m) = None ->
  Dict.get id (AttendanceManager.students (step row m)) = None.
Proof.
  intros Hrow Hnone. unfold step.
  destruct (row_cases row) as [Hlen|(i & n & d & p & ->)].
  - now rewrite load_row_skip by assumption.
  - rewrite load_row_state. simpl in Hrow.
    apply String.eqb_neq in Hrow.
    destruct (Dict.get i (AttendanceManager.students m)) as [s0|] eqn:E; simpl.
    + rewrite get_set_other; congruence.
    + rewrite get_app_none by assumption. simpl. case_eqb id i.
Qed.

Lemma load_rows_keep_student rows m id s :
  Dict.get id (AttendanceManager.students m) = Some s ->
  exists s',
    Dict.get id (AttendanceManager.students (load_rows today rows m)) = Some s'
    /\ Student.name s' = Student.name s
    /\ Student.student_id s' = Student.student_id s.
Proof.
  revert m s. induction rows as [|row rows IH]; intros m s Hs; simpl.
  - eauto.
  - destruct (load_row_keeps_student row m id Hs) as (s1 & H1 & Hn & Hi).
    destruct (IH _ _ H1) as (s2 & H2 & Hn2 & Hi2).
    exists s2. split; [exact H2 | split; congruence].
Qed.

Lemma load_rows_frame rows m id date :
  existsb (row_marks id date) rows = false ->
  recorded (load_rows today rows m) id date = recorded m id date.
Proof.
  revert m. induction rows as [|row rows IH]; intros m H; simpl in *.
  - reflexivity.
  - apply orb_false_iff in H as [H1 H2].
    rewrite IH by assumption. now apply load_row_frame.
Qed.

Lemma load_rows_no_new rows m id :
  existsb (row_names id) rows = false ->
  Dict.get id (AttendanceManager.students m) = None ->
  Dict.get id (AttendanceManager.students (load_rows today rows m)) = None.
Proof.
  revert m. induction rows as [|row rows IH]; intros m H Hn; simpl in *.
  - assumption.
  - apply orb_false_iff in H as [H1 H2].
    apply IH; [assumption|]. now apply load_row_no_new.
Qed.

End LoadRowSteps.

(* ================================================================= *)
(** * AttendanceManager: adding students and marking attendance *)

Lemma contains_get (V : Type) (k : string) (d : Dict.t V) :
  Dict.contains k d = true -> exists v, Dict.get k d = Some v.
Proof.
  unfold Dict.contains. destruct (Dict.get k d); [eauto | discriminate].
Qed.

(** Run the monadic operations of a method body. *)
Ltac run_py := unfold bind, ret, get_self, put_self, print; cbn.

Lemma mark_attendance_known today id p date m s :
  Dict.get id (AttendanceManager.students m) = Some s ->
  AttendanceManager.mark_attendance today id p date m
  = mkOutcome true
      (AttendanceManager.mk
         (Dict.set id (Student.mark_attendance today s date p)
                   (AttendanceManager.students m)))
      [("[INFO] Attendance marked for " ++ id ++ ".")%string].
Proof.
  intros E.
  unfold AttendanceManager.mark_attendance, AttendanceManager.mark_stored.
  run_py. unfold Dict.contains. rewrite E. cbn. now rewrite E.
Qed.

(** An unknown id: the call reports it, returns [False] and leaves the
    roster as it was. *)
Lemma mark_attendance_unknown today id p date m :
  Dict.contains id (AttendanceManager.students m) = false ->
  AttendanceManager.mark_attendance today id p date m
  = mkOutcome false m [("[ERROR] Student ID " ++ id ++ " not found.")%string].
Proof.
  intros E. unfold AttendanceManager.mark_attendance. run_py. now rewrite E.
Qed.

Lemma student_mark_records today s date p :
  Dict.get (effective_date today date)
           (Student.attendance (Student.mark_attendance today s date p))
  = Some p.
Proof. destruct date; apply get_set_same. Qed.

(** ** C6 *)

(** C6. [add_student] with an id that is already in the roster returns
    false and leaves the roster as it was, so the student filed under the
    id keeps its name; with a fresh id it returns true and files a student
    with that id, that name and an empty attendance, after the others. *)
Theorem add_student_spec (m : AttendanceManager.t) (id name : string) :
  (Dict.contains id (AttendanceManager.students m) = true ->
   value (AttendanceManager.add_student id name m) = false
   /\ state (AttendanceManager.add_student id name m) = m
   /\ printed (AttendanceManager.add_student id name m)
      = [("[WARN] Student " ++ id ++ " already exists.")%string])
  /\ (Dict.contains id (AttendanceManager.students m) = false ->
      value (AttendanceManager.add_student id name m) = true
      /\ AttendanceManager.students
           (state (AttendanceManager.add_student id name m))
         = AttendanceManager.students m ++ [(id, Student.mk id name [])]
      /\ Dict.get id (AttendanceManager.students
                        (state (AttendanceManager.add_student id name m)))
         = Some (Student.mk id name [])).
Proof.
  unfold AttendanceManager.add_student. run_py. split; intros E; rewrite E; cbn.
  - auto.
  - apply contains_false_iff in E.
    rewrite set_new by assumption.
    split; [reflexivity|]. split; [reflexivity|].
    now apply get_app_new.
Qed.

Lemma add_student_spec_witness :
  (value (AttendanceManager.add_student "S1" "Bob" roster_with_ann) = false
   /\ state (AttendanceManager.add_student "S1" "Bob" roster_with_ann)
      = roster_with_ann
   /\ printed (AttendanceManager.add_student "S1" "Bob" roster_with_ann)
      = ["[WARN] Student S1 already exists."])
  /\ (value (AttendanceManager.add_student "S2" "Bob" roster_with_ann) = true
      /\ AttendanceManager.students
           (state (AttendanceManager.add_student "S2" "Bob" roster_with_ann))
         = [("S1", Student.mk "S1" "Ann" []); ("S2", Student.mk "S2" "Bob" [])]
      /\ Dict.get "S2"
           (AttendanceManager.students
              (state (AttendanceManager.add_student "S2" "Bob" roster_with_ann)))
         = Some (Student.mk "S2" "Bob" [])).
Proof.
  split.
  - exact (proj1 (add_student_spec roster_with_ann "S1" "Bob") eq_refl).
  - exact (proj2 (add_student_spec roster_with_ann "S2" "Bob") eq_refl).
Defined.

(* ================================================================= *)
(** * Loading: malformed records, the presence cell, the frame *)

(** ** C5 *)

(** C5. A record whose number of cells is not 4 leaves the roster as it
    is and prints nothing, whatever the roster, and the load goes on with
    the records after it: the roster after the load is the one the loop
    gives on the records before it followed by the records after it, the
    whole call ends as the load of the file without that record does, and
    every record of four cells, before or after the skipped one, has set
    its entry, which is the entry after the load when no later record
    writes to the same student and date. *)
Theorem load_from_csv_skips_malformed (today : string) (fs : filesystem)
    (filename : string) (m : AttendanceManager.t)
    (pre post : csv_file) (bad : csv_row) (raised : option string) :
  file_at fs filename = Reads (pre ++ bad :: post) raised ->
  List.length bad <> 4 ->
  (forall m', AttendanceManager.load_row today bad m' = mkOutcome tt m' [])
  /\ state (AttendanceManager.load_from_csv today fs filename m)
     = load_rows today post (load_rows today pre m)
  /\ AttendanceManager.load_from_csv today fs filename m
     = AttendanceManager.load_from_csv today
         (with_file fs filename (Reads (pre ++ post) raised)) filename m
  /\ (forall rows rows' id name date cell,
         pre ++ post = rows ++ [id; name; date; cell] :: rows' ->
         existsb (row_marks id date) rows' = false ->
         Dict.contains id
           (AttendanceManager.students
              (state (AttendanceManager.load_from_csv today fs filename m)))
         = true
         /\ recorded
              (state (AttendanceManager.load_from_csv today fs filename m))
              id date
            = Some (String.eqb cell "True")).
Proof.
  intros Hfile Hlen.
  assert (Hstate : state (AttendanceManager.load_from_csv today fs filename m)
                   = load_rows today (pre ++ post) m).
  { rewrite state_load_from_csv, (records_at_reads _ _ Hfile).
    rewrite !load_rows_app, load_rows_cons.
    now rewrite load_row_skip. }
  split; [intros m'; now apply load_row_skip|].
  split; [now rewrite Hstate, load_rows_app|].
  split.
  - unfold AttendanceManager.load_from_csv, with_file.
    cbn [file_at]. rewrite Hfile, String.eqb_refl. unfold bind.
    rewrite for_each_skip; [reflexivity|].
    intros s0. now apply load_row_skip.
  - intros rows rows' id name date cell Hrows Hlater.
    assert (Hrec : recorded (load_rows today (pre ++ post) m) id date
                   = Some (String.eqb cell "True")).
    { rewrite Hrows, load_rows_app, load_rows_cons.
      rewrite load_rows_frame by assumption.
      now rewrite load_row_records. }
    rewrite Hstate. split; [|exact Hrec].
    unfold recorded in Hrec. unfold Dict.contains.
    destruct (Dict.get id
                (AttendanceManager.students
                   (load_rows today (pre ++ post) m)));
      [reflexivity | discriminate].
Qed.

Lemma load_from_csv_skips_malformed_witness :
  let fs := with_file no_files "a.csv"
              (Reads [["S1"; "Ann"; "2024-01-01"; "True"];
                      ["S1"; "Ann"; "2024-01-01"];
                      ["S2"; "Bob"; "2024-01-01"; "False"; "x"];
                      ["S2"; "Bob"; "2024-01-02"; "False"]] None) in
  let m' := state (AttendanceManager.load_from_csv "2024-01-03" fs "a.csv"
                     AttendanceManager.init) in
  AttendanceManager.load_row "2024-01-03" ["S1"; "Ann"; "2024-01-01"]
    AttendanceManager.init
  = mkOutcome tt AttendanceManager.init []
  /\ m' = AttendanceManager.mk
            [("S1", Student.mk "S1" "Ann" [("2024-01-01", true)]);
             ("S2", Student.mk "S2" "Bob" [("2024-01-02", false)])]
  /\ Dict.contains "S2" (AttendanceManager.students m') = true
  /\ recorded m' "S2" "2024-01-02" = Some false.
Proof.
  intros fs m'.
  destruct (@load_from_csv_skips_malformed "2024-01-03" fs "a.csv"
              AttendanceManager.init
              [["S1"; "Ann"; "2024-01-01"; "True"]]
              [["S2"; "Bob"; "2024-01-01"; "False"; "x"];
               ["S2"; "Bob"; "2024-01-02"; "False"]]
              ["S1"; "Ann"; "2024-01-01"] None eq_refl)
    as (Hskip & Hstate & _ & Hlater).
  { simpl. discriminate. }
  destruct (Hlater [["S1"; "Ann"; "2024-01-01"; "True"];
                    ["S2"; "Bob"; "2024-01-01"; "False"; "x"]] []
                   "S2" "Bob" "2024-01-02" "False" eq_refl eq_refl)
    as [Hin Hrec].
  split; [apply Hskip|].
  split; [exact Hstate|].
  split; [exact Hin | exact Hrec].
Defined.

(** ** C4 *)

(** C4. A record of four cells sets the entry to true exactly when its
    fourth cell is the text [True]; with any other text the entry is
    false.  The entry is the one the roster holds after the load when no
    later record of the file writes to the same student and date. *)
Theorem load_from_csv_present_literal (today : string) (fs : filesystem)
    (filename : string) (m : AttendanceManager.t)
    (pre post : csv_file) (raised : option string)
    (id name date cell : string) :
  file_at fs filename
  = Reads (pre ++ [id; name; date; cell] :: post) raised ->
  existsb (row_marks id date) post = false ->
  (recorded (state (AttendanceManager.load_from_csv today fs filename m))
            id date = Some true
   <-> cell = "True")
  /\ (cell <> "True" ->
      recorded (state (AttendanceManager.load_from_csv today fs filename m))
               id date = Some false).
Proof.
  intros Hfile Hpost.
  rewrite state_load_from_csv, (records_at_reads _ _ Hfile).
  rewrite load_rows_app, load_rows_cons.
  rewrite load_rows_frame by assumption.
  rewrite load_row_records.
  split.
  - split.
    + intros [= E]. now apply String.eqb_eq.
    + intros ->. reflexivity.
  - intros Hne. apply String.eqb_neq in Hne. now rewrite Hne.
Qed.

Lemma load_from_csv_present_literal_witness :
  let m := state (AttendanceManager.load_from_csv "2024-01-04"
                    (with_file no_files "a.csv" (Reads literal_file None))
                    "a.csv" AttendanceManager.init) in
  recorded m "S1" "2024-01-01" = Some true
  /\ recorded m "S1" "2024-01-02" = Some false
  /\ recorded m "S1" "2024-01-03" = Some false.
Proof.
  pose (fs := with_file no_files "a.csv" (Reads literal_file None)).
  split; [|split].
  - apply (proj1 (@load_from_csv_present_literal "2024-01-04" fs "a.csv"
                    AttendanceManager.init []
                    [["S1"; "Ann"; "2024-01-02"; "true"];
                     ["S1"; "Ann"; "2024-01-03"; "1"]] None
                    "S1" "Ann" "2024-01-01" "True" eq_refl eq_refl)).
    reflexivity.
  - apply (proj2 (@load_from_csv_present_literal "2024-01-04" fs "a.csv"
                    AttendanceManager.init
                    [["S1"; "Ann"; "2024-01-01"; "True"]]
                    [["S1"; "Ann"; "2024-01-03"; "1"]] None
                    "S1" "Ann" "2024-01-02" "true" eq_refl eq_refl)).
    discriminate.
  - apply (proj2 (@load_from_csv_present_literal "2024-01-04" fs "a.csv"
                    AttendanceManager.init
                    [["S1"; "Ann"; "2024-01-01"; "True"];
                     ["S1"; "Ann"; "2024-01-02"; "true"]]
                    [] None
                    "S1" "Ann" "2024-01-03" "1" eq_refl eq_refl)).
    discriminate.
Defined.

(** ** C10 *)

(** C10. [load_from_csv] merges the file into the roster: every student
    of the roster is still there, under the same id and with the same
    name, whatever name the records give; a student is created only for
    an id that a record of four cells names; and the entry of a student
    on a date changes only when a record of four cells names that student
    and that date. *)
Theorem load_from_csv_merges (today : string) (fs : filesystem)
    (filename : string) (m : AttendanceManager.t) :
  (forall id s,
      Dict.get id (AttendanceManager.students m) = Some s ->
      exists s',
        Dict.get id (AttendanceManager.students
                       (state (AttendanceManager.load_from_csv today fs
                                 filename m))) = Some s'
        /\ Student.name s' = Student.name s
        /\ Student.student_id s' = Student.student_id s)
  /\ (forall id,
         Dict.get id (AttendanceManager.students m) = None ->
         existsb (row_names id) (records_at fs filename) = false ->
         Dict.get id (AttendanceManager.students
                        (state (AttendanceManager.load_from_csv today fs
                                  filename m))) = None)
  /\ (forall id date,
         existsb (row_marks id date) (records_at fs filename) = false ->
         recorded (state (AttendanceManager.load_from_csv today fs filename m))
                  id date
         = recorded m id date).
Proof.
  rewrite state_load_from_csv.
  split; [|split].
  - intros id s Hs. now apply load_rows_keep_student.
  - intros id Hnone Hrows. now apply load_rows_no_new.
  - intros id date Hrows. now apply load_rows_frame.
Qed.

Lemma load_from_csv_merges_witness :
  let m' := state (AttendanceManager.load_from_csv "2024-01-04"
                     (with_file no_files "a.csv" (Reads merge_file None))
                     "a.csv" roster_ann_bob) in
  (exists s', Dict.get "S1" (AttendanceManager.students m') = Some s'
              /\ Student.name s' = "Ann"
              /\ Student.student_id s' = "S1")
  /\ Dict.get "S4" (AttendanceManager.students m') = None
  /\ recorded m' "S1" "2024-01-01" = Some true.
Proof.
  pose proof (@load_from_csv_merges "2024-01-04"
                (with_file no_files "a.csv" (Reads merge_file None)) "a.csv"
                roster_ann_bob) as [Hkeep [Hnew Hframe]].
  split; [|split].
  - exact (Hkeep "S1" (Student.mk "S1" "Ann" [("2024-01-01", true)]) eq_refl).
  - exact (Hnew "S4" eq_refl eq_refl).
  - exact (Hframe "S1" "2024-01-01" eq_refl).
Defined.

(* ================================================================= *)
(** * The SQLite backend *)

Lemma db_mark_attendance_unenforced id date p db :
  AttendanceDB.foreign_keys db = false ->
  AttendanceDB.mark_attendance id date p db
  = mkOutcome tt
      (AttendanceDB.mk false (AttendanceDB.users db) (AttendanceDB.students db)
         (filter (fun r => negb (AttendanceDB.same_key id date r))
                 (AttendanceDB.attendance db)
          ++ [(id, date, int_of_bool p)]))
      [].
Proof.
  intros Hfk.
  unfold AttendanceDB.mark_attendance, AttendanceDB.insert_or_replace_attendance.
  run_py. now rewrite Hfk.
Qed.

(** Had the connection enforced foreign keys, an unknown student would
    have been reported and the database left as it was. *)
Lemma db_mark_attendance_enforced id date p db :
  AttendanceDB.foreign_keys db = true ->
  existsb (fun r : AttendanceDB.student_row => String.eqb (fst r) id)
          (AttendanceDB.students db) = false ->
  AttendanceDB.mark_attendance id date p db
  = mkOutcome tt db ["[ERROR] FOREIGN KEY constraint failed"].
Proof.
  intros Hfk Hno.
  unfold AttendanceDB.mark_attendance, AttendanceDB.insert_or_replace_attendance.
  run_py. now rewrite Hfk, Hno.
Qed.

Lemma same_key_refl id date z :
  AttendanceDB.same_key id date (id, date, z) = true.
Proof. unfold AttendanceDB.same_key. simpl. now rewrite !String.eqb_refl. Qed.

Lemma filter_same_key_replaced id date rows :
  filter (AttendanceDB.same_key id date)
         (filter (fun r => negb (AttendanceDB.same_key id date r)) rows)
  = [].
Proof.
  induction rows as [|r rows IH]; simpl; [reflexivity|].
  destruct (AttendanceDB.same_key id date r) eqn:E; simpl; [assumption|].
  now rewrite E.
Qed.

Lemma db_recorded_after_mark id date p db :
  AttendanceDB.foreign_keys db = false ->
  db_recorded id date
    (state (AttendanceDB.mark_attendance id date p db))
  = [int_of_bool p].
Proof.
  intros Hfk. rewrite db_mark_attendance_unenforced by assumption.
  unfold db_recorded. simpl.
  rewrite filter_app, filter_same_key_replaced. simpl.
  now rewrite same_key_refl.
Qed.

(** No method of the program turns the enforcement of foreign keys on. *)
Lemma foreign_keys_stay_off db :
  AttendanceDB.foreign_keys db = false ->
  (forall u p, AttendanceDB.foreign_keys
                 (state (AttendanceDB.add_user u p db)) = false)
  /\ (forall u p, AttendanceDB.foreign_keys
                    (state (AttendanceDB.authenticate u p db)) = false)
  /\ (forall i n, AttendanceDB.foreign_keys
                    (state (AttendanceDB.add_student i n db)) = false)
  /\ (forall i d p, AttendanceDB.foreign_keys
                      (state (AttendanceDB.mark_attendance i d p db)) = false).
Proof.
  intros Hfk. repeat split; intros.
  - unfold AttendanceDB.add_user, AttendanceDB.insert_user. run_py.
    destruct (existsb _ _); assumption.
  - unfold AttendanceDB.authenticate. run_py.
    destruct (hd_error _); assumption.
  - unfold AttendanceDB.add_student, AttendanceDB.insert_student. run_py.
    destruct (existsb _ _); assumption.
  - now rewrite db_mark_attendance_unenforced.
Qed.

(** ** C7 *)

(** C7. Two calls of [mark_attendance] that write to the same student and
    date leave the value of the second call: in a [Student], in the
    roster of the manager (for a student that is in it), and in the
    [attendance] table of the database. *)
Theorem mark_attendance_last_write_wins
    (today1 today2 : string) (date1 date2 : option string)
    (s : Student.t) (m : AttendanceManager.t) (db : AttendanceDB.t)
    (id date : string) (p1 p2 : bool) :
  effective_date today1 date1 = date ->
  effective_date today2 date2 = date ->
  Dict.contains id (AttendanceManager.students m) = true ->
  AttendanceDB.foreign_keys db = false ->
  Dict.get date
    (Student.attendance
       (Student.mark_attendance today2
          (Student.mark_attendance today1 s date1 p1) date2 p2))
  = Some p2
  /\ recorded
       (state (AttendanceManager.mark_attendance today2 id p2 date2
                 (state (AttendanceManager.mark_attendance today1 id p1 date1
                           m))))
       id date
     = Some p2
  /\ db_recorded id date
       (state (AttendanceDB.mark_attendance id date p2
                 (state (AttendanceDB.mark_attendance id date p1 db))))
     = [int_of_bool p2].
Proof.
  intros H1 H2 Hin Hfk. split; [|split].
  - rewrite <- H2. apply student_mark_records.
  - destruct (contains_get _ _ Hin) as [s0 Hs0].
    rewrite (@mark_attendance_known today1 id p1 date1 m s0 Hs0).
    erewrite mark_attendance_known by (simpl; apply get_set_same).
    unfold recorded. simpl. rewrite get_set_same, <- H2.
    apply student_mark_records.
  - apply db_recorded_after_mark.
    now apply foreign_keys_stay_off.
Qed.

Lemma mark_attendance_last_write_wins_witness :
  Dict.get "2024-01-03"
    (Student.attendance
       (Student.mark_attendance "2024-01-03"
          (Student.mark_attendance "2024-01-03" ann None true)
          (Some "2024-01-03") false))
  = Some false
  /\ recorded
       (state (AttendanceManager.mark_attendance "2024-01-03" "S1" false
                 (Some "2024-01-03")
                 (state (AttendanceManager.mark_attendance "2024-01-03" "S1"
                           true None roster_with_ann))))
       "S1" "2024-01-03"
     = Some false
  /\ db_recorded "S1" "2024-01-03"
       (state (AttendanceDB.mark_attendance "S1" "2024-01-03" false
                 (state (AttendanceDB.mark_attendance "S1" "2024-01-03" true
                           AttendanceDB.fresh))))
     = [0%Z].
Proof.
  exact (@mark_attendance_last_write_wins "2024-01-03" "2024-01-03"
           None (Some "2024-01-03") ann roster_with_ann AttendanceDB.fresh
           "S1" "2024-01-03" true false eq_refl eq_refl eq_refl eq_refl).
Defined.

Lemma hd_error_filter_some (A : Type) (f : A -> bool) (l : list A) :
  (exists x, hd_error (filter f l) = Some x)
  <-> exists x, In x l /\ f x = true.
Proof.
  split.
  - intros [x Hx]. exists x. apply filter_In.
    destruct (filter f l) as [|y l']; [discriminate|].
    simpl in Hx. injection Hx as ->. now left.
  - intros [x Hx]. apply filter_In in Hx.
    destruct (filter f l) as [|y l']; [contradiction|]. now exists y.
Qed.

Lemma unique_key_value (A : Type) (l : list (string * A)) k a b :
  NoDup (map fst l) -> In (k, a) l -> In (k, b) l -> a = b.
Proof.
  induction l as [|[k0 v0] l IH]; simpl; [tauto|].
  intros Hnd Ha Hb. inversion Hnd as [|? ? Hni Hnd']; subst.
  assert (Hfst : forall v, In (k0, v) l -> False).
  { intros v Hv. apply Hni. change k0 with (fst (k0, v)). now apply in_map. }
  destruct Ha as [Ea|Ia], Hb as [Eb|Ib].
  - congruence.
  - injection Ea as -> ->. exfalso. eauto.
  - injection Eb as -> ->. exfalso. eauto.
  - eauto.
Qed.

(** ** C8 *)

(** C8. [authenticate] returns true exactly when the [users] table holds
    the row (username, password), and it changes nothing; so with a
    username that is stored with another password it returns false. *)
Theorem authenticate_iff_stored (db : AttendanceDB.t)
    (username password : string) :
  (value (AttendanceDB.authenticate username password db) = true
   <-> In (username, password) (AttendanceDB.users db))
  /\ state (AttendanceDB.authenticate username password db) = db
  /\ (users_unique db ->
      forall stored,
        In (username, stored) (AttendanceDB.users db) ->
        stored <> password ->
        value (AttendanceDB.authenticate username password db) = false).
Proof.
  assert (Hiff : value (AttendanceDB.authenticate username password db) = true
                 <-> In (username, password) (AttendanceDB.users db)).
  { unfold AttendanceDB.authenticate, AttendanceDB.select_user. run_py.
    match goal with
    | |- context [hd_error (filter ?f ?l)] =>
        pose proof (hd_error_filter_some f l) as Hhd
    end.
    destruct (hd_error _) as [row|]; simpl.
    - split; [intros _|reflexivity].
      destruct (proj1 Hhd (ex_intro _ row eq_refl)) as [[u p] [Hin Hf]].
      simpl in Hf. apply andb_true_iff in Hf as [Hu Hp].
      apply String.eqb_eq in Hu, Hp. now subst.
    - split; [discriminate|]. intros Hin.
      destruct (proj2 Hhd) as [x Hx]; [|discriminate].
      exists (username, password). simpl.
      now rewrite !String.eqb_refl. }
  split; [exact Hiff|]. split.
  - unfold AttendanceDB.authenticate. run_py.
    now destruct (hd_error _).
  - intros Huniq stored Hin Hne.
    apply not_true_is_false. intros E.
    apply Hiff in E. apply Hne.
    apply distinct_NoDup in Huniq.
    eapply unique_key_value; eassumption.
Qed.

Lemma authenticate_iff_stored_witness :
  value (AttendanceDB.authenticate "admin" "s3cret" db_with_admin) = true
  /\ value (AttendanceDB.authenticate "admin" "S3cret" db_with_admin) = false.
Proof.
  split.
  - apply (proj1 (authenticate_iff_stored db_with_admin "admin" "s3cret")).
    simpl. now left.
  - apply (proj2 (proj2 (authenticate_iff_stored db_with_admin "admin" "S3cret"))
             eq_refl "s3cret").
    + simpl. now left.
    + discriminate.
Defined.

(** ** C3 *)

(** C3, at the input where the relational backend departs from it: on a
    database whose [students] table is empty, [mark_attendance] for the
    id [S404] reports nothing, and the [attendance] table has a row for a
    student that [students] does not hold. *)
Theorem db_mark_attendance_unknown_student :
  printed (AttendanceDB.mark_attendance "S404" "2024-01-01" true
             AttendanceDB.fresh) = []
  /\ AttendanceDB.students
       (state (AttendanceDB.mark_attendance "S404" "2024-01-01" true
                 AttendanceDB.fresh)) = []
  /\ AttendanceDB.attendance
       (state (AttendanceDB.mark_attendance "S404" "2024-01-01" true
                 AttendanceDB.fresh))
     = [("S404", "2024-01-01", 1%Z)]
  /\ references_hold
       (state (AttendanceDB.mark_attendance "S404" "2024-01-01" true
                 AttendanceDB.fresh)) = false
  /\ state (AttendanceDB.mark_attendance "S404" "2024-01-01" true
              AttendanceDB.fresh) <> AttendanceDB.fresh.
Proof.
  repeat split; discriminate.
Qed.

(* ================================================================= *)
(** * Saving and loading back *)

(** The cell written for a presence value reads back as that value. *)
Lemma present_cell_roundtrip (b : bool) :
  String.eqb (str_of_bool b) "True" = b.
Proof. now destruct b. Qed.

Lemma roster_wf_spec (m : AttendanceManager.t) :
  roster_wf m
  <-> NoDup (Dict.keys (AttendanceManager.students m))
      /\ Forall (fun entry : string * Student.t =>
                   Student.student_id (snd entry) = fst entry
                   /\ NoDup (Dict.keys (Student.attendance (snd entry))))
                (AttendanceManager.students m).
Proof.
  unfold roster_wf. rewrite andb_true_iff, distinct_NoDup, forallb_forall.
  rewrite Forall_forall. unfold student_wf.
  split; intros [Hk Hs]; (split; [assumption|]); intros e He;
    specialize (Hs e He).
  - apply andb_true_iff in Hs as [H1 H2].
    apply String.eqb_eq in H1. apply distinct_NoDup in H2. auto.
  - destruct Hs as [H1 H2]. apply andb_true_iff. split.
    + now apply String.eqb_eq.
    + now apply distinct_NoDup.
Qed.

Lemma keys_app (V : Type) (d1 d2 : Dict.t V) :
  Dict.keys (d1 ++ d2) = Dict.keys d1 ++ Dict.keys d2.
Proof. apply map_app. Qed.

Section LoadSaved.
Variable today : string.

Lemma rows_of_student_cons id nm d p att :
  rows_of_student id nm ((d, p) :: att)
  = [id; nm; d; str_of_bool p] :: rows_of_student id nm att.
Proof. reflexivity. Qed.

(** The records of a student whose first records have been loaded: the
    remaining dates are appended to the student's attendance. *)
Lemma load_student_rest id nm acc a2 :
  forall a1,
    ~ In id (Dict.keys acc) ->
    NoDup (Dict.keys a2) ->
    (forall k, In k (Dict.keys a2) -> ~ In k (Dict.keys a1)) ->
    load_rows today (rows_of_student id nm a2)
      (AttendanceManager.mk (acc ++ [(id, Student.mk id nm a1)]))
    = AttendanceManager.mk (acc ++ [(id, Student.mk id nm (a1 ++ a2))]).
Proof.
  induction a2 as [|[d p] a2 IH]; intros a1 Hid Hnd Hdisj.
  - simpl. now rewrite app_nil_r.
  - rewrite rows_of_student_cons, load_rows_cons, load_row_state. simpl.
    rewrite get_app_new by assumption.
    rewrite set_old by assumption.
    unfold Student.mark_attendance. simpl.
    rewrite present_cell_roundtrip.
    rewrite set_new by (apply Hdisj; now left).
    inversion Hnd as [|? ? Hd Hnd']; subst.
    rewrite IH; try assumption.
    + now rewrite <- app_assoc.
    + intros k Hk. rewrite keys_app. simpl. intros Hin.
      apply in_app_or in Hin as [Hin|[<-|[]]].
      * apply (Hdisj k); [now right | assumption].
      * contradiction.
Qed.

Lemma load_student id nm acc att :
  ~ In id (Dict.keys acc) ->
  NoDup (Dict.keys att) ->
  load_rows today (rows_of_student id nm att) (AttendanceManager.mk acc)
  = AttendanceManager.mk
      (acc ++ match att with
              | [] => []
              | _ :: _ => [(id, Student.mk id nm att)]
              end).
Proof.
  intros Hid Hnd. destruct att as [|[d p] a2].
  - simpl. now rewrite app_nil_r.
  - rewrite rows_of_student_cons, load_rows_cons, load_row_state. simpl.
    apply get_none_iff in Hid. rewrite Hid.
    rewrite present_cell_roundtrip.
    inversion Hnd as [|? ? Hd Hnd']; subst.
    apply get_none_iff in Hid.
    rewrite load_student_rest; try assumption.
    + reflexivity.
    + intros k Hk [<-|[]]. contradiction.
Qed.

Lemma rows_of_cons id s r :
  AttendanceManager.rows_of (AttendanceManager.mk ((id, s) :: r))
  = rows_of_student id (Student.name s) (Student.attendance s)
    ++ AttendanceManager.rows_of (AttendanceManager.mk r).
Proof. reflexivity. Qed.

Lemma load_saved r :
  forall acc,
    NoDup (Dict.keys r) ->
    Forall (fun entry : string * Student.t =>
              Student.student_id (snd entry) = fst entry
              /\ NoDup (Dict.keys (Student.attendance (snd entry)))) r ->
    (forall k, In k (Dict.keys r) -> ~ In k (Dict.keys acc)) ->
    load_rows today (AttendanceManager.rows_of (AttendanceManager.mk r))
      (AttendanceManager.mk acc)
    = AttendanceManager.mk
        (acc ++ AttendanceManager.students
                  (with_attendance (AttendanceManager.mk r))).
Proof.
  induction r as [|[id [sid nm att]] r IH]; intros acc Hnd Hall Hdisj.
  - simpl. now rewrite app_nil_r.
  - rewrite rows_of_cons, load_rows_app. simpl Student.name.
    simpl Student.attendance.
    inversion Hnd as [|? ? Hid Hnd']; subst.
    inversion Hall as [|? ? [Hsid Hatt] Hall']; subst. simpl in Hsid, Hatt.
    subst sid.
    rewrite load_student; [|apply Hdisj; now left|assumption].
    rewrite IH; try assumption.
    + unfold with_attendance. simpl.
      destruct att; simpl; now rewrite <- app_assoc.
    + intros k Hk. rewrite keys_app. intros Hin.
      apply in_app_or in Hin as [Hin|Hin].
      * apply (Hdisj k); [now right | assumption].
      * destruct att; simpl in Hin; [contradiction|].
        destruct Hin as [<-|[]]. contradiction.
Qed.

(** Loading the records of a roster into a fresh manager gives the
    students that have attendance, in the order of the roster. *)
Lemma load_saved_records m :
  roster_wf m ->
  load_rows today (AttendanceManager.rows_of m) AttendanceManager.init
  = with_attendance m.
Proof.
  intros Hwf. apply roster_wf_spec in Hwf as [Hnd Hall].
  destruct m as [r]. unfold AttendanceManager.init, Dict.empty.
  now rewrite load_saved.
Qed.

End LoadSaved.


(** ** What is read from a file that was written *)

Lemma universal_newlines_plain text :
  has_cr text = false -> universal_newlines text = text.
Proof.
  induction text as [|c rest IH]; intros H; simpl in *; [reflexivity|].
  apply orb_false_iff in H as [Hc Hrest]. rewrite Hc. now rewrite IH.
Qed.

Lemma plain_spec cell :
  plain cell = true -> universal_newlines cell = cell /\ fits cell = true.
Proof.
  unfold plain. intros H. apply andb_true_iff in H as [Hcr Hfits].
  apply negb_true_iff in Hcr. split; [|assumption].
  now apply universal_newlines_plain.
Qed.

Lemma plain_row_reads row :
  forallb plain row = true ->
  map universal_newlines row = row /\ forallb fits row = true.
Proof.
  induction row as [|cell row IH]; simpl; intros H; [now split|].
  apply andb_true_iff in H as [Hcell Hrow].
  apply plain_spec in Hcell as [Hnl Hfits].
  destruct (IH Hrow) as [Hmap Hall].
  now rewrite Hnl, Hmap, Hfits, Hall.
Qed.

Lemma read_back_plain rows :
  forallb (forallb plain) rows = true -> read_back rows = (rows, None).
Proof.
  induction rows as [|row rows IH]; simpl; intros H; [reflexivity|].
  apply andb_true_iff in H as [Hrow Hrows].
  apply plain_row_reads in Hrow as [Hmap Hfits].
  now rewrite Hmap, Hfits, IH.
Qed.

Lemma plain_str_of_bool p : plain (str_of_bool p) = true.
Proof. now destruct p. Qed.

Lemma rows_of_student_plain id nm att :
  plain id = true -> plain nm = true ->
  forallb plain (Dict.keys att) = true ->
  forallb (forallb plain) (rows_of_student id nm att) = true.
Proof.
  intros Hid Hnm. induction att as [|[d p] att IH]; simpl; intros H;
    [reflexivity|].
  apply andb_true_iff in H as [Hd Hatt].
  now rewrite Hid, Hnm, Hd, plain_str_of_bool, IH.
Qed.

Lemma rows_of_plain m :
  plain_roster m = true ->
  forallb (forallb plain) (AttendanceManager.rows_of m) = true.
Proof.
  destruct m as [r]. unfold plain_roster.
  cbn [AttendanceManager.students].
  induction r as [|[id s] r IH]; intros H; [reflexivity|].
  cbn [forallb fst snd] in H. apply andb_true_iff in H as [Hs Hr].
  apply andb_true_iff in Hs as [Hs Hdates].
  apply andb_true_iff in Hs as [Hid Hnm].
  rewrite rows_of_cons, forallb_app. apply andb_true_iff. split.
  - now apply rows_of_student_plain.
  - exact (IH Hr).
Qed.

(** A roster of plain cells is read as it was written. *)
Lemma written_file_plain m :
  plain_roster m = true ->
  written_file (AttendanceManager.rows_of m)
  = Reads (AttendanceManager.rows_of m) None.
Proof.
  intros H. unfold written_file.
  now rewrite read_back_plain by now apply rows_of_plain.
Qed.

(** Every record read is one of the records written, with its newlines
    translated. *)
Lemma read_back_in rows row :
  In row (fst (read_back rows)) ->
  exists written, In written rows /\ row = map universal_newlines written.
Proof.
  induction rows as [|r rows IH]; simpl; [intros []|].
  destruct (forallb fits (map universal_newlines r)); [|intros []].
  destruct (read_back rows) as [records raised]. simpl in *.
  intros [<-|Hin].
  - exists r. split; [now left | reflexivity].
  - destruct (IH Hin) as (w & Hw & ->). exists w. split; [now right|].
    reflexivity.
Qed.

(** The outcome of [save_to_csv] when the write goes through. *)
Lemma save_to_csv_written fs filename m :
  on_write fs filename = Written ->
  AttendanceManager.save_to_csv fs filename m
  = mkOutcome
      (with_file fs filename (written_file (AttendanceManager.rows_of m)))
      m
      [("[INFO] Attendance data saved to '" ++ filename ++ "'.")%string].
Proof.
  intros H. unfold AttendanceManager.save_to_csv. run_py. now rewrite H.
Qed.

Lemma file_at_with_file_same fs filename st :
  file_at (with_file fs filename st) filename = st.
Proof. unfold with_file. cbn [file_at]. now rewrite String.eqb_refl. Qed.

Lemma records_at_saved fs filename m :
  on_write fs filename = Written ->
  records_at (value (AttendanceManager.save_to_csv fs filename m)) filename
  = fst (read_back (AttendanceManager.rows_of m)).
Proof.
  intros H. rewrite save_to_csv_written by assumption. cbn [value].
  unfold records_at. rewrite file_at_with_file_same. unfold written_file.
  now destruct (read_back (AttendanceManager.rows_of m)).
Qed.

(** Loading what was saved into a fresh manager gives the students that
    have attendance, in the order of the roster. *)
Lemma load_saved_fresh today fs filename m :
  roster_wf m ->
  plain_roster m = true ->
  on_write fs filename = Written ->
  state (AttendanceManager.load_from_csv today
           (value (AttendanceManager.save_to_csv fs filename m)) filename
           AttendanceManager.init)
  = with_attendance m.
Proof.
  intros Hwf Hplain Hwrite.
  rewrite state_load_from_csv, records_at_saved by assumption.
  rewrite read_back_plain by now apply rows_of_plain.
  now apply load_saved_records.
Qed.

(** ** C2 *)




(** ** C9 *)




(* ================================================================= *)
(** * The roster invariant holds in every state the program reaches *)

Lemma Forall_set (V : Type) (P : string * V -> Prop) k v (d : Dict.t V) :
  Forall P d -> P (k, v) -> Forall P (Dict.set k v d).
Proof.
  intros Hd Hkv. induction d as [|[k0 v0] d IH]; simpl.
  - now constructor.
  - inversion Hd as [|? ? H0 Hd']; subst.
    case_eqb k k0; constructor; auto.
Qed.

Lemma roster_wf_init : roster_wf AttendanceManager.init.
Proof. reflexivity. Qed.

Lemma roster_wf_set m id s :
  roster_wf m ->
  Student.student_id s = id ->
  Dict.wf (Student.attendance s) ->
  roster_wf (AttendanceManager.mk (Dict.set id s (AttendanceManager.students m))).
Proof.
  intros Hwf Hid Hatt. apply roster_wf_spec.
  apply roster_wf_spec in Hwf as [Hnd Hall]. simpl. split.
  - apply wf_NoDup, wf_set. now apply wf_NoDup.
  - apply Forall_set; [assumption|]. simpl. split; [assumption|].
    now apply wf_NoDup.
Qed.

Lemma roster_wf_entry m id s :
  roster_wf m ->
  Dict.get id (AttendanceManager.students m) = Some s ->
  Student.student_id s = id /\ Dict.wf (Student.attendance s).
Proof.
  intros Hwf Hs. apply roster_wf_spec in Hwf as [_ Hall].
  rewrite Forall_forall in Hall.
  destruct (Hall _ (get_some_in _ _ Hs)) as [H1 H2]. simpl in *.
  split; [assumption | now apply wf_NoDup].
Qed.

Lemma roster_wf_add_student m id name :
  roster_wf m -> roster_wf (state (AttendanceManager.add_student id name m)).
Proof.
  intros Hwf. unfold AttendanceManager.add_student. run_py.
  destruct (Dict.contains id (AttendanceManager.students m)); cbn.
  - assumption.
  - apply roster_wf_set; [assumption | reflexivity | reflexivity].
Qed.

Lemma roster_wf_mark_attendance today m id p date :
  roster_wf m ->
  roster_wf (state (AttendanceManager.mark_attendance today id p date m)).
Proof.
  intros Hwf.
  destruct (Dict.get id (AttendanceManager.students m)) as [s|] eqn:E.
  - rewrite (@mark_attendance_known today id p date m s E). simpl.
    destruct (roster_wf_entry _ Hwf E) as [Hid Hatt].
    apply roster_wf_set; [assumption | assumption | simpl; auto with dict].
  - rewrite mark_attendance_unknown; [assumption|].
    unfold Dict.contains. now rewrite E.
Qed.

Lemma roster_wf_load_row today row m :
  roster_wf m -> roster_wf (state (AttendanceManager.load_row today row m)).
Proof.
  intros Hwf.
  destruct (row_cases row) as [Hlen|(i & n & d & p & ->)].
  - now rewrite load_row_skip.
  - rewrite load_row_state.
    destruct (Dict.get i (AttendanceManager.students m)) as [s|] eqn:E.
    + destruct (roster_wf_entry _ Hwf E) as [Hid Hatt].
      apply roster_wf_set; [assumption | assumption | now apply wf_set].
    + apply get_none_iff in E.
      rewrite <- (@set_new _ i (Student.mk i n [(d, String.eqb p "True")]) _ E).
      apply roster_wf_set; [assumption | reflexivity | reflexivity].
Qed.

Lemma roster_wf_load_from_csv today fs filename m :
  roster_wf m ->
  roster_wf (state (AttendanceManager.load_from_csv today fs filename m)).
Proof.
  rewrite state_load_from_csv. generalize (records_at fs filename) as file.
  intros file.
  revert m. induction file as [|row file IH]; intros m Hwf; [assumption|].
  rewrite load_rows_cons. apply IH. now apply roster_wf_load_row.
Qed.

(** The primary key of [users] holds in every state [add_user] leaves. *)
Lemma users_unique_add_user db u p :
  users_unique db ->
  users_unique (state (AttendanceDB.add_user u p db)).
Proof.
  unfold users_unique. rewrite !distinct_NoDup. intros Hnd.
  unfold AttendanceDB.add_user, AttendanceDB.insert_user. run_py.
  destruct (existsb _ (AttendanceDB.users db)) eqn:E; cbn; [assumption|].
  rewrite map_app. simpl.
  apply NoDup_app; [assumption | repeat constructor; auto | ].
  intros x Hx [Heq|[]]. subst x.
  apply in_map_iff in Hx as [[u' p'] [Hu Hin]]. simpl in Hu. subst u'.
  assert (Ht : existsb (fun r : AttendanceDB.user_row => String.eqb (fst r) u)
                 (AttendanceDB.users db) = true).
  { apply existsb_exists. exists (u, p'). split; [assumption|].
    apply String.eqb_refl. }
  congruence.
Qed.

(** The example of the specification: present on one day out of two. *)
Example ann_half :
  Student.get_attendance_percentage
    (Student.mark_attendance "2024-01-03"
       (Student.mark_attendance "2024-01-03" (Student.init "S1" "Ann")
          (Some "2024-01-01") true)
       (Some "2024-01-02") false)
  = 50%float.
Proof. reflexivity. Qed.

(* ================================================================= *)
(** * Loops that print, loops that keep an invariant *)

Lemma state_for_each (St A : Type) (body : A -> Py St unit) xs s :
  state (for_each xs body s)
  = fold_left (fun acc x => state (body x acc)) xs s.
Proof.
  revert s. induction xs as [|x xs IH]; intros s; simpl; [reflexivity|].
  apply IH.
Qed.

Lemma for_each_invariant (St A : Type) (P : St -> Prop)
    (body : A -> Py St unit) xs s :
  (forall x s0, P s0 -> P (state (body x s0))) ->
  P s -> P (state (for_each xs body s)).
Proof.
  intros Hstep. revert s. induction xs as [|x xs IH]; intros s Hs; simpl.
  - assumption.
  - apply IH. now apply Hstep.
Qed.

Lemma for_each_print_state (St A : Type) (f : A -> string) xs (s : St) :
  state (for_each xs (fun x => print (f x)) s) = s.
Proof.
  apply (for_each_invariant (fun s0 => s0 = s)); [|reflexivity].
  intros x s0 ->. reflexivity.
Qed.

Lemma for_each_print_printed (St A : Type) (f : A -> string) xs (s : St) :
  printed (for_each xs (fun x => print (f x)) s) = map f xs.
Proof.
  induction xs as [|x xs IH]; simpl; [reflexivity|]. now rewrite IH.
Qed.

Lemma for_each_silent (St A : Type) (body : A -> Py St unit) xs s :
  (forall x s0, printed (body x s0) = []) ->
  printed (for_each xs body s) = [].
Proof.
  intros Hbody. revert s. induction xs as [|x xs IH]; intros s; simpl.
  - reflexivity.
  - now rewrite Hbody, IH.
Qed.

(* ================================================================= *)
(** * More on dictionaries *)

Section DictUpdates.
Variable V : Type.
Implicit Types (d : Dict.t V) (k : string) (v : V).

Lemma set_same k v d : Dict.get k d = Some v -> Dict.set k v d = d.
Proof.
  induction d as [|[k0 v0] d IH]; simpl; [discriminate|].
  intros H. destruct (String.eqb_spec k k0) as [->|Hne].
  - injection H as H. now subst.
  - f_equal. now apply IH.
Qed.

Lemma keys_set_known k v d :
  Dict.contains k d = true -> Dict.keys (Dict.set k v d) = Dict.keys d.
Proof. intros H. now rewrite keys_set, H. Qed.

Lemma len_set k v d :
  Dict.len (Dict.set k v d)
  = Dict.len d + (if Dict.contains k d then 0 else 1).
Proof.
  unfold Dict.len.
  rewrite <- (length_map fst (Dict.set k v d)), <- (length_map fst d).
  fold (Dict.keys (Dict.set k v d)). fold (Dict.keys d). rewrite keys_set.
  destruct (Dict.contains k d); [lia|]. rewrite length_app. simpl. lia.
Qed.

Lemma contains_set k k' v d :
  Dict.contains k' (Dict.set k v d)
  = String.eqb k' k || Dict.contains k' d.
Proof.
  unfold Dict.contains. case_eqb k' k.
  - now rewrite get_set_same.
  - now rewrite get_set_other.
Qed.

End DictUpdates.

(* ================================================================= *)
(** * Marking attendance: what changes and what does not *)

(** X1. [AttendanceManager.mark_attendance] returns whether the id is in
    the roster.  The students, their order, ids and names stay; for an
    unknown id the roster is untouched; the only entry that may change
    is the one of the id on the date written to, which for a known id
    holds the value passed. *)
Theorem manager_mark_attendance_effect (today id : string) (p : bool)
    (date : option string) (m : AttendanceManager.t) :
  value (AttendanceManager.mark_attendance today id p date m)
  = Dict.contains id (AttendanceManager.students m)
  /\ (Dict.contains id (AttendanceManager.students m) = false ->
      state (AttendanceManager.mark_attendance today id p date m) = m)
  /\ Dict.keys (AttendanceManager.students
                  (state (AttendanceManager.mark_attendance today id p date m)))
     = Dict.keys (AttendanceManager.students m)
  /\ (forall id' date',
         id' <> id \/ date' <> effective_date today date ->
         recorded (state (AttendanceManager.mark_attendance today id p date m))
                  id' date'
         = recorded m id' date')
  /\ (Dict.contains id (AttendanceManager.students m) = true ->
      recorded (state (AttendanceManager.mark_attendance today id p date m))
               id (effective_date today date) = Some p).
Proof.
  destruct (Dict.get id (AttendanceManager.students m)) as [s|] eqn:E.
  - assert (Hc : Dict.contains id (AttendanceManager.students m) = true)
      by (unfold Dict.contains; now rewrite E).
    rewrite (@mark_attendance_known today id p date m s E). simpl.
    rewrite Hc. split; [reflexivity|]. split; [discriminate|].
    split; [now apply keys_set_known|]. split.
    + intros id' date' Hne. unfold recorded. simpl.
      case_eqb id' id.
      * rewrite get_set_same, E.
        destruct Hne as [Hne|Hne]; [congruence|].
        destruct date; simpl in *; now apply get_set_other.
      * now rewrite get_set_other.
    + intros _. unfold recorded. simpl. rewrite get_set_same.
      apply student_mark_records.
  - assert (Hc : Dict.contains id (AttendanceManager.students m) = false)
      by (unfold Dict.contains; now rewrite E).
    rewrite (@mark_attendance_unknown today id p date m Hc). simpl.
    rewrite Hc. repeat split; auto; discriminate.
Qed.

Lemma manager_mark_attendance_effect_witness :
  state (AttendanceManager.mark_attendance "2024-01-03" "S9" true None
           roster_marked) = roster_marked
  /\ recorded (state (AttendanceManager.mark_attendance "2024-01-03" "S1" true
                        None roster_marked)) "S1" "2024-01-02"
     = Some false
  /\ recorded (state (AttendanceManager.mark_attendance "2024-01-03" "S1" true
                        None roster_marked)) "S1" "2024-01-03"
     = Some true.
Proof.
  split; [|split].
  - exact (proj1 (proj2 (manager_mark_attendance_effect "2024-01-03" "S9" true
                           None roster_marked)) eq_refl).
  - rewrite (proj1 (proj2 (proj2 (proj2
               (manager_mark_attendance_effect "2024-01-03" "S1" true None
                  roster_marked)))) "S1" "2024-01-02").
    + reflexivity.
    + right. discriminate.
  - exact (proj2 (proj2 (proj2 (proj2
             (manager_mark_attendance_effect "2024-01-03" "S1" true None
                roster_marked)))) eq_refl).
Defined.

(** X2. [Student.mark_attendance] keeps id and name and every other
    date; the number of recorded dates grows by one for a new date and
    stays for a date already recorded. *)
Theorem student_mark_attendance_effect (today : string) (s : Student.t)
    (date : option string) (p : bool) :
  Student.student_id (Student.mark_attendance today s date p)
  = Student.student_id s
  /\ Student.name (Student.mark_attendance today s date p) = Student.name s
  /\ (forall d, d <> effective_date today date ->
        Dict.get d (Student.attendance (Student.mark_attendance today s date p))
        = Dict.get d (Student.attendance s))
  /\ Dict.len (Student.attendance (Student.mark_attendance today s date p))
     = Dict.len (Student.attendance s)
       + (if Dict.contains (effective_date today date) (Student.attendance s)
          then 0 else 1)
  /\ (Dict.wf (Student.attendance s) ->
      Dict.wf (Student.attendance (Student.mark_attendance today s date p))).
Proof.
  unfold Student.mark_attendance. simpl.
  split; [reflexivity|]. split; [reflexivity|].
  split; [|split].
  - intros d Hd. destruct date; simpl in *; now apply get_set_other.
  - destruct date; simpl; apply len_set.
  - intros Hwf. now apply wf_set.
Qed.

Lemma student_mark_attendance_effect_witness :
  Dict.get "2024-01-01"
    (Student.attendance (Student.mark_attendance "2024-01-03" ann None true))
  = Some true
  /\ Dict.wf (Student.attendance
                (Student.mark_attendance "2024-01-03" ann None true)).
Proof.
  split.
  - rewrite (proj1 (proj2 (proj2
               (student_mark_attendance_effect "2024-01-03" ann None true)))
               "2024-01-01").
    + reflexivity.
    + discriminate.
  - exact (proj2 (proj2 (proj2 (proj2
             (student_mark_attendance_effect "2024-01-03" ann None true))))
             eq_refl).
Defined.

(* ================================================================= *)
(** * Saving *)

Lemma rows_of_student_saved id nm att :
  forallb saved_record (rows_of_student id nm att) = true.
Proof.
  induction att as [|[d p] att IH]; simpl; [reflexivity|].
  rewrite IH. now destruct p.
Qed.

Lemma rows_of_saved r :
  forallb saved_record (AttendanceManager.rows_of (AttendanceManager.mk r))
  = true.
Proof.
  induction r as [|[id s] r IH]; [reflexivity|].
  rewrite rows_of_cons, forallb_app, IH, rows_of_student_saved. reflexivity.
Qed.

Lemma rows_of_length r :
  List.length (AttendanceManager.rows_of (AttendanceManager.mk r))
  = entry_count (AttendanceManager.mk r).
Proof.
  unfold entry_count. simpl.
  induction r as [|[id s] r IH]; [reflexivity|].
  rewrite rows_of_cons, length_app, IH. unfold rows_of_student.
  simpl. now rewrite length_map.
Qed.

Lemma saved_record_cells row :
  saved_record row = true ->
  exists a b c p, row = [a; b; c; str_of_bool p].
Proof.
  destruct row as [|a [|b [|c [|d [|e row]]]]]; simpl; try discriminate.
  intros H. apply orb_true_iff in H as [H|H]; apply String.eqb_eq in H;
    subst d.
  - now exists a, b, c, true.
  - now exists a, b, c, false.
Qed.

Lemma universal_newlines_str_of_bool p :
  universal_newlines (str_of_bool p) = str_of_bool p.
Proof. now destruct p. Qed.

(** The records read from a saved file are saved records. *)
Lemma read_back_saved rows :
  forallb saved_record rows = true ->
  forallb saved_record (fst (read_back rows)) = true.
Proof.
  induction rows as [|row rows IH]; simpl; intros H; [reflexivity|].
  apply andb_true_iff in H as [Hrow Hrows].
  destruct (forallb fits (map universal_newlines row)); [|reflexivity].
  specialize (IH Hrows).
  destruct (read_back rows) as [records raised]. simpl in *.
  rewrite IH, andb_true_r.
  destruct (saved_record_cells _ Hrow) as (a & b & c & p & ->). simpl.
  rewrite universal_newlines_str_of_bool. now destruct p.
Qed.

Lemma read_back_length rows :
  List.length (fst (read_back rows)) <= List.length rows.
Proof.
  induction rows as [|row rows IH]; simpl; [lia|].
  destruct (forallb fits (map universal_newlines row)); simpl; [|lia].
  destruct (read_back rows) as [records raised]. simpl in *. lia.
Qed.

(** X3. [save_to_csv] leaves the roster as it is and touches no other
    file.  It writes one record per attendance entry, each of four cells
    with [True] or [False] as the last one.  When the write goes through
    it prints the closing message; the records read from the file are
    then at most as many as the entries, each of four cells with [True]
    or [False] as the last one, so that a load passes over none of them,
    and they are the records written when the roster holds plain cells.
    When [open] raises it prints the error line and the disk is as
    before; when a write raises it prints the error line and the file
    is what the failure left. *)
Theorem save_to_csv_effect (fs : filesystem) (filename : string)
    (m : AttendanceManager.t) :
  state (AttendanceManager.save_to_csv fs filename m) = m
  /\ (forall other, other <> filename ->
        file_at (value (AttendanceManager.save_to_csv fs filename m)) other
        = file_at fs other)
  /\ (List.length (AttendanceManager.rows_of m) = entry_count m
      /\ forallb saved_record (AttendanceManager.rows_of m) = true)
  /\ (on_write fs filename = Written ->
      printed (AttendanceManager.save_to_csv fs filename m)
      = [("[INFO] Attendance data saved to '" ++ filename ++ "'.")%string]
      /\ file_at (value (AttendanceManager.save_to_csv fs filename m)) filename
         = written_file (AttendanceManager.rows_of m)
      /\ List.length
           (records_at (value (AttendanceManager.save_to_csv fs filename m))
                       filename) <= entry_count m
      /\ forallb saved_record
           (records_at (value (AttendanceManager.save_to_csv fs filename m))
                       filename) = true
      /\ (plain_roster m = true ->
          file_at (value (AttendanceManager.save_to_csv fs filename m))
                  filename
          = Reads (AttendanceManager.rows_of m) None))
  /\ (forall e, on_write fs filename = OpenRaises e ->
        AttendanceManager.save_to_csv fs filename m
        = mkOutcome fs m [("[ERROR] Failed to save file: " ++ e)%string])
  /\ (forall e remains, on_write fs filename = WriteRaises e remains ->
        AttendanceManager.save_to_csv fs filename m
        = mkOutcome (with_file fs filename remains) m
            [("[ERROR] Failed to save file: " ++ e)%string]).
Proof.
  assert (Hrows : List.length (AttendanceManager.rows_of m) = entry_count m
                  /\ forallb saved_record (AttendanceManager.rows_of m)
                     = true).
  { destruct m as [r]. split; [apply rows_of_length | apply rows_of_saved]. }
  split; [|split; [|split; [exact Hrows|split; [|split] ] ] ].
  - unfold AttendanceManager.save_to_csv. run_py.
    now destruct (on_write fs filename).
  - intros other Hne. unfold AttendanceManager.save_to_csv. run_py.
    destruct (on_write fs filename); cbn; try reflexivity;
      now case_eqb other filename.
  - intros Hwrite. destruct Hrows as [Hlen Hsaved].
    rewrite records_at_saved by assumption.
    rewrite save_to_csv_written by assumption. cbn [printed value].
    rewrite file_at_with_file_same.
    split; [reflexivity|]. split; [reflexivity|]. split; [|split].
    + rewrite <- Hlen. apply read_back_length.
    + now apply read_back_saved.
    + apply written_file_plain.
  - intros e He. unfold AttendanceManager.save_to_csv. run_py.
    now rewrite He.
  - intros e remains He. unfold AttendanceManager.save_to_csv. run_py.
    now rewrite He.
Qed.

Lemma save_to_csv_effect_witness :
  AttendanceManager.save_to_csv no_directory "nodir/a.csv" roster_marked
  = mkOutcome no_directory roster_marked
      ["[ERROR] Failed to save file: [Errno 2] No such file or directory: 'nodir/a.csv'"]
  /\ file_at (value (AttendanceManager.save_to_csv
                       (with_file no_files "b.csv" (Reads literal_file None))
                       "a.csv" roster_marked))
             "b.csv"
     = Reads literal_file None
  /\ file_at (value (AttendanceManager.save_to_csv no_files "a.csv"
                       roster_marked))
             "a.csv"
     = Reads [["S1"; "Ann"; "2024-01-01"; "True"];
              ["S1"; "Ann"; "2024-01-02"; "False"];
              ["S3"; "Cy"; "2024-01-02"; "True"]] None.
Proof.
  split; [|split].
  - exact (proj1 (proj2 (proj2 (proj2 (proj2
             (save_to_csv_effect no_directory "nodir/a.csv" roster_marked)))))
             _ eq_refl).
  - rewrite (proj1 (proj2 (save_to_csv_effect
                             (with_file no_files "b.csv"
                                (Reads literal_file None))
                             "a.csv" roster_marked)) "b.csv").
    + reflexivity.
    + discriminate.
  - destruct (proj1 (proj2 (proj2 (proj2
                (save_to_csv_effect no_files "a.csv" roster_marked))))
                eq_refl) as (_ & _ & _ & _ & Hplain).
    exact (Hplain eq_refl).
Defined.

(* ================================================================= *)
(** * Loading: more *)

Lemma student_eta (s : Student.t) :
  Student.mk (Student.student_id s) (Student.name s) (Student.attendance s) = s.
Proof. now destruct s. Qed.

Lemma manager_eta (m : AttendanceManager.t) :
  AttendanceManager.mk (AttendanceManager.students m) = m.
Proof. now destruct m. Qed.

(** A record that repeats what the roster holds changes nothing. *)
Lemma load_row_same today i n d c m :
  recorded m i d = Some (String.eqb c "True") ->
  state (AttendanceManager.load_row today [i; n; d; c] m) = m.
Proof.
  unfold recorded. intros H. rewrite load_row_state.
  destruct (Dict.get i (AttendanceManager.students m)) as [s|] eqn:E;
    [|discriminate].
  unfold Student.mark_attendance.
  rewrite (set_same _ _ H), student_eta, (set_same _ _ E).
  apply manager_eta.
Qed.

Lemma load_rows_same today rows m :
  Forall (fun row => exists i n d c,
              row = [i; n; d; c]
              /\ recorded m i d = Some (String.eqb c "True")) rows ->
  load_rows today rows m = m.
Proof.
  induction rows as [|row rows IH]; intros Hall; [reflexivity|].
  inversion Hall as [|? ? (i & n & d & c & -> & Hrec) Hall']; subst.
  rewrite load_rows_cons, load_row_same by assumption. now apply IH.
Qed.

(** X4. Saving a roster and loading the file back into the same manager,
    as [run_tests] does, leaves the roster as it was, when the write
    goes through and no id and no date of the roster holds a carriage
    return; the names are free, and so is the length of the cells. *)
Theorem save_then_load_same_manager (today : string) (fs : filesystem)
    (filename : string) (m : AttendanceManager.t) :
  roster_wf m ->
  keys_without_cr m = true ->
  on_write fs filename = Written ->
  state (AttendanceManager.load_from_csv today
           (value (AttendanceManager.save_to_csv fs filename m)) filename m)
  = m.
Proof.
  intros Hwf Hkeys Hwrite.
  rewrite state_load_from_csv, records_at_saved by assumption.
  apply load_rows_same.
  apply Forall_forall. intros row Hrow.
  apply read_back_in in Hrow as (w & Hw & ->).
  unfold AttendanceManager.rows_of in Hw.
  apply in_flat_map in Hw as [[id s] [Hentry Hw]].
  apply in_map_iff in Hw as [[d p] [<- Hdp]].
  unfold keys_without_cr in Hkeys. rewrite forallb_forall in Hkeys.
  specialize (Hkeys _ Hentry). cbn [fst snd] in Hkeys.
  apply andb_true_iff in Hkeys as [Hid Hdates].
  apply negb_true_iff in Hid.
  rewrite forallb_forall in Hdates.
  assert (Hd : has_cr d = false).
  { apply negb_true_iff. apply Hdates. apply in_map_iff.
    now exists (d, p). }
  exists id, (universal_newlines (Student.name s)), d, (str_of_bool p).
  split.
  { cbn [map]. rewrite (universal_newlines_plain id Hid).
    rewrite (universal_newlines_plain d Hd).
    now rewrite universal_newlines_str_of_bool. }
  rewrite present_cell_roundtrip. unfold recorded.
  pose proof Hwf as Hwf'. apply roster_wf_spec in Hwf' as [Hnd Hall].
  assert (Hget : Dict.get id (AttendanceManager.students m) = Some s).
  { apply in_get_some; [now apply wf_NoDup | exact Hentry]. }
  rewrite Hget.
  destruct (roster_wf_entry _ Hwf Hget) as [_ Hatt].
  now apply in_get_some.
Qed.

Lemma save_then_load_same_manager_witness :
  state (AttendanceManager.load_from_csv "2024-01-04"
           (value (AttendanceManager.save_to_csv no_files "a.csv"
                     roster_cr_name)) "a.csv" roster_cr_name)
  = roster_cr_name.
Proof.
  exact (@save_then_load_same_manager "2024-01-04" no_files "a.csv"
           roster_cr_name eq_refl eq_refl eq_refl).
Defined.

Lemma load_row_silent today row m :
  printed (AttendanceManager.load_row today row m) = [].
Proof.
  destruct (row_cases row) as [Hlen|(i & n & d & c & ->)].
  - now rewrite load_row_skip.
  - unfold AttendanceManager.load_row, AttendanceManager.mark_stored. run_py.
    destruct (Dict.contains i (AttendanceManager.students m)); cbn;
      match goal with
      | |- context [match ?x with Some _ => _ | None => _ end] => destruct x
      end; reflexivity.
Qed.

(** X5. [load_from_csv] prints one line whatever it meets: the warning
    for a missing file, in which case the roster is untouched; the
    closing message when the reader ends; and the error line with the
    text of the exception when reading raises, in which case the records
    yielded before it have been merged.  Records, well formed or not,
    are read in silence. *)
Theorem load_from_csv_output (today : string) (fs : filesystem)
    (filename : string) (m : AttendanceManager.t) :
  (file_at fs filename = Missing ->
   AttendanceManager.load_from_csv today fs filename m
   = mkOutcome tt m [("[WARN] File '" ++ filename ++ "' not found.")%string])
  /\ (forall records, file_at fs filename = Reads records None ->
        printed (AttendanceManager.load_from_csv today fs filename m)
        = [("[INFO] Data loaded from '" ++ filename ++ "'.")%string])
  /\ (forall records e, file_at fs filename = Reads records (Some e) ->
        printed (AttendanceManager.load_from_csv today fs filename m)
        = [("[ERROR] Failed to load file: " ++ e)%string]
        /\ state (AttendanceManager.load_from_csv today fs filename m)
           = load_rows today records m)
  /\ List.length (printed (AttendanceManager.load_from_csv today fs filename m))
     = 1.
Proof.
  assert (Hsilent : forall records s,
             printed (for_each records (AttendanceManager.load_row today) s)
             = []).
  { intros records s. apply for_each_silent.
    intros row s0. apply load_row_silent. }
  split; [|split; [|split] ].
  - unfold AttendanceManager.load_from_csv. intros ->. reflexivity.
  - unfold AttendanceManager.load_from_csv. intros records ->.
    unfold bind. cbn [printed print]. now rewrite Hsilent.
  - intros records e Hfile. split.
    + unfold AttendanceManager.load_from_csv. rewrite Hfile.
      unfold bind. cbn [printed print]. now rewrite Hsilent.
    + now rewrite state_load_from_csv, (records_at_reads _ _ Hfile).
  - unfold AttendanceManager.load_from_csv.
    destruct (file_at fs filename) as [|records [e|] ]; [reflexivity| |];
      unfold bind; cbn [printed print]; now rewrite Hsilent.
Qed.

Lemma load_from_csv_output_witness :
  AttendanceManager.load_from_csv "2024-01-04" no_files "a.csv" roster_marked
  = mkOutcome tt roster_marked ["[WARN] File 'a.csv' not found."]
  /\ printed (AttendanceManager.load_from_csv "2024-01-04"
                (with_file no_files "a.csv" (Reads merge_file None)) "a.csv"
                roster_marked)
     = ["[INFO] Data loaded from 'a.csv'."]
  /\ printed (AttendanceManager.load_from_csv "2024-01-04"
                (with_file no_files "a.csv" unreadable) "a.csv"
                roster_marked)
     = ["[ERROR] Failed to load file: [Errno 13] Permission denied: 'a.csv'"].
Proof.
  split; [|split].
  - exact (proj1 (load_from_csv_output "2024-01-04" no_files "a.csv"
                    roster_marked) eq_refl).
  - exact (proj1 (proj2 (load_from_csv_output "2024-01-04"
                    (with_file no_files "a.csv" (Reads merge_file None))
                    "a.csv" roster_marked)) merge_file eq_refl).
  - exact (proj1 (proj1 (proj2 (proj2 (load_from_csv_output "2024-01-04"
                    (with_file no_files "a.csv" unreadable)
                    "a.csv" roster_marked))) [] _ eq_refl)).
Defined.

(* ================================================================= *)
(** * Nothing is ever deleted *)

Lemma extends_refl m : extends m m.
Proof. intros id s Hs. exists s. auto. Qed.

Lemma extends_trans m1 m2 m3 : extends m1 m2 -> extends m2 m3 -> extends m1 m3.
Proof.
  intros H12 H23 id s Hs.
  destruct (H12 id s Hs) as (s2 & Hs2 & Hi2 & Hn2 & Hd2).
  destruct (H23 id s2 Hs2) as (s3 & Hs3 & Hi3 & Hn3 & Hd3).
  exists s3. repeat split; try congruence. auto.
Qed.

Lemma extends_set m k s1 :
  (forall s0, Dict.get k (AttendanceManager.students m) = Some s0 ->
              Student.student_id s1 = Student.student_id s0
              /\ Student.name s1 = Student.name s0
              /\ forall d, Dict.contains d (Student.attendance s0) = true ->
                           Dict.contains d (Student.attendance s1) = true) ->
  extends m (AttendanceManager.mk (Dict.set k s1 (AttendanceManager.students m))).
Proof.
  intros Hk id s Hs. simpl. case_eqb id k.
  - rewrite get_set_same. exists s1. split; [reflexivity|]. now apply Hk.
  - rewrite get_set_other by assumption. exists s. auto.
Qed.

Lemma add_student_extends id name m :
  extends m (state (AttendanceManager.add_student id name m)).
Proof.
  unfold AttendanceManager.add_student. run_py.
  destruct (Dict.contains id (AttendanceManager.students m)) eqn:E; cbn.
  - apply extends_refl.
  - apply extends_set. intros s0 Hs0. unfold Dict.contains in E.
    now rewrite Hs0 in E.
Qed.

Lemma student_mark_keeps_dates today s date p d :
  Dict.contains d (Student.attendance s) = true ->
  Dict.contains d (Student.attendance (Student.mark_attendance today s date p))
  = true.
Proof.
  intros H. unfold Student.mark_attendance. simpl.
  rewrite contains_set, H. apply orb_true_r.
Qed.

Lemma mark_attendance_extends today id p date m :
  extends m (state (AttendanceManager.mark_attendance today id p date m)).
Proof.
  destruct (Dict.get id (AttendanceManager.students m)) as [s|] eqn:E.
  - rewrite (@mark_attendance_known today id p date m s E). simpl.
    apply extends_set. intros s0 Hs0. assert (s0 = s) by congruence. subst s0.
    repeat split. intros d. apply student_mark_keeps_dates.
  - rewrite mark_attendance_unknown; [apply extends_refl|].
    unfold Dict.contains. now rewrite E.
Qed.

Lemma load_row_extends today row m :
  extends m (state (AttendanceManager.load_row today row m)).
Proof.
  destruct (row_cases row) as [Hlen|(i & n & d & c & ->)].
  - rewrite load_row_skip by assumption. apply extends_refl.
  - rewrite load_row_state.
    destruct (Dict.get i (AttendanceManager.students m)) as [s|] eqn:E.
    + apply extends_set. intros s0 Hs0. assert (s0 = s) by congruence.
      subst s0. repeat split. intros d0. apply student_mark_keeps_dates.
    + pose proof E as Hni. apply get_none_iff in Hni.
      rewrite <- (@set_new _ i (Student.mk i n [(d, String.eqb c "True")]) _ Hni).
      apply extends_set. intros s0 Hs0. congruence.
Qed.

Lemma load_rows_extends today rows m : extends m (load_rows today rows m).
Proof.
  revert m. induction rows as [|row rows IH]; intros m.
  - apply extends_refl.
  - rewrite load_rows_cons.
    eapply extends_trans; [apply load_row_extends | apply IH].
Qed.

Lemma load_from_csv_extends today fs filename m :
  extends m (state (AttendanceManager.load_from_csv today fs filename m)).
Proof.
  rewrite state_load_from_csv. apply load_rows_extends.
Qed.

(** One round of [generate_fake_students]. *)
Lemma generate_round_state (P : AttendanceManager.t -> Prop) d m :
  (forall i n m0, P m0 -> P (state (AttendanceManager.add_student i n m0))) ->
  (forall t i p dt m0,
      P m0 -> P (state (AttendanceManager.mark_attendance t i p dt m0))) ->
  P m ->
  P (state (bind (AttendanceManager.add_student (drawn_id d) (drawn_name d))
              (fun _ =>
                 for_each (drawn_marks d)
                   (fun mark =>
                      bind (AttendanceManager.mark_attendance (fst mark)
                              (drawn_id d) (snd mark) (Some (fst mark)))
                           (fun _ => ret tt))) m)).
Proof.
  intros Hadd Hmark Hm. unfold bind at 1. cbn [state].
  apply for_each_invariant; [|now apply Hadd].
  intros mark m0 Hm0. unfold bind. cbn [state ret]. now apply Hmark.
Qed.

Lemma generate_fake_students_invariant (P : AttendanceManager.t -> Prop)
    count draws m :
  (forall i n m0, P m0 -> P (state (AttendanceManager.add_student i n m0))) ->
  (forall t i p dt m0,
      P m0 -> P (state (AttendanceManager.mark_attendance t i p dt m0))) ->
  P m ->
  P (state (generate_fake_students count draws m)).
Proof.
  intros Hadd Hmark Hm. unfold generate_fake_students.
  unfold bind at 1. cbn [state print].
  apply for_each_invariant; [|assumption].
  intros d m0 Hm0. now apply generate_round_state.
Qed.

Lemma print_table_state (St : Type) headers rows (s : St) :
  state (print_table headers rows s) = s.
Proof.
  unfold print_table. destruct (widen _ rows); [|reflexivity].
  unfold bind. simpl. apply for_each_print_state.
Qed.

Lemma list_students_state m : state (list_students m) = m.
Proof. unfold list_students, bind. simpl. apply for_each_print_state. Qed.

Lemma summary_report_state m : state (summary_report m) = m.
Proof. unfold summary_report, bind. simpl. apply for_each_print_state. Qed.

Lemma enhanced_summary_state m : state (enhanced_summary m) = m.
Proof. unfold enhanced_summary, bind. simpl. apply print_table_state. Qed.

Lemma view_student_attendance_state entered m :
  state (view_student_attendance entered m) = m.
Proof.
  unfold view_student_attendance, bind. simpl.
  destruct (Dict.get entered (AttendanceManager.students m)) as [s|];
    [|reflexivity].
  simpl. destruct (Student.attendance s); simpl; [reflexivity|].
  apply for_each_print_state.
Qed.

Lemma save_to_csv_state fs filename m :
  state (AttendanceManager.save_to_csv fs filename m) = m.
Proof.
  unfold AttendanceManager.save_to_csv. run_py.
  now destruct (on_write fs filename).
Qed.

Lemma run_manager_op_extends o m : extends m (run_manager_op o m).
Proof.
  destruct o; unfold run_manager_op.
  - apply add_student_extends.
  - rewrite list_students_state. apply extends_refl.
  - apply mark_attendance_extends.
  - rewrite enhanced_summary_state. apply extends_refl.
  - rewrite save_to_csv_state. apply extends_refl.
  - apply load_from_csv_extends.
  - rewrite view_student_attendance_state. apply extends_refl.
  - apply (generate_fake_students_invariant (extends m)).
    + intros i n m0 H. eapply extends_trans; [exact H|].
      apply add_student_extends.
    + intros t i p dt m0 H. eapply extends_trans; [exact H|].
      apply mark_attendance_extends.
    + apply extends_refl.
Qed.

(** X6. Whatever the menu calls in whatever order, nothing is deleted:
    every student of the roster stays, under its id and with its name,
    and keeps a record on every date it had one. *)
Theorem manager_never_deletes (ops : list manager_op)
    (m : AttendanceManager.t) (id : string) (s : Student.t) :
  Dict.get id (AttendanceManager.students m) = Some s ->
  exists s',
    Dict.get id (AttendanceManager.students (run_manager_ops ops m)) = Some s'
    /\ Student.student_id s' = Student.student_id s
    /\ Student.name s' = Student.name s
    /\ forall d, Dict.contains d (Student.attendance s) = true ->
                 Dict.contains d (Student.attendance s') = true.
Proof.
  assert (H : extends m (run_manager_ops ops m)).
  { revert m. induction ops as [|o ops IH]; intros m.
    - apply extends_refl.
    - simpl. eapply extends_trans; [apply run_manager_op_extends | apply IH]. }
  apply H.
Qed.

Lemma manager_never_deletes_witness :
  exists s',
    Dict.get "S1" (AttendanceManager.students
                     (run_manager_ops busy_session roster_marked)) = Some s'
    /\ Student.student_id s' = "S1"
    /\ Student.name s' = "Ann"
    /\ forall d,
         Dict.contains d [("2024-01-01", true); ("2024-01-02", false)] = true ->
         Dict.contains d (Student.attendance s') = true.
Proof.
  exact (@manager_never_deletes busy_session roster_marked "S1"
           (Student.mk "S1" "Ann"
              [("2024-01-01", true); ("2024-01-02", false)]) eq_refl).
Defined.

Lemma run_manager_op_wf o m : roster_wf m -> roster_wf (run_manager_op o m).
Proof.
  intros Hwf. destruct o; unfold run_manager_op.
  - now apply roster_wf_add_student.
  - now rewrite list_students_state.
  - now apply roster_wf_mark_attendance.
  - now rewrite enhanced_summary_state.
  - now rewrite save_to_csv_state.
  - now apply roster_wf_load_from_csv.
  - now rewrite view_student_attendance_state.
  - apply (generate_fake_students_invariant roster_wf); try assumption.
    + intros. now apply roster_wf_add_student.
    + intros. now apply roster_wf_mark_attendance.
Qed.

(** X7. In every state the manager reaches from the empty roster, by
    any calls in any order and with any files, no id occurs twice, every
    student is filed under its own id, and no student has two records
    for one date. *)
Theorem manager_reachable_wf (ops : list manager_op) :
  roster_wf (run_manager_ops ops AttendanceManager.init).
Proof.
  assert (H : forall m, roster_wf m -> roster_wf (run_manager_ops ops m)).
  { induction ops as [|o ops IH]; intros m Hwf; [assumption|].
    simpl. apply IH. now apply run_manager_op_wf. }
  apply H. reflexivity.
Qed.

(* ================================================================= *)
(** * Loading: the students it creates, the last record, loading twice *)

(** X8. A student that the roster does not have is created by the first
    record of four cells that names its id: with that id, with the name
    of that record, and with a record on the date of that record.  No
    student is created without attendance. *)
Theorem load_from_csv_creates_student (today : string) (fs : filesystem)
    (filename : string) (m : AttendanceManager.t) (pre post : csv_file)
    (raised : option string) (id n d c : string) :
  Dict.get id (AttendanceManager.students m) = None ->
  file_at fs filename = Reads (pre ++ [id; n; d; c] :: post) raised ->
  existsb (row_names id) pre = false ->
  exists s,
    Dict.get id (AttendanceManager.students
                   (state (AttendanceManager.load_from_csv today fs filename m)))
    = Some s
    /\ Student.student_id s = id
    /\ Student.name s = n
    /\ Dict.contains d (Student.attendance s) = true.
Proof.
  intros Hnone Hfile Hpre.
  rewrite state_load_from_csv, (records_at_reads _ _ Hfile).
  rewrite load_rows_app, load_rows_cons.
  pose proof (load_rows_no_new today pre m id Hpre Hnone) as H1.
  set (m1 := load_rows today pre m) in *.
  assert (H2 : Dict.get id (AttendanceManager.students
                              (state (AttendanceManager.load_row today
                                        [id; n; d; c] m1)))
               = Some (Student.mk id n [(d, String.eqb c "True")])).
  { rewrite load_row_state, H1. simpl. apply get_app_new.
    now apply get_none_iff. }
  destruct (load_rows_extends today post _ _ H2) as (s & Hs & Hi & Hn & Hd).
  exists s. repeat split; try assumption.
  apply Hd. unfold Dict.contains. simpl. now rewrite String.eqb_refl.
Qed.

Lemma load_from_csv_creates_student_witness :
  exists s,
    Dict.get "S3" (AttendanceManager.students
                     (state (AttendanceManager.load_from_csv "2024-01-04"
                               (with_file no_files "a.csv"
                                  (Reads merge_file None))
                               "a.csv" roster_ann_bob)))
    = Some s
    /\ Student.student_id s = "S3"
    /\ Student.name s = "Cy"
    /\ Dict.contains "2024-01-02" (Student.attendance s) = true.
Proof.
  exact (@load_from_csv_creates_student "2024-01-04"
           (with_file no_files "a.csv" (Reads merge_file None)) "a.csv"
           roster_ann_bob
           [["S1"; "Anna"; "2024-01-02"; "False"]] [] None
           "S3" "Cy" "2024-01-02" "True" eq_refl eq_refl eq_refl).
Defined.

Lemma row_marks_cells i d row :
  row_marks i d row = true ->
  exists n c, row = [i; n; d; c].
Proof.
  destruct row as [|a [|b [|c0 [|e [|x row]]]]]; simpl; try discriminate.
  intros H. apply andb_true_iff in H as [H1 H2].
  apply String.eqb_eq in H1, H2. subst. eauto.
Qed.

Lemma recorded_load_rows today rows m i d :
  recorded (load_rows today rows m) i d
  = match last_mark i d rows with
    | Some b => Some b
    | None => recorded m i d
    end.
Proof.
  revert m. induction rows as [|row rows IH]; intros m; [reflexivity|].
  rewrite load_rows_cons, IH. simpl.
  destruct (last_mark i d rows); [reflexivity|].
  destruct (row_marks i d row) eqn:E.
  - destruct (row_marks_cells _ _ _ E) as (n & c & ->). simpl.
    apply load_row_records.
  - now apply load_row_frame.
Qed.

(** X9. After a load, the entry of a student on a date is what the last
    record of four cells about that student and date says, and what it
    was before when no record is about them. *)
Theorem load_from_csv_last_record_wins (today : string) (fs : filesystem)
    (filename : string) (m : AttendanceManager.t) (id date : string) :
  recorded (state (AttendanceManager.load_from_csv today fs filename m)) id date
  = match last_mark id date (records_at fs filename) with
    | Some b => Some b
    | None => recorded m id date
    end.
Proof.
  rewrite state_load_from_csv. apply recorded_load_rows.
Qed.

Lemma has_entry_recorded m i d :
  has_entry m i d = true <-> exists v, recorded m i d = Some v.
Proof.
  unfold has_entry, recorded, Dict.contains.
  destruct (Dict.get i (AttendanceManager.students m)) as [s|].
  - destruct (Dict.get d (Student.attendance s)) as [v|].
    + split; [eauto | reflexivity].
    + split; [discriminate | intros [v H]; discriminate].
  - split; [discriminate | intros [v H]; discriminate].
Qed.

Lemma has_entry_extends m m' i d :
  extends m m' -> has_entry m i d = true -> has_entry m' i d = true.
Proof.
  unfold has_entry. intros Hext.
  destruct (Dict.get i (AttendanceManager.students m)) as [s|] eqn:E;
    [|discriminate].
  destruct (Hext i s E) as (s' & -> & _ & _ & Hd). apply Hd.
Qed.

Lemma settled_extends rows m m' :
  extends m m' -> settled rows m = true -> settled rows m' = true.
Proof.
  unfold settled. rewrite !forallb_forall. intros Hext H row Hrow.
  specialize (H row Hrow).
  destruct row as [|i [|n [|d [|c [|x row]]]]]; try reflexivity.
  now apply (has_entry_extends _ _ Hext).
Qed.

Lemma settled_cons row rows m :
  settled (row :: rows) m = settled [row] m && settled rows m.
Proof. unfold settled. simpl. now rewrite andb_true_r. Qed.

Lemma settled_load_rows today rows m :
  settled rows (load_rows today rows m) = true.
Proof.
  revert m. induction rows as [|row rows IH]; intros m; [reflexivity|].
  rewrite load_rows_cons, settled_cons, IH, andb_true_r.
  unfold settled. simpl. rewrite andb_true_r.
  destruct row as [|i [|n [|d [|c [|x row]]]]]; try reflexivity.
  apply (has_entry_extends _ _ (load_rows_extends today rows _)).
  apply has_entry_recorded. eexists. apply load_row_records.
Qed.

Lemma map_set_same (V B : Type) (g : string * V -> B) k v v0 (l : Dict.t V) :
  Dict.get k l = Some v0 -> g (k, v) = g (k, v0) ->
  map g (Dict.set k v l) = map g l.
Proof.
  intros Hget Hg. induction l as [|[k1 v1] l IH]; simpl in *; [discriminate|].
  destruct (String.eqb_spec k k1) as [->|Hne]; simpl.
  - injection Hget as ->. now rewrite Hg.
  - now rewrite IH.
Qed.

Lemma shape_load_row today row m :
  settled [row] m = true ->
  shape (state (AttendanceManager.load_row today row m)) = shape m.
Proof.
  intros Hs. destruct (row_cases row) as [Hlen|(i & n & d & c & ->)].
  - now rewrite load_row_skip.
  - unfold settled in Hs. simpl in Hs. rewrite andb_true_r in Hs.
    unfold has_entry in Hs. rewrite load_row_state.
    destruct (Dict.get i (AttendanceManager.students m)) as [s|] eqn:E;
      [|discriminate].
    unfold shape. simpl. apply map_set_same with (v0 := s); [exact E|]. simpl.
    now rewrite keys_set_known.
Qed.

Lemma shape_load_rows today rows m :
  settled rows m = true -> shape (load_rows today rows m) = shape m.
Proof.
  revert m. induction rows as [|row rows IH]; intros m Hs; [reflexivity|].
  rewrite settled_cons in Hs. apply andb_true_iff in Hs as [Hrow Hrest].
  rewrite load_rows_cons, IH.
  - now apply shape_load_row.
  - apply (settled_extends _ (load_row_extends today row m)). exact Hrest.
Qed.

Lemma dict_ext (V : Type) (d1 d2 : Dict.t V) :
  Dict.keys d1 = Dict.keys d2 ->
  NoDup (Dict.keys d1) ->
  (forall k, Dict.get k d1 = Dict.get k d2) ->
  d1 = d2.
Proof.
  revert d2. induction d1 as [|[k1 v1] d1 IH]; intros [|[k2 v2] d2] Hk Hnd Hget;
    simpl in Hk; try discriminate; [reflexivity|].
  injection Hk as <- Hk. inversion Hnd as [|? ? Hni Hnd']; subst.
  pose proof (Hget k1) as H1. simpl in H1. rewrite String.eqb_refl in H1.
  injection H1 as <-. f_equal. apply IH; try assumption.
  intros k. destruct (String.eqb_spec k k1) as [->|Hne].
  - pose proof Hni as Hni2. rewrite Hk in Hni2.
    apply get_none_iff in Hni, Hni2. congruence.
  - specialize (Hget k). simpl in Hget.
    apply String.eqb_neq in Hne. now rewrite Hne in Hget.
Qed.

Lemma roster_ext l1 l2 :
  NoDup (Dict.keys l1) ->
  Forall (fun entry : string * Student.t =>
            NoDup (Dict.keys (Student.attendance (snd entry)))) l1 ->
  shape (AttendanceManager.mk l1) = shape (AttendanceManager.mk l2) ->
  (forall i d, recorded (AttendanceManager.mk l1) i d
               = recorded (AttendanceManager.mk l2) i d) ->
  l1 = l2.
Proof.
  revert l2.
  induction l1 as [|[k1 s1] l1 IH]; intros [|[k2 s2] l2] Hnd Hall Hsh Hrec;
    try discriminate; [reflexivity|].
  unfold shape in Hsh. simpl in Hsh.
  injection Hsh as <- Hid Hname Hkeys Hsh.
  inversion Hnd as [|? ? Hni Hnd']; subst.
  inversion Hall as [|? ? Hatt Hall']; subst. simpl in Hatt.
  assert (Hs : s1 = s2).
  { destruct s1 as [i1 n1 a1], s2 as [i2 n2 a2]. simpl in *. subst.
    f_equal. apply dict_ext; try assumption.
    intros d. specialize (Hrec k1 d). unfold recorded in Hrec. simpl in Hrec.
    now rewrite String.eqb_refl in Hrec. }
  subst s2. f_equal. apply IH; try assumption.
  intros i d. destruct (String.eqb_spec i k1) as [->|Hne].
  - assert (Hk2 : Dict.keys l1 = Dict.keys l2).
    { unfold Dict.keys.
      apply (f_equal (map fst)) in Hsh. now rewrite !map_map in Hsh. }
    pose proof Hni as Hni2. rewrite Hk2 in Hni2.
    apply get_none_iff in Hni, Hni2. unfold recorded. simpl.
    now rewrite Hni, Hni2.
  - specialize (Hrec i d). unfold recorded in *. simpl in Hrec.
    apply String.eqb_neq in Hne. now rewrite Hne in Hrec.
Qed.

Lemma roster_wf_load_rows today rows m :
  roster_wf m -> roster_wf (load_rows today rows m).
Proof.
  revert m. induction rows as [|row rows IH]; intros m Hwf; [assumption|].
  rewrite load_rows_cons. apply IH. now apply roster_wf_load_row.
Qed.

Lemma load_rows_twice today1 today2 rows m :
  roster_wf m ->
  load_rows today2 rows (load_rows today1 rows m) = load_rows today1 rows m.
Proof.
  intros Hwf.
  pose proof (roster_wf_load_rows today1 rows Hwf) as Hwf1.
  set (m1 := load_rows today1 rows m) in *.
  pose proof (roster_wf_load_rows today2 rows Hwf1) as Hwf2.
  apply roster_wf_spec in Hwf2 as [Hnd Hall].
  destruct (load_rows today2 rows m1) as [l2] eqn:E2.
  destruct m1 as [l1] eqn:E1. f_equal. simpl in *.
  apply roster_ext.
  - assumption.
  - eapply Forall_impl; [|exact Hall]. intros e [_ H]. exact H.
  - rewrite <- E2. apply shape_load_rows.
    subst m1. rewrite <- E1. apply settled_load_rows.
  - intros i d. rewrite <- E2, recorded_load_rows.
    destruct (last_mark i d rows) as [b|] eqn:El; [|reflexivity].
    subst m1. rewrite <- E1, recorded_load_rows. now rewrite El.
Qed.

(** X10. Loading a file a second time changes nothing: the roster after
    two loads of the same file is the roster after one. *)
Theorem load_from_csv_twice (today1 today2 : string) (fs : filesystem)
    (filename : string) (m : AttendanceManager.t) :
  roster_wf m ->
  state (AttendanceManager.load_from_csv today2 fs filename
           (state (AttendanceManager.load_from_csv today1 fs filename m)))
  = state (AttendanceManager.load_from_csv today1 fs filename m).
Proof.
  intros Hwf. rewrite !state_load_from_csv.
  now apply load_rows_twice.
Qed.

Lemma load_from_csv_twice_witness :
  let fs := with_file no_files "a.csv" (Reads merge_file None) in
  state (AttendanceManager.load_from_csv "2024-01-05" fs "a.csv"
           (state (AttendanceManager.load_from_csv "2024-01-04" fs "a.csv"
                     roster_ann_bob)))
  = state (AttendanceManager.load_from_csv "2024-01-04" fs "a.csv"
             roster_ann_bob).
Proof.
  exact (@load_from_csv_twice "2024-01-04" "2024-01-05"
           (with_file no_files "a.csv" (Reads merge_file None)) "a.csv"
           roster_ann_bob eq_refl).
Defined.

(* ================================================================= *)
(** * Tables *)

Lemma string_length_app (a b : string) :
  String.length (a ++ b) = String.length a + String.length b.
Proof. induction a as [|c a IH]; simpl; [reflexivity | now rewrite IH]. Qed.

Lemma length_replicate n c : String.length (replicate n c) = n.
Proof. induction n as [|n IH]; simpl; [reflexivity | now rewrite IH]. Qed.

Lemma length_ljust s width :
  String.length (ljust s width) = Nat.max (String.length s) width.
Proof. unfold ljust. rewrite string_length_app, length_replicate. lia. Qed.

Lemma length_set_width w i v : List.length (set_width w i v) = List.length w.
Proof.
  revert i. induction w as [|x w IH]; intros [|i]; simpl; auto.
Qed.

Lemma nth_set_width w i v j :
  i < List.length w ->
  nth j (set_width w i v) 0 = if (j =? i)%nat then v else nth j w 0.
Proof.
  revert i j. induction w as [|x w IH]; intros i j Hi; simpl in Hi; [lia|].
  destruct i as [|i], j as [|j]; simpl; try reflexivity.
  apply IH. lia.
Qed.

Lemma widen_row_fits w i row :
  i + List.length row <= List.length w ->
  exists w',
    widen_row w i row = Some w'
    /\ List.length w' = List.length w
    /\ (forall j, nth j w 0 <= nth j w' 0)
    /\ (forall j, j < List.length row ->
                  String.length (nth j row "") <= nth (i + j) w' 0).
Proof.
  revert w i. induction row as [|cell row IH]; intros w i Hlen; simpl in *.
  - exists w. repeat split; auto. intros j Hj. lia.
  - destruct (nth_error w i) as [x|] eqn:E.
    2:{ apply nth_error_None in E. lia. }
    assert (Hi : i < List.length w) by lia.
    pose proof (nth_error_nth w i 0 E) as Hx.
    destruct (IH (set_width w i (Nat.max x (String.length cell))) (S i))
      as (w' & Hw' & Hl & Hmono & Hcells).
    { rewrite length_set_width. lia. }
    exists w'. split; [exact Hw'|]. rewrite length_set_width in Hl.
    split; [exact Hl|]. split.
    + intros j. specialize (Hmono j). rewrite nth_set_width in Hmono by assumption.
      destruct (Nat.eqb_spec j i); subst; lia.
    + intros [|j] Hj.
      * specialize (Hmono i). rewrite nth_set_width in Hmono by assumption.
        rewrite Nat.eqb_refl in Hmono. rewrite Nat.add_0_r. lia.
      * specialize (Hcells j). replace (i + S j) with (S i + j) by lia.
        apply Hcells. lia.
Qed.

Lemma widen_row_overflow w i row :
  row <> [] -> List.length w < i + List.length row ->
  widen_row w i row = None.
Proof.
  revert w i. induction row as [|cell row IH]; intros w i Hne Hlen;
    [contradiction|]. simpl in *.
  destruct (nth_error w i) as [x|] eqn:E; [|reflexivity].
  assert (Hi : i < List.length w).
  { apply nth_error_Some. congruence. }
  apply IH.
  - destruct row; [simpl in Hlen; lia | discriminate].
  - rewrite length_set_width. lia.
Qed.

(** The widths after all rows, for rows that fit under the headers. *)
Lemma widen_fits w rows :
  Forall (fun row => List.length row <= List.length w) rows ->
  exists w',
    widen w rows = Some w'
    /\ List.length w' = List.length w
    /\ (forall j, nth j w 0 <= nth j w' 0)
    /\ Forall (fun row => forall j, j < List.length row ->
                            String.length (nth j row "") <= nth j w' 0) rows.
Proof.
  revert w. induction rows as [|row rows IH]; intros w Hall; simpl.
  - exists w. repeat split; auto.
  - inversion Hall as [|? ? Hrow Hrest]; subst.
    destruct (@widen_row_fits w 0 row) as (w1 & -> & Hl1 & Hm1 & Hc1);
      [simpl; lia|].
    destruct (IH w1) as (w' & Hw' & Hl & Hm & Hc).
    { rewrite Hl1. exact Hrest. }
    exists w'. split; [exact Hw'|]. split; [congruence|]. split.
    + intros j. specialize (Hm1 j). specialize (Hm j). lia.
    + constructor; [|exact Hc].
      intros j Hj. specialize (Hc1 j Hj). specialize (Hm j). simpl in Hc1. lia.
Qed.

Lemma widen_overflow w rows :
  Exists (fun row => List.length w < List.length row) rows ->
  widen w rows = None.
Proof.
  revert w. induction rows as [|row rows IH]; intros w Hex;
    inversion Hex as [? ? Hrow|? ? Hrest]; subst; simpl.
  - rewrite widen_row_overflow; [reflexivity | | simpl; lia].
    destruct row; [simpl in Hrow; lia | discriminate].
  - destruct (le_lt_dec (List.length row) (List.length w)) as [Hle|Hlt].
    + destruct (@widen_row_fits w 0 row) as (w1 & -> & Hl1 & _); [simpl; lia|].
      apply IH. now rewrite Hl1.
    + rewrite widen_row_overflow; [reflexivity | | simpl; lia].
      destruct row; [simpl in Hlt; lia | discriminate].
Qed.

Lemma length_join_padded w i row :
  i + List.length row = List.length w ->
  (forall j, j < List.length row ->
             String.length (nth j row "") <= nth (i + j) w 0) ->
  Z.of_nat (String.length (join " | " (padded_cells w i row)))
  = Z.max 0 (Z.of_nat (list_sum (skipn i w))
             + 3 * (Z.of_nat (List.length row) - 1)).
Proof.
  revert i. induction row as [|cell row IH]; intros i Hlen Hcells.
  - simpl in *. rewrite skipn_all2 by lia. reflexivity.
  - assert (Hi : i < List.length w) by (simpl in Hlen; lia).
    assert (Hsk : skipn i w = nth i w 0 :: skipn (S i) w).
    { clear -Hi. revert i Hi. induction w as [|x w IHw]; intros i Hi;
        simpl in Hi; [lia|].
      destruct i as [|i]; [reflexivity|]. simpl. apply IHw. lia. }
    assert (Hsum : list_sum (skipn i w)
                   = nth i w 0 + list_sum (skipn (S i) w))
      by (rewrite Hsk; reflexivity).
    rewrite Hsum. clear Hsk Hsum. simpl padded_cells.
    pose proof (Hcells 0 ltac:(simpl; lia)) as H0. simpl in H0.
    rewrite Nat.add_0_r in H0.
    assert (Hl : String.length (ljust cell (nth i w 0)) = nth i w 0).
    { rewrite length_ljust. lia. }
    specialize (IH (S i)).
    assert (IH' : Z.of_nat (String.length (join " | " (padded_cells w (S i) row)))
                  = Z.max 0 (Z.of_nat (list_sum (skipn (S i) w))
                             + 3 * (Z.of_nat (List.length row) - 1))).
    { apply IH; [simpl in Hlen; lia|].
      intros j Hj. replace (S i + j) with (i + S j) by lia.
      apply (Hcells (S j)). simpl. lia. }
    destruct row as [|cell' row].
    + rewrite (skipn_all2 w (n := S i)) by (simpl in Hlen; lia).
      simpl. rewrite Hl. lia.
    + change (join " | " (ljust cell (nth i w 0)
                          :: padded_cells w (S i) (cell' :: row)))
        with (ljust cell (nth i w 0) ++ " | "
              ++ join " | " (padded_cells w (S i) (cell' :: row)))%string.
      rewrite !string_length_app, Hl. simpl String.length at 1.
      simpl List.length in *. lia.
Qed.

Lemma length_format_row w row :
  List.length row = List.length w ->
  (forall j, j < List.length row -> String.length (nth j row "") <= nth j w 0) ->
  String.length (format_row w row)
  = Z.to_nat (Z.of_nat (list_sum w) + 3 * (Z.of_nat (List.length row) - 1)).
Proof.
  intros Hlen Hcells. unfold format_row.
  pose proof (@length_join_padded w 0 row Hlen Hcells) as H. simpl skipn in H.
  lia.
Qed.

(** The lines of a table whose rows have as many cells as there are
    headers. *)
Lemma table_aligned (St : Type) headers rows (s : St) :
  Forall (fun row => List.length row = List.length headers) rows ->
  exists widths,
    print_table headers rows s
    = mkOutcome true s
        ((nl ++ format_row widths headers)%string
         :: rule widths headers
         :: map (format_row widths) rows ++ [""%string])
    /\ String.length (format_row widths headers)
       = String.length (rule widths headers)
    /\ Forall (fun row => String.length (format_row widths row)
                          = String.length (rule widths headers)) rows.
Proof.
  intros Hall.
  destruct (@widen_fits (map String.length headers) rows)
    as (w & Hw & Hl & Hmono & Hcells).
  { eapply Forall_impl; [|exact Hall]. intros row Hrow. simpl in Hrow.
    rewrite length_map. lia. }
  rewrite length_map in Hl.
  exists w. split; [|split].
  - unfold print_table. rewrite Hw. unfold bind. simpl.
    rewrite for_each_print_state, for_each_print_printed. reflexivity.
  - unfold rule. rewrite length_replicate.
    apply length_format_row; [congruence|].
    intros j Hj. specialize (Hmono j).
    rewrite (nth_indep _ 0 (String.length "")) in Hmono
      by (rewrite length_map; exact Hj).
    rewrite map_nth in Hmono. exact Hmono.
  - rewrite Forall_forall in *. intros row Hrow.
    unfold rule. rewrite length_replicate.
    rewrite <- (Hall row Hrow).
    apply length_format_row; [rewrite (Hall row Hrow); congruence|].
    apply (Hcells row Hrow).
Qed.

(** X11. [print_table] prints exactly when no row has more cells than
    there are headers; otherwise the [IndexError] comes before anything
    is printed.  When every row has as many cells as there are headers,
    the header line, the rule under it and every row have the same
    width. *)
Theorem print_table_spec (St : Type) (headers : list string)
    (rows : list (list string)) (s : St) :
  (value (print_table headers rows s) = true
   <-> Forall (fun row => List.length row <= List.length headers) rows)
  /\ (value (print_table headers rows s) = false ->
      print_table headers rows s = mkOutcome false s [])
  /\ (Forall (fun row => List.length row = List.length headers) rows ->
      exists widths,
        printed (print_table headers rows s)
        = (nl ++ format_row widths headers)%string
          :: rule widths headers
          :: map (format_row widths) rows ++ [""%string]
        /\ String.length (format_row widths headers)
           = String.length (rule widths headers)
        /\ Forall (fun row => String.length (format_row widths row)
                              = String.length (rule widths headers)) rows).
Proof.
  split; [|split].
  - split.
    + intros Hv.
      destruct (Forall_Exists_dec
                  (fun row : list string =>
                     List.length row <= List.length headers)
                  (fun row => le_dec (List.length row) (List.length headers))
                  rows) as [Hall|Hex]; [exact Hall|].
      exfalso. unfold print_table in Hv. rewrite widen_overflow in Hv.
      * discriminate.
      * eapply Exists_impl; [|exact Hex]. intros row Hrow. simpl in Hrow.
        rewrite length_map. lia.
    + intros Hall.
      destruct (@widen_fits (map String.length headers) rows)
        as (w & Hw & _).
      { eapply Forall_impl; [|exact Hall]. intros row Hrow. simpl in Hrow.
        now rewrite length_map. }
      unfold print_table. now rewrite Hw.
  - unfold print_table. destruct (widen _ rows); [|reflexivity].
    discriminate.
  - intros Hall.
    destruct (@table_aligned St headers rows s Hall) as (w & Heq & H1 & H2).
    exists w. rewrite Heq. auto.
Qed.

Lemma print_table_spec_witness :
  value (print_table ["a"; "b"] [["xxx"]; ["1"; "22222"]] tt) = true
  /\ print_table ["a"; "b"] [["x"; "y"; "z"]] tt = mkOutcome false tt []
  /\ exists widths,
       printed (print_table ["a"; "b"] [["xxx"; "y"]; ["1"; "22222"]] tt)
       = (nl ++ format_row widths ["a"; "b"])%string
         :: rule widths ["a"; "b"]
         :: map (format_row widths) [["xxx"; "y"]; ["1"; "22222"]]
            ++ [""%string]
       /\ String.length (format_row widths ["a"; "b"])
          = String.length (rule widths ["a"; "b"])
       /\ Forall (fun row => String.length (format_row widths row)
                             = String.length (rule widths ["a"; "b"]))
                 [["xxx"; "y"]; ["1"; "22222"]].
Proof.
  split; [|split].
  - apply (proj2 (proj1 (@print_table_spec unit ["a"; "b"]
                           [["xxx"]; ["1"; "22222"]] tt))).
    repeat constructor.
  - apply (proj1 (proj2 (@print_table_spec unit ["a"; "b"]
                           [["x"; "y"; "z"]] tt))).
    reflexivity.
  - apply (proj2 (proj2 (@print_table_spec unit ["a"; "b"]
                           [["xxx"; "y"]; ["1"; "22222"]] tt))).
    repeat constructor.
Defined.

(* ================================================================= *)
(** * The reports *)

(** X12. [enhanced_summary], which [summary_report] is rebound to,
    always prints its table and changes nothing: a header line, a rule,
    one row per student in the order of the roster and an empty line,
    with the header, the rule and every row of the same width. *)
Theorem enhanced_summary_table (m : AttendanceManager.t) :
  exists widths,
    enhanced_summary m
    = mkOutcome true m
        ((nl ++ format_row widths summary_headers)%string
         :: rule widths summary_headers
         :: map (fun student => format_row widths (summary_row student))
                (Dict.values (AttendanceManager.students m))
            ++ [""%string])
    /\ String.length (format_row widths summary_headers)
       = String.length (rule widths summary_headers)
    /\ Forall (fun student =>
                 String.length (format_row widths (summary_row student))
                 = String.length (rule widths summary_headers))
              (Dict.values (AttendanceManager.students m)).
Proof.
  destruct (@table_aligned AttendanceManager.t summary_headers
              (map summary_row (Dict.values (AttendanceManager.students m))) m)
    as (w & Heq & H1 & H2).
  { apply Forall_forall. intros row Hrow.
    apply in_map_iff in Hrow as [s [<- _]]. reflexivity. }
  exists w. split; [|split].
  - unfold enhanced_summary, bind. simpl. rewrite Heq. simpl.
    now rewrite map_map.
  - exact H1.
  - rewrite Forall_forall in *. intros s Hs. apply H2. now apply in_map.
Qed.

(** X13. The two summaries agree: the percentage cell of the row of
    [enhanced_summary] is the percentage of the line of
    [get_attendance_summary], which is [0.00%] for a student without
    attendance; and the row never counts more present days than days. *)
Theorem summaries_agree (s : Student.t) :
  nth 4 (summary_row s) ""
  = (format_2f (Student.get_attendance_percentage s) ++ "%")%string
  /\ get_attendance_summary s
     = (Student.student_id s ++ " | " ++ Student.name s ++ " | "
        ++ nth 4 (summary_row s) "")%string
  /\ (Student.attendance s = [] ->
      get_attendance_summary s
      = (Student.student_id s ++ " | " ++ Student.name s ++ " | 0.00%")%string)
  /\ sum_ones (fun present : bool => present)
              (Dict.values (Student.attendance s))
     <= Dict.len (Student.attendance s).
Proof.
  assert (H4 : nth 4 (summary_row s) ""
               = (format_2f (Student.get_attendance_percentage s) ++ "%")%string).
  { unfold summary_row, Student.get_attendance_percentage. simpl.
    destruct (Dict.len (Student.attendance s)); reflexivity. }
  split; [exact H4|]. split; [|split].
  - unfold get_attendance_summary. now rewrite H4.
  - intros E. unfold get_attendance_summary, Student.get_attendance_percentage.
    rewrite E. reflexivity.
  - rewrite sum_ones_length. unfold Dict.len, Dict.values.
    rewrite <- (length_map snd (Student.attendance s)). apply filter_length_le.
Qed.

Lemma summaries_agree_witness :
  get_attendance_summary (Student.init "S2" "Bob") = "S2 | Bob | 0.00%".
Proof.
  exact (proj1 (proj2 (proj2 (summaries_agree (Student.init "S2" "Bob"))))
           eq_refl).
Defined.

Lemma add_student_fresh id name m :
  Dict.contains id (AttendanceManager.students m) = false ->
  AttendanceManager.students (state (AttendanceManager.add_student id name m))
  = AttendanceManager.students m ++ [(id, Student.mk id name [])].
Proof.
  intros E. unfold AttendanceManager.add_student. run_py. rewrite E. cbn.
  apply set_new. now apply contains_false_iff.
Qed.

(** X14. [list_students] prints a header, one line [id - name] per
    student in the order in which the students were added, and the
    number of students, and changes nothing; after a successful
    [add_student] the new student is the last one listed. *)
Theorem list_students_lines (m : AttendanceManager.t) (id name : string) :
  list_students m
  = mkOutcome tt m
      ((nl ++ "--- All Students ---")%string
       :: map student_str (Dict.values (AttendanceManager.students m))
          ++ [("Total: "
               ++ str_of_nat (List.length (AttendanceManager.students m))
               ++ " students." ++ nl)%string])
  /\ (Dict.contains id (AttendanceManager.students m) = false ->
      printed (list_students (state (AttendanceManager.add_student id name m)))
      = (nl ++ "--- All Students ---")%string
        :: map student_str (Dict.values (AttendanceManager.students m))
           ++ [(id ++ " - " ++ name)%string;
               ("Total: "
                ++ str_of_nat (S (List.length (AttendanceManager.students m)))
                ++ " students." ++ nl)%string]).
Proof.
  assert (H : forall m0,
             list_students m0
             = mkOutcome tt m0
                 ((nl ++ "--- All Students ---")%string
                  :: map student_str (Dict.values (AttendanceManager.students m0))
                     ++ [("Total: "
                          ++ str_of_nat (List.length
                                           (AttendanceManager.students m0))
                          ++ " students." ++ nl)%string])).
  { intros m0. unfold list_students, bind. simpl.
    rewrite for_each_print_state, for_each_print_printed. reflexivity. }
  split; [apply H|].
  intros Hfresh. rewrite H. cbn [printed].
  rewrite (@add_student_fresh id name m Hfresh).
  unfold Dict.values. rewrite map_app, map_app, length_app. simpl.
  rewrite <- app_assoc. simpl. now rewrite Nat.add_1_r.
Qed.

Lemma list_students_lines_witness :
  printed (list_students
             (state (AttendanceManager.add_student "S4" "Dee" roster_marked)))
  = (nl ++ "--- All Students ---")%string
    :: ["S1 - Ann"; "S2 - Bob"; "S3 - Cy"]
       ++ ["S4 - Dee"; ("Total: 4 students." ++ nl)%string].
Proof.
  exact (proj2 (list_students_lines roster_marked "S4" "Dee") eq_refl).
Defined.

(* ================================================================= *)
(** * Viewing one student *)

Lemma item_leb_total a b : item_leb a b = false -> item_leb b a = true.
Proof.
  unfold item_leb. rewrite (String.compare_antisym (fst b) (fst a)).
  destruct (String.compare (fst a) (fst b)); simpl; try discriminate; auto.
  destruct (snd a), (snd b); simpl; auto.
Qed.

Lemma insert_item_perm a l : Permutation (a :: l) (insert_item a l).
Proof.
  induction l as [|b l IH]; simpl; [reflexivity|].
  destruct (item_leb a b); [reflexivity|].
  rewrite perm_swap. now constructor.
Qed.

Lemma sorted_perm items : Permutation items (sorted items).
Proof.
  induction items as [|a l IH]; simpl; [constructor|].
  rewrite <- insert_item_perm. now constructor.
Qed.

Lemma insert_item_sorted a l :
  Sorted (fun x y => item_leb x y = true) l ->
  Sorted (fun x y => item_leb x y = true) (insert_item a l).
Proof.
  induction l as [|b l IH]; intros Hs; simpl.
  - repeat constructor.
  - destruct (item_leb a b) eqn:E.
    + constructor; [assumption|]. now constructor.
    + inversion Hs as [|? ? Hs' Hhd]; subst.
      constructor; [now apply IH|].
      destruct l as [|c l]; simpl.
      * constructor. now apply item_leb_total.
      * destruct (item_leb a c).
        -- constructor. now apply item_leb_total.
        -- inversion Hhd; subst. now constructor.
Qed.

Lemma sorted_sorted items :
  Sorted (fun x y => item_leb x y = true) (sorted items).
Proof.
  induction items as [|a l IH]; simpl; [constructor|].
  now apply insert_item_sorted.
Qed.

(** X15. [view_student_attendance] changes nothing.  For an id that is
    not in the roster it prints the error line only.  For a student with
    attendance it prints one line per recorded date, in ascending order
    of the dates whatever the order in which they were marked, between
    the title and the percentage; for a student without attendance it
    says so and gives [0.00%]. *)
Theorem view_student_attendance_lines (entered : string)
    (m : AttendanceManager.t) :
  state (view_student_attendance entered m) = m
  /\ (Dict.get entered (AttendanceManager.students m) = None ->
      printed (view_student_attendance entered m)
      = ["[ERROR] Student not found."%string])
  /\ (forall s,
         Dict.get entered (AttendanceManager.students m) = Some s ->
         Student.attendance s = [] ->
         printed (view_student_attendance entered m)
         = [(nl ++ "--- Attendance for " ++ Student.name s ++ " ---")%string;
            "No attendance data available."%string;
            "Attendance %: 0.00%"%string])
  /\ (forall s,
         Dict.get entered (AttendanceManager.students m) = Some s ->
         Student.attendance s <> [] ->
         exists items,
           printed (view_student_attendance entered m)
           = (nl ++ "--- Attendance for " ++ Student.name s ++ " ---")%string
             :: map status_line items
                ++ [("Attendance %: "
                     ++ format_2f (Student.get_attendance_percentage s)
                     ++ "%")%string]
           /\ Permutation (Student.attendance s) items
           /\ Sorted (fun x y => item_leb x y = true) items).
Proof.
  split; [apply view_student_attendance_state|].
  unfold view_student_attendance, bind. simpl.
  split; [|split].
  - intros ->. reflexivity.
  - intros s -> E. simpl. rewrite E. simpl.
    unfold Student.get_attendance_percentage. rewrite E. reflexivity.
  - intros s -> Hne. exists (sorted (Student.attendance s)).
    split; [|split].
    + simpl. destruct (Student.attendance s) as [|a l] eqn:E; [contradiction|].
      rewrite <- E. simpl.
      rewrite ?for_each_print_state, for_each_print_printed.
      unfold Dict.items. reflexivity.
    + apply sorted_perm.
    + apply sorted_sorted.
Qed.

Lemma view_student_attendance_lines_witness :
  printed (view_student_attendance "S9" roster_marked)
  = ["[ERROR] Student not found."%string]
  /\ printed (view_student_attendance "S2" roster_marked)
     = [(nl ++ "--- Attendance for Bob ---")%string;
        "No attendance data available."%string;
        "Attendance %: 0.00%"%string]
  /\ exists items,
       printed (view_student_attendance "S1" roster_marked)
       = (nl ++ "--- Attendance for Ann ---")%string
         :: map status_line items
            ++ [("Attendance %: "
                 ++ format_2f (Student.get_attendance_percentage
                                 (Student.mk "S1" "Ann"
                                    [("2024-01-01", true);
                                     ("2024-01-02", false)]))
                 ++ "%")%string]
       /\ Permutation [("2024-01-01", true); ("2024-01-02", false)] items
       /\ Sorted (fun x y => item_leb x y = true) items.
Proof.
  pose proof (view_student_attendance_lines "S9" roster_marked)
    as (_ & H9 & _ & _).
  pose proof (view_student_attendance_lines "S2" roster_marked)
    as (_ & _ & H2 & _).
  pose proof (view_student_attendance_lines "S1" roster_marked)
    as (_ & _ & _ & H1).
  split; [|split].
  - exact (H9 eq_refl).
  - exact (H2 (Student.mk "S2" "Bob" []) eq_refl eq_refl).
  - apply (H1 (Student.mk "S1" "Ann"
                 [("2024-01-01", true); ("2024-01-02", false)]) eq_refl).
    discriminate.
Defined.

(* ================================================================= *)
(** * The database: users *)

Lemma authenticate_true_iff db u p :
  value (AttendanceDB.authenticate u p db) = true
  <-> In (u, p) (AttendanceDB.users db).
Proof.
  unfold AttendanceDB.authenticate, AttendanceDB.select_user. run_py.
  match goal with
  | |- context [hd_error (filter ?f ?l)] =>
      pose proof (hd_error_filter_some f l) as Hhd
  end.
  destruct (hd_error _) as [row|]; simpl.
  - split; [intros _|reflexivity].
    destruct (proj1 Hhd (ex_intro _ row eq_refl)) as [[u0 p0] [Hin Hf]].
    simpl in Hf. apply andb_true_iff in Hf as [Hu Hp].
    apply String.eqb_eq in Hu, Hp. now subst.
  - split; [discriminate|]. intros Hin.
    destruct (proj2 Hhd) as [x Hx]; [|discriminate].
    exists (u, p). simpl. now rewrite !String.eqb_refl.
Qed.

Lemma authenticate_state db u p :
  state (AttendanceDB.authenticate u p db) = db.
Proof.
  unfold AttendanceDB.authenticate. run_py. now destruct (hd_error _).
Qed.

Lemma existsb_key_iff (A : Type) (k : string) (l : list (string * A)) :
  existsb (fun r : string * A => String.eqb (fst r) k) l = true
  <-> In k (map fst l).
Proof.
  rewrite existsb_exists, in_map_iff. split.
  - intros [r [Hin E]]. apply String.eqb_eq in E. eauto.
  - intros [r [E Hin]]. exists r. split; [assumption|].
    now apply String.eqb_eq.
Qed.

Lemma add_user_known db u p :
  In u (map fst (AttendanceDB.users db)) ->
  AttendanceDB.add_user u p db
  = mkOutcome tt db ["[ERROR] User already exists."%string].
Proof.
  intros Hin. apply existsb_key_iff in Hin.
  unfold AttendanceDB.add_user, AttendanceDB.insert_user. run_py.
  destruct (existsb _ (AttendanceDB.users db)) eqn:E; [reflexivity|].
  exfalso. apply not_true_iff_false in E. apply E. exact Hin.
Qed.

Lemma add_user_new db u p :
  ~ In u (map fst (AttendanceDB.users db)) ->
  AttendanceDB.add_user u p db
  = mkOutcome tt
      (AttendanceDB.mk (AttendanceDB.foreign_keys db)
         (AttendanceDB.users db ++ [(u, p)])
         (AttendanceDB.students db) (AttendanceDB.attendance db))
      [].
Proof.
  intros Hni. rewrite <- existsb_key_iff in Hni.
  unfold AttendanceDB.add_user, AttendanceDB.insert_user. run_py.
  destruct (existsb _ (AttendanceDB.users db)) eqn:E; [|reflexivity].
  exfalso. apply Hni. exact E.
Qed.

Lemma key_of_row (A : Type) (k : string) (a : A) (l : list (string * A)) :
  In (k, a) l -> In k (map fst l).
Proof. intros H. change k with (fst (k, a)). now apply in_map. Qed.

(** X16. [add_user] never changes a password.  For a username already
    in the table it reports the error and leaves the database as it
    was; for a new one it adds the row.  Afterwards the username
    authenticates with the password stored first, whichever was passed,
    and every other username authenticates as before. *)
Theorem add_user_first_password_stays (db : AttendanceDB.t)
    (u p : string) :
  (In u (map fst (AttendanceDB.users db)) ->
   AttendanceDB.add_user u p db
   = mkOutcome tt db ["[ERROR] User already exists."%string])
  /\ (~ In u (map fst (AttendanceDB.users db)) ->
      AttendanceDB.users (state (AttendanceDB.add_user u p db))
      = AttendanceDB.users db ++ [(u, p)]
      /\ printed (AttendanceDB.add_user u p db) = [])
  /\ (forall p',
         value (AttendanceDB.authenticate u p'
                  (state (AttendanceDB.add_user u p db))) = true
         <-> In (u, p') (AttendanceDB.users db)
             \/ (~ In u (map fst (AttendanceDB.users db)) /\ p' = p))
  /\ (forall u' p',
         u' <> u ->
         value (AttendanceDB.authenticate u' p'
                  (state (AttendanceDB.add_user u p db)))
         = value (AttendanceDB.authenticate u' p' db)).
Proof.
  split; [apply add_user_known|].
  split; [intros Hni; now rewrite add_user_new|].
  destruct (in_dec string_dec u (map fst (AttendanceDB.users db))) as [Hin|Hni].
  - rewrite add_user_known by assumption. cbn [state]. split.
    + intros p'. rewrite authenticate_true_iff. tauto.
    + reflexivity.
  - rewrite add_user_new by assumption. cbn [state]. split.
    + intros p'. rewrite authenticate_true_iff. simpl. rewrite in_app_iff.
      simpl. split.
      * intros [H|[H|[]]]; [now left|]. injection H as <-. now right.
      * intros [H|[_ ->]]; [now left|]. right. now left.
    + intros u' p' Hne.
      apply eq_true_iff_eq. rewrite !authenticate_true_iff. simpl.
      rewrite in_app_iff. simpl. split; [|tauto].
      intros [H|[H|[]]]; [assumption|]. congruence.
Qed.

Lemma add_user_first_password_stays_witness :
  AttendanceDB.add_user "admin" "other" db_small
  = mkOutcome tt db_small ["[ERROR] User already exists."%string]
  /\ AttendanceDB.users (state (AttendanceDB.add_user "eve" "pw" db_small))
     = [("admin", "s3cret"); ("eve", "pw")]
  /\ value (AttendanceDB.authenticate "admin" "s3cret"
              (state (AttendanceDB.add_user "eve" "pw" db_small)))
     = true.
Proof.
  pose proof (add_user_first_password_stays db_small "admin" "other")
    as (Hknown & _).
  pose proof (add_user_first_password_stays db_small "eve" "pw")
    as (_ & Hnew & _ & Hother).
  split; [|split].
  - apply Hknown. simpl. now left.
  - apply Hnew. simpl. intros [H|[]]. discriminate.
  - rewrite (Hother "admin" "s3cret"); [reflexivity | discriminate].
Defined.

(** Run the monadic operations, keeping the calls of methods folded. *)
Ltac step_py :=
  unfold bind, ret, get_self, put_self, print; cbn [value state printed].

Lemma login_value_iff db typed_username typed_password :
  value (login typed_username typed_password db) = true
  <-> In (strip typed_username, strip typed_password) (AttendanceDB.users db).
Proof.
  rewrite <- authenticate_true_iff. unfold login. step_py.
  destruct (value (AttendanceDB.authenticate (strip typed_username)
                     (strip typed_password) db)); simpl; tauto.
Qed.

(** X17. [login] leaves the database as it is and succeeds exactly
    when the table holds the row of the username and the password as
    typed, with the white space around them removed. *)
Theorem login_spec (db : AttendanceDB.t) (typed_username typed_password : string) :
  state (login typed_username typed_password db) = db
  /\ (value (login typed_username typed_password db) = true
      <-> In (strip typed_username, strip typed_password)
             (AttendanceDB.users db))
  /\ printed (login typed_username typed_password db)
     = [(nl ++ "--- Admin Login ---")%string;
        if value (login typed_username typed_password db)
        then ("[INFO] Welcome, " ++ strip typed_username ++ "!" ++ nl)%string
        else "[ERROR] Invalid credentials."%string].
Proof.
  pose proof (authenticate_true_iff db (strip typed_username)
                (strip typed_password)) as Hiff.
  pose proof (authenticate_state db (strip typed_username)
                (strip typed_password)) as Hst.
  assert (Hpr : printed (AttendanceDB.authenticate (strip typed_username)
                           (strip typed_password) db) = []).
  { unfold AttendanceDB.authenticate. run_py. now destruct (hd_error _). }
  unfold login. step_py. rewrite Hpr.
  destruct (value (AttendanceDB.authenticate (strip typed_username)
                     (strip typed_password) db)); simpl.
  - repeat split; auto. intros _. now apply Hiff.
  - repeat split; auto; [discriminate|]. intros H. now apply Hiff.
Qed.

(** X18. [setup_admin_account] refuses two different passwords and
    then changes nothing.  With matching passwords it returns true and
    announces the account even when the username is taken, in which
    case the database, and so the password of that user, is unchanged;
    the credentials just typed then log in exactly when the username
    was free or was already stored with that password. *)
Theorem setup_admin_account_spec (db : AttendanceDB.t)
    (typed_username typed_password typed_confirm : string) :
  (strip typed_password <> strip typed_confirm ->
   setup_admin_account typed_username typed_password typed_confirm db
   = mkOutcome false db
       [(nl ++ "--- Setup Admin Account ---")%string;
        "[ERROR] Passwords do not match."%string])
  /\ (strip typed_password = strip typed_confirm ->
      value (setup_admin_account typed_username typed_password typed_confirm db)
      = true
      /\ (In (strip typed_username) (map fst (AttendanceDB.users db)) ->
          setup_admin_account typed_username typed_password typed_confirm db
          = mkOutcome true db
              [(nl ++ "--- Setup Admin Account ---")%string;
               "[ERROR] User already exists."%string;
               "[INFO] Admin account created."%string])
      /\ (value (login typed_username typed_password
                   (state (setup_admin_account typed_username typed_password
                             typed_confirm db))) = true
          <-> ~ In (strip typed_username) (map fst (AttendanceDB.users db))
              \/ In (strip typed_username, strip typed_password)
                    (AttendanceDB.users db))).
Proof.
  split.
  - intros Hne. apply String.eqb_neq in Hne.
    unfold setup_admin_account. step_py. now rewrite Hne.
  - intros Heq.
    assert (Hrun : setup_admin_account typed_username typed_password
                     typed_confirm db
                   = mkOutcome true
                       (state (AttendanceDB.add_user (strip typed_username)
                                 (strip typed_password) db))
                       ((nl ++ "--- Setup Admin Account ---")%string
                        :: printed (AttendanceDB.add_user (strip typed_username)
                                      (strip typed_password) db)
                           ++ ["[INFO] Admin account created."%string])).
    { apply String.eqb_eq in Heq.
      unfold setup_admin_account. step_py. rewrite Heq. reflexivity. }
    rewrite Hrun. split; [reflexivity|]. split.
    + intros Hin. now rewrite add_user_known.
    + cbn [state].
      pose proof (login_value_iff
                    (state (AttendanceDB.add_user (strip typed_username)
                              (strip typed_password) db))
                    typed_username typed_password) as Hlogin.
      rewrite Hlogin.
      destruct (in_dec string_dec (strip typed_username)
                  (map fst (AttendanceDB.users db))) as [Hin|Hni].
      * rewrite add_user_known by assumption. cbn [state]. tauto.
      * rewrite add_user_new by assumption. cbn [state AttendanceDB.users].
        rewrite in_app_iff. simpl.
        split; [intros _; now left|]. intros _. right. now left.
Qed.

Lemma setup_admin_account_spec_witness :
  setup_admin_account "eve" "pw" "pw2" db_small
  = mkOutcome false db_small
      [(nl ++ "--- Setup Admin Account ---")%string;
       "[ERROR] Passwords do not match."%string]
  /\ setup_admin_account " admin" "other " "other" db_small
     = mkOutcome true db_small
         [(nl ++ "--- Setup Admin Account ---")%string;
          "[ERROR] User already exists."%string;
          "[INFO] Admin account created."%string]
  /\ value (login "eve" "pw"
              (state (setup_admin_account "eve" "pw" "pw" db_small))) = true.
Proof.
  split; [|split].
  - apply (proj1 (setup_admin_account_spec db_small "eve" "pw" "pw2")).
    discriminate.
  - apply (proj1 (proj2 (proj2 (setup_admin_account_spec db_small
                                  " admin" "other " "other") eq_refl))).
    simpl. now left.
  - apply (proj2 (proj2 (proj2 (setup_admin_account_spec db_small
                                  "eve" "pw" "pw") eq_refl))).
    left. simpl. intros [H|[]]. discriminate.
Defined.

(* ================================================================= *)
(** * The database: students and attendance *)

Lemma db_add_student_known db i n :
  In i (map fst (AttendanceDB.students db)) ->
  AttendanceDB.add_student i n db
  = mkOutcome tt db [("[WARN] Student " ++ i ++ " already exists.")%string].
Proof.
  intros Hin. apply existsb_key_iff in Hin.
  unfold AttendanceDB.add_student, AttendanceDB.insert_student. run_py.
  destruct (existsb _ (AttendanceDB.students db)) eqn:E; [reflexivity|].
  exfalso. apply not_true_iff_false in E. apply E. exact Hin.
Qed.

Lemma db_add_student_new db i n :
  ~ In i (map fst (AttendanceDB.students db)) ->
  AttendanceDB.add_student i n db
  = mkOutcome tt
      (AttendanceDB.mk (AttendanceDB.foreign_keys db) (AttendanceDB.users db)
         (AttendanceDB.students db ++ [(i, n)]) (AttendanceDB.attendance db))
      [].
Proof.
  intros Hni. rewrite <- existsb_key_iff in Hni.
  unfold AttendanceDB.add_student, AttendanceDB.insert_student. run_py.
  destruct (existsb _ (AttendanceDB.students db)) eqn:E; [|reflexivity].
  exfalso. apply Hni. exact E.
Qed.

Lemma find_app_some (A : Type) (f : A -> bool) l1 l2 x :
  find f l1 = Some x -> find f (l1 ++ l2) = Some x.
Proof.
  induction l1 as [|a l1 IH]; simpl; [discriminate|].
  destruct (f a); auto.
Qed.

Lemma find_app_none (A : Type) (f : A -> bool) l1 l2 :
  find f l1 = None -> find f (l1 ++ l2) = find f l2.
Proof.
  induction l1 as [|a l1 IH]; simpl; [reflexivity|].
  destruct (f a); [discriminate | auto].
Qed.

Lemma find_key_none (A : Type) (k : string) (l : list (string * A)) :
  ~ In k (map fst l) ->
  find (fun r : string * A => String.eqb (fst r) k) l = None.
Proof.
  induction l as [|[k0 a] l IH]; simpl; [reflexivity|].
  intros H. case_eqb k0 k.
  - exfalso. apply H. now left.
  - apply IH. tauto.
Qed.

(** X19. The database [add_student] never renames a student.  For an id
    already in the table it prints the warning and leaves the database
    as it was; for a new id it adds the row (id, name) and touches
    nothing else.  Every id keeps the name the table had for it. *)
Theorem db_add_student_spec (db : AttendanceDB.t) (i n : string) :
  (In i (map fst (AttendanceDB.students db)) ->
   AttendanceDB.add_student i n db
   = mkOutcome tt db [("[WARN] Student " ++ i ++ " already exists.")%string])
  /\ (~ In i (map fst (AttendanceDB.students db)) ->
      AttendanceDB.add_student i n db
      = mkOutcome tt
          (AttendanceDB.mk (AttendanceDB.foreign_keys db)
             (AttendanceDB.users db)
             (AttendanceDB.students db ++ [(i, n)])
             (AttendanceDB.attendance db))
          []
      /\ db_student_name i (state (AttendanceDB.add_student i n db)) = Some n)
  /\ (forall i' n',
         db_student_name i' db = Some n' ->
         db_student_name i' (state (AttendanceDB.add_student i n db)) = Some n').
Proof.
  split; [apply db_add_student_known|]. split.
  - intros Hni. rewrite db_add_student_new by assumption.
    split; [reflexivity|]. unfold db_student_name. cbn [state AttendanceDB.students].
    rewrite find_app_none by (now apply find_key_none). simpl.
    now rewrite String.eqb_refl.
  - intros i' n' Hname.
    destruct (in_dec string_dec i (map fst (AttendanceDB.students db)))
      as [Hin|Hni].
    + now rewrite db_add_student_known.
    + rewrite db_add_student_new by assumption.
      unfold db_student_name in *. cbn [state AttendanceDB.students].
      destruct (find _ (AttendanceDB.students db)) as [r|] eqn:E;
        [|discriminate].
      now rewrite (find_app_some _ _ _ E).
Qed.

Lemma db_add_student_spec_witness :
  AttendanceDB.add_student "S1" "Anna" db_small
  = mkOutcome tt db_small ["[WARN] Student S1 already exists."%string]
  /\ db_student_name "S2" (state (AttendanceDB.add_student "S2" "Bob" db_small))
     = Some "Bob"
  /\ db_student_name "S1" (state (AttendanceDB.add_student "S2" "Bob" db_small))
     = Some "Ann".
Proof.
  split; [|split].
  - apply (proj1 (db_add_student_spec db_small "S1" "Anna")). simpl. now left.
  - apply (proj1 (proj2 (db_add_student_spec db_small "S2" "Bob"))).
    simpl. intros [H|[]]. discriminate.
  - exact (proj2 (proj2 (db_add_student_spec db_small "S2" "Bob"))
             "S1" "Ann" eq_refl).
Defined.

Lemma filter_other_key i d i' d' rows :
  i' <> i \/ d' <> d ->
  filter (AttendanceDB.same_key i' d')
         (filter (fun r => negb (AttendanceDB.same_key i d r)) rows)
  = filter (AttendanceDB.same_key i' d') rows.
Proof.
  intros Hne. induction rows as [|r rows IH]; simpl; [reflexivity|].
  destruct (AttendanceDB.same_key i d r) eqn:E; simpl.
  - rewrite IH. unfold AttendanceDB.same_key in *.
    apply andb_true_iff in E as [E1 E2]. apply String.eqb_eq in E1, E2.
    rewrite E1, E2.
    destruct Hne as [Hne|Hne]; apply not_eq_sym, String.eqb_neq in Hne;
      rewrite Hne; simpl; [reflexivity | now rewrite andb_false_r].
  - now rewrite IH.
Qed.

(** X20. On a connection as the program opens it, the database
    [mark_attendance] checks nothing and reports nothing: whether or not
    the id is in [students], the table afterwards holds for the id and
    the date exactly the value passed, as 1 or 0, every other entry is
    as before, and [users] and [students] are untouched. *)
Theorem db_mark_attendance_effect (db : AttendanceDB.t) (i d : string)
    (p : bool) :
  AttendanceDB.foreign_keys db = false ->
  printed (AttendanceDB.mark_attendance i d p db) = []
  /\ AttendanceDB.users (state (AttendanceDB.mark_attendance i d p db))
     = AttendanceDB.users db
  /\ AttendanceDB.students (state (AttendanceDB.mark_attendance i d p db))
     = AttendanceDB.students db
  /\ db_recorded i d (state (AttendanceDB.mark_attendance i d p db))
     = [int_of_bool p]
  /\ (forall i' d',
         i' <> i \/ d' <> d ->
         db_recorded i' d' (state (AttendanceDB.mark_attendance i d p db))
         = db_recorded i' d' db).
Proof.
  intros Hfk. rewrite db_mark_attendance_unenforced by assumption.
  cbn [state printed AttendanceDB.users AttendanceDB.students].
  repeat split.
  - unfold db_recorded. cbn [AttendanceDB.attendance].
    rewrite filter_app, filter_same_key_replaced. simpl.
    now rewrite same_key_refl.
  - intros i' d' Hne. unfold db_recorded. cbn [AttendanceDB.attendance].
    rewrite filter_app, filter_other_key by assumption.
    simpl. unfold AttendanceDB.same_key at 2. simpl.
    destruct Hne as [Hne|Hne]; apply not_eq_sym, String.eqb_neq in Hne;
      rewrite Hne; simpl; rewrite ?andb_false_r; now rewrite app_nil_r.
Qed.

Lemma db_mark_attendance_effect_witness :
  db_recorded "S7" "2024-01-02"
    (state (AttendanceDB.mark_attendance "S7" "2024-01-02" false db_small))
  = [0%Z]
  /\ db_recorded "S1" "2024-01-01"
       (state (AttendanceDB.mark_attendance "S7" "2024-01-02" false db_small))
     = [1%Z].
Proof.
  pose proof (@db_mark_attendance_effect db_small "S7" "2024-01-02" false
                eq_refl) as (_ & _ & _ & Hset & Hframe).
  split; [exact Hset|].
  rewrite (Hframe "S1" "2024-01-01"); [reflexivity|]. left. discriminate.
Defined.

(* ================================================================= *)
(** * The primary keys hold in every state the database reaches *)

Lemma distinct_pairs_NoDup l : distinct_pairs l = true <-> NoDup l.
Proof.
  induction l as [|x l IH]; simpl.
  - split; [constructor | reflexivity].
  - rewrite andb_true_iff, negb_true_iff, IH.
    assert (Hx : existsb (fun y => String.eqb (fst x) (fst y)
                                   && String.eqb (snd x) (snd y)) l = true
                 <-> In x l).
    { rewrite existsb_exists. split.
      - intros [[a b] [Hin E]]. apply andb_true_iff in E as [E1 E2].
        apply String.eqb_eq in E1, E2. destruct x as [a0 b0]. simpl in *.
        now subst.
      - intros Hin. exists x. split; [assumption|].
        now rewrite !String.eqb_refl. }
    split.
    + intros [Hni Hl]. constructor; [|assumption].
      rewrite <- Hx. congruence.
    + intros H. inversion H as [|? ? Hni Hl]; subst. split; [|assumption].
      rewrite <- Hx in Hni. now destruct (existsb _ l).
Qed.

Lemma db_wf_spec db :
  db_wf db
  <-> AttendanceDB.foreign_keys db = false
      /\ NoDup (map fst (AttendanceDB.users db))
      /\ NoDup (map fst (AttendanceDB.students db))
      /\ NoDup (map fst (AttendanceDB.attendance db)).
Proof.
  unfold db_wf.
  rewrite !andb_true_iff, negb_true_iff, !distinct_NoDup, distinct_pairs_NoDup.
  tauto.
Qed.

Lemma NoDup_snoc (A : Type) (l : list A) (x : A) :
  NoDup l -> ~ In x l -> NoDup (l ++ [x]).
Proof.
  intros Hl Hx. apply NoDup_app; [assumption | repeat constructor; auto|].
  intros y Hy [<-|[]]. contradiction.
Qed.

Lemma NoDup_map_filter (A B : Type) (f : A -> B) (g : A -> bool) l :
  NoDup (map f l) -> NoDup (map f (filter g l)).
Proof.
  induction l as [|a l IH]; simpl; intros H; [constructor|].
  inversion H as [|? ? Hni Hl]; subst.
  destruct (g a); simpl; [|auto].
  constructor; [|auto].
  intros Hin. apply Hni. apply in_map_iff in Hin as [b [E Hb]].
  apply filter_In in Hb as [Hb _]. rewrite <- E. now apply in_map.
Qed.

Lemma db_wf_add_user db u p :
  db_wf db -> db_wf (state (AttendanceDB.add_user u p db)).
Proof.
  rewrite !db_wf_spec. intros (Hfk & Hu & Hs & Ha).
  destruct (in_dec string_dec u (map fst (AttendanceDB.users db))) as [Hin|Hni].
  - rewrite add_user_known by assumption. simpl. auto.
  - rewrite add_user_new by assumption. simpl. repeat split; try assumption.
    rewrite map_app. simpl. now apply NoDup_snoc.
Qed.

Lemma db_wf_add_student db i n :
  db_wf db -> db_wf (state (AttendanceDB.add_student i n db)).
Proof.
  rewrite !db_wf_spec. intros (Hfk & Hu & Hs & Ha).
  destruct (in_dec string_dec i (map fst (AttendanceDB.students db)))
    as [Hin|Hni].
  - rewrite db_add_student_known by assumption. simpl. auto.
  - rewrite db_add_student_new by assumption. simpl.
    repeat split; try assumption.
    rewrite map_app. simpl. now apply NoDup_snoc.
Qed.

Lemma db_wf_mark_attendance db i d p :
  db_wf db -> db_wf (state (AttendanceDB.mark_attendance i d p db)).
Proof.
  rewrite !db_wf_spec. intros (Hfk & Hu & Hs & Ha).
  rewrite db_mark_attendance_unenforced by assumption. simpl.
  repeat split; try assumption.
  rewrite map_app. simpl. apply NoDup_snoc.
  - now apply NoDup_map_filter.
  - intros Hin. apply in_map_iff in Hin as [r [E Hr]].
    apply filter_In in Hr as [_ Hr]. apply negb_true_iff in Hr.
    unfold AttendanceDB.same_key in Hr. rewrite E in Hr. simpl in Hr.
    now rewrite !String.eqb_refl in Hr.
Qed.

Lemma login_state db u p : state (login u p db) = db.
Proof.
  unfold login. step_py.
  pose proof (authenticate_state db (strip u) (strip p)) as Hst.
  destruct (value (AttendanceDB.authenticate (strip u) (strip p) db));
    exact Hst.
Qed.

Lemma setup_admin_account_state db u p c :
  state (setup_admin_account u p c db)
  = if String.eqb (strip p) (strip c)
    then state (AttendanceDB.add_user (strip u) (strip p) db)
    else db.
Proof.
  unfold setup_admin_account. step_py.
  now destruct (String.eqb (strip p) (strip c)).
Qed.

Lemma run_db_op_wf o db : db_wf db -> db_wf (run_db_op o db).
Proof.
  intros Hwf. destruct o; unfold run_db_op.
  - now apply db_wf_add_user.
  - now rewrite authenticate_state.
  - now apply db_wf_add_student.
  - now apply db_wf_mark_attendance.
  - now rewrite login_state.
  - rewrite setup_admin_account_state.
    destruct (String.eqb _ _); [now apply db_wf_add_user | assumption].
Qed.

(** X21. Whatever is called on the database in whatever order, the
    primary keys hold: no username twice in [users], no id twice in
    [students], no (id, date) twice in [attendance]; and the connection
    never comes to enforce foreign keys. *)
Theorem db_reachable_wf (ops : list db_op) (db : AttendanceDB.t) :
  db_wf db -> db_wf (run_db_ops ops db).
Proof.
  revert db. induction ops as [|o ops IH]; intros db Hwf; [assumption|].
  simpl. apply IH. now apply run_db_op_wf.
Qed.

Lemma db_reachable_wf_witness :
  db_wf (run_db_ops db_session AttendanceDB.fresh).
Proof.
  exact (@db_reachable_wf db_session AttendanceDB.fresh eq_refl).
Defined.

(* ================================================================= *)
(** * The fake data generator *)

Lemma fold_left_ext (A B : Type) (f g : A -> B -> A) l a :
  (forall x y, f x y = g x y) -> fold_left f l a = fold_left g l a.
Proof.
  intros H. revert a. induction l as [|y l IH]; intros a; simpl;
    [reflexivity|]. now rewrite H, IH.
Qed.

Lemma round_state d m :
  state (bind (AttendanceManager.add_student (drawn_id d) (drawn_name d))
           (fun _ =>
              for_each (drawn_marks d)
                (fun mark =>
                   bind (AttendanceManager.mark_attendance (fst mark)
                           (drawn_id d) (snd mark) (Some (fst mark)))
                        (fun _ => ret tt))) m)
  = after_round d m.
Proof.
  unfold bind at 1. cbn [state]. rewrite state_for_each. unfold after_round.
  apply fold_left_ext. reflexivity.
Qed.

Lemma generate_state count draws m :
  state (generate_fake_students count draws m)
  = fold_left (fun acc d => after_round d acc) (map draws (range count)) m.
Proof.
  unfold generate_fake_students. unfold bind at 1. unfold print at 1.
  cbn [state]. rewrite state_for_each.
  apply fold_left_ext. intros x d. apply round_state.
Qed.

Section OneDate.
Variables today id : string.

(** The student is not there, or has no date, or has the one date. *)
Let at_most_today (m : AttendanceManager.t) : Prop :=
  dates_of m id = None \/ dates_of m id = Some [] \/ dates_of m id = Some [today].

Let only_today (m : AttendanceManager.t) : Prop :=
  dates_of m id = Some [today].

Lemma dates_of_add_student i n m :
  dates_of (state (AttendanceManager.add_student i n m)) id
  = match dates_of m id with
    | Some ds => Some ds
    | None => if String.eqb id i then Some [] else None
    end.
Proof.
  unfold dates_of.
  destruct (Dict.contains i (AttendanceManager.students m)) eqn:E.
  - assert (Hst : state (AttendanceManager.add_student i n m) = m).
    { unfold AttendanceManager.add_student. run_py. now rewrite E. }
    rewrite Hst.
    destruct (Dict.get id (AttendanceManager.students m)) eqn:G;
      [reflexivity|].
    simpl. case_eqb id i. unfold Dict.contains in E. now rewrite G in E.
  - rewrite (@add_student_fresh i n m E).
    destruct (Dict.get id (AttendanceManager.students m)) eqn:G; simpl.
    + now erewrite get_app_some by exact G.
    + rewrite get_app_none by exact G. simpl. now case_eqb id i.
Qed.

Lemma dates_of_mark_today i p m :
  dates_of (state (AttendanceManager.mark_attendance today i p (Some today) m))
           id
  = match dates_of m id with
    | Some ds =>
        if String.eqb id i
        then Some (if existsb (String.eqb today) ds then ds else ds ++ [today])
        else Some ds
    | None => None
    end.
Proof.
  unfold dates_of.
  destruct (Dict.get i (AttendanceManager.students m)) as [s|] eqn:E.
  - rewrite (@mark_attendance_known today i p (Some today) m s E).
    cbn [state AttendanceManager.students].
    case_eqb id i.
    + rewrite get_set_same, E. simpl. rewrite keys_set. f_equal.
      destruct (Dict.contains today (Student.attendance s)) eqn:C.
      * apply contains_iff, existsb_eqb_iff in C. now rewrite C.
      * apply contains_false_iff in C. rewrite <- existsb_eqb_iff in C.
        now destruct (existsb _ _).
    + rewrite get_set_other by assumption.
      now destruct (Dict.get id (AttendanceManager.students m)).
  - rewrite mark_attendance_unknown by (unfold Dict.contains; now rewrite E).
    cbn [state].
    destruct (Dict.get id (AttendanceManager.students m)) eqn:G;
      [|reflexivity].
    simpl. case_eqb id i.
Qed.

Lemma after_round_dates d m :
  forallb (fun mark => String.eqb (fst mark) today) (drawn_marks d) = true ->
  (at_most_today m -> at_most_today (after_round d m))
  /\ (only_today m -> only_today (after_round d m))
  /\ (at_most_today m -> drawn_id d = id -> drawn_marks d <> [] ->
      only_today (after_round d m)).
Proof.
  intros Hday. unfold after_round.
  pose proof (dates_of_add_student (drawn_id d) (drawn_name d) m) as Hadd.
  set (m0 := state (AttendanceManager.add_student (drawn_id d) (drawn_name d) m))
    in *.
  assert (Hmarks : forall marks x,
             forallb (fun mark => String.eqb (fst mark) today) marks = true ->
             (at_most_today x ->
              at_most_today
                (fold_left
                   (fun acc mark =>
                      state (AttendanceManager.mark_attendance (fst mark)
                               (drawn_id d) (snd mark) (Some (fst mark)) acc))
                   marks x))
             /\ (only_today x ->
                 only_today
                   (fold_left
                      (fun acc mark =>
                         state (AttendanceManager.mark_attendance (fst mark)
                                  (drawn_id d) (snd mark) (Some (fst mark)) acc))
                      marks x))
             /\ (dates_of x id = Some [] \/ dates_of x id = Some [today] ->
                 drawn_id d = id -> marks <> [] ->
                 only_today
                   (fold_left
                      (fun acc mark =>
                         state (AttendanceManager.mark_attendance (fst mark)
                                  (drawn_id d) (snd mark) (Some (fst mark)) acc))
                      marks x))).
  { induction marks as [|[t p] marks IH]; intros x Hall.
    - simpl. repeat split; auto. intros _ _ H. contradiction.
    - simpl in Hall. apply andb_true_iff in Hall as [Ht Hall].
      apply String.eqb_eq in Ht. subst t. simpl fold_left.
      pose proof (dates_of_mark_today (drawn_id d) p x) as Hm.
      destruct (IH (state (AttendanceManager.mark_attendance today (drawn_id d)
                             p (Some today) x)) Hall) as (IH1 & IH2 & IH3).
      unfold at_most_today, only_today in *.
      split; [|split].
      + intros Hx. apply IH1. rewrite Hm.
        destruct Hx as [-> | [-> | ->] ]; simpl; auto;
          destruct (String.eqb id (drawn_id d)); simpl; auto.
        rewrite String.eqb_refl. simpl. auto.
      + intros Hx. apply IH2. rewrite Hm, Hx.
        destruct (String.eqb id (drawn_id d)); simpl; auto.
        rewrite String.eqb_refl. simpl. auto.
      + intros Hx Hid _. apply IH2. rewrite Hm. subst id.
        rewrite String.eqb_refl.
        destruct Hx as [-> | ->]; simpl; auto.
        rewrite String.eqb_refl. simpl. auto. }
  destruct (Hmarks (drawn_marks d) m0 Hday) as (H1 & H2 & H3).
  unfold at_most_today, only_today in *.
  split; [|split].
  - intros Hm. apply H1. rewrite Hadd.
    destruct Hm as [-> | [-> | ->] ]; auto.
    destruct (String.eqb id (drawn_id d)); auto.
  - intros Hm. apply H2. now rewrite Hadd, Hm.
  - intros Hm Hid Hne. apply H3; try assumption. rewrite Hadd.
    destruct Hm as [-> | [-> | ->] ]; auto.
    subst id. rewrite String.eqb_refl. auto.
Qed.

Lemma rounds_keep (P : AttendanceManager.t -> Prop) draws m :
  (forall d x, In d draws -> P x -> P (after_round d x)) ->
  P m -> P (fold_left (fun acc d => after_round d acc) draws m).
Proof.
  revert m. induction draws as [|d draws IH]; intros m Hstep Hm; [assumption|].
  simpl. apply IH.
  - intros d0 x Hin. apply Hstep. now right.
  - apply Hstep; [now left | assumption].
Qed.

Lemma rounds_one_date rounds d m :
  same_day today rounds = true ->
  In d rounds -> drawn_id d = id ->
  dates_of m id = None ->
  dates_of (fold_left (fun acc d => after_round d acc) rounds m) id
  = Some [today].
Proof.
  intros Hday Hin Hid Hnone.
  unfold same_day in Hday. rewrite forallb_forall in Hday.
  destruct (in_split _ _ Hin) as (pre & post & ->).
  rewrite fold_left_app. simpl fold_left.
  apply (rounds_keep only_today).
  - intros d0 x Hd0 Hx.
    apply (proj1 (proj2 (@after_round_dates d0 x
                           (Hday d0 ltac:(apply in_or_app; right; now right))))).
    exact Hx.
  - apply (proj2 (proj2 (@after_round_dates d _ (Hday d Hin)))); try assumption.
    + apply (rounds_keep at_most_today).
      * intros d0 x Hd0 Hx.
        apply (proj1 (@after_round_dates d0 x
                        (Hday d0 ltac:(apply in_or_app; now left)))).
        exact Hx.
      * left. exact Hnone.
    + unfold drawn_marks. discriminate.
Qed.

End OneDate.

(** X22. [generate_fake_students] closes with a line that reports the
    number it was called with, whatever number of students was added;
    called with a number that is not positive it runs no round, so the
    roster is untouched and the line reports that number.  Each new
    student gets one recorded date, not five: while the clock shows the
    same day, the five marks of a round write to the same date, and a
    later round that draws the same id writes to it again. *)
Theorem generate_fake_students_one_date (today : string) (count : Z)
    (draws : nat -> draw) (m : AttendanceManager.t) :
  last (printed (generate_fake_students count draws m)) ""
  = ("[INFO] " ++ str_of_int count ++ " fake students generated.")%string
  /\ ((count <= 0)%Z ->
      generate_fake_students count draws m
      = mkOutcome tt m
          [("[INFO] " ++ str_of_int count
            ++ " fake students generated.")%string])
  /\ (forall round,
         (Z.of_nat round < count)%Z ->
         same_day today (map draws (range count)) = true ->
         Dict.get (drawn_id (draws round)) (AttendanceManager.students m)
         = None ->
         dates_of (state (generate_fake_students count draws m))
                  (drawn_id (draws round))
         = Some [today]).
Proof.
  split; [|split].
  - unfold generate_fake_students. unfold bind at 1. cbn [printed print].
    apply last_last.
  - intros Hcount. unfold generate_fake_students, range.
    assert (E : Z.to_nat count = 0%nat) by lia.
    rewrite E. reflexivity.
  - intros round Hround Hday Hnone. rewrite generate_state.
    apply (@rounds_one_date today (drawn_id (draws round))
             (map draws (range count)) (draws round) m).
    + exact Hday.
    + apply in_map. unfold range. apply in_seq. lia.
    + reflexivity.
    + unfold dates_of. now rewrite Hnone.
Qed.

Lemma generate_fake_students_one_date_witness :
  generate_fake_students (-1) colliding_draws roster_marked
  = mkOutcome tt roster_marked ["[INFO] -1 fake students generated."]
  /\ dates_of (state (generate_fake_students 2 colliding_draws roster_marked))
              "1234"
     = Some ["2024-01-05"]
  /\ last (printed (generate_fake_students 2 colliding_draws roster_marked)) ""
     = "[INFO] 2 fake students generated."%string.
Proof.
  split; [|split].
  - apply (proj1 (proj2 (@generate_fake_students_one_date "2024-01-05" (-1)
                           colliding_draws roster_marked))).
    lia.
  - apply (proj2 (proj2 (@generate_fake_students_one_date "2024-01-05" 2
                           colliding_draws roster_marked)) 0%nat).
    + lia.
    + reflexivity.
    + reflexivity.
  - apply (proj1 (@generate_fake_students_one_date "2024-01-05" 2
                    colliding_draws roster_marked)).
Defined.

(* ================================================================= *)
(** * Saving what was loaded back *)

Lemma rows_of_with_attendance m :
  AttendanceManager.rows_of (with_attendance m) = AttendanceManager.rows_of m.
Proof.
  destruct m as [r]. unfold with_attendance. simpl.
  induction r as [|[id s] r IH]; [reflexivity|].
  simpl filter. rewrite rows_of_cons.
  destruct (Student.attendance s) eqn:E; simpl.
  - exact IH.
  - rewrite rows_of_cons, IH, E. reflexivity.
Qed.

(** X23. For a roster of plain cells: saving, loading the file into a
    fresh manager and saving that manager writes the same records again,
    in the same order, and when both writes go through the second file
    reads as the first: the students left out by the first save had no
    records to lose. *)
Theorem save_load_save (today : string) (fs fs' : filesystem)
    (filename filename' : string) (m : AttendanceManager.t) :
  roster_wf m ->
  plain_roster m = true ->
  on_write fs filename = Written ->
  AttendanceManager.rows_of
    (state (AttendanceManager.load_from_csv today
              (value (AttendanceManager.save_to_csv fs filename m))
              filename AttendanceManager.init))
  = AttendanceManager.rows_of m
  /\ (on_write fs' filename' = Written ->
      file_at
        (value (AttendanceManager.save_to_csv fs' filename'
                  (state (AttendanceManager.load_from_csv today
                            (value (AttendanceManager.save_to_csv fs filename
                                      m))
                            filename AttendanceManager.init))))
        filename'
      = file_at (value (AttendanceManager.save_to_csv fs filename m))
                filename).
Proof.
  intros Hwf Hplain Hwrite.
  rewrite load_saved_fresh by assumption.
  split; [apply rows_of_with_attendance|].
  intros Hwrite'.
  rewrite !save_to_csv_written by assumption. cbn [value].
  rewrite !file_at_with_file_same.
  now rewrite rows_of_with_attendance.
Qed.

Lemma save_load_save_witness :
  file_at
    (value (AttendanceManager.save_to_csv no_files "b.csv"
              (state (AttendanceManager.load_from_csv "2024-01-04"
                        (value (AttendanceManager.save_to_csv no_files "a.csv"
                                  roster_marked))
                        "a.csv" AttendanceManager.init))))
    "b.csv"
  = file_at (value (AttendanceManager.save_to_csv no_files "a.csv"
                      roster_marked))
            "a.csv".
Proof.
  exact (proj2 (@save_load_save "2024-01-04" no_files no_files "a.csv" "b.csv"
                  roster_marked eq_refl eq_refl eq_refl) eq_refl).
Defined.

(* ================================================================= *)
(** * Loading a saved file: the closing line *)

Lemma read_back_raised rows :
  snd (read_back rows)
  = if all_fit rows then None else Some field_too_large.
Proof.
  induction rows as [|row rows IH]; simpl; [reflexivity|].
  destruct (forallb fits (map universal_newlines row)); [|reflexivity].
  destruct (read_back rows) as [records raised]. simpl in *. exact IH.
Qed.

(** X24. Loading a file that [save_to_csv] has written prints one line:
    the closing message when every cell written fits the limit of a
    field of the reader, and otherwise the error line of the reader;
    then the records before the first one with a cell over the limit
    have been merged and the later ones have not. *)
Theorem load_saved_output (today : string) (fs : filesystem)
    (filename : string) (m m' : AttendanceManager.t) :
  on_write fs filename = Written ->
  printed (AttendanceManager.load_from_csv today
             (value (AttendanceManager.save_to_csv fs filename m))
             filename m')
  = [if all_fit (AttendanceManager.rows_of m)
     then ("[INFO] Data loaded from '" ++ filename ++ "'.")%string
     else ("[ERROR] Failed to load file: "
           ++ "field larger than field limit (131072)")%string]
  /\ (forall pre row post,
         AttendanceManager.rows_of m = pre ++ row :: post ->
         all_fit pre = true ->
         forallb fits (map universal_newlines row) = false ->
         state (AttendanceManager.load_from_csv today
                  (value (AttendanceManager.save_to_csv fs filename m))
                  filename m')
         = load_rows today (map (map universal_newlines) pre) m').
Proof.
  intros Hwrite. split.
  - rewrite save_to_csv_written by assumption. cbn [value].
    unfold AttendanceManager.load_from_csv.
    rewrite file_at_with_file_same. unfold written_file.
    pose proof (read_back_raised (AttendanceManager.rows_of m)) as Hraised.
    destruct (read_back (AttendanceManager.rows_of m)) as [records raised].
    cbn [snd] in Hraised. subst raised.
    unfold bind. cbn [printed].
    rewrite for_each_silent by (intros row s0; apply load_row_silent).
    now destruct (all_fit (AttendanceManager.rows_of m)).
  - intros pre row post Hrows Hpre Hrow.
    rewrite state_load_from_csv, records_at_saved by assumption.
    rewrite Hrows. clear Hrows. f_equal.
    induction pre as [|r pre IH]; simpl.
    + now rewrite Hrow.
    + simpl in Hpre. apply andb_true_iff in Hpre as [Hr Hpre].
      rewrite Hr. specialize (IH Hpre).
      destruct (read_back (pre ++ row :: post)) as [records raised].
      simpl in *. now rewrite IH.
Qed.

Lemma load_saved_output_witness :
  printed (AttendanceManager.load_from_csv "2024-01-04"
             (value (AttendanceManager.save_to_csv no_files "a.csv"
                       roster_marked))
             "a.csv" AttendanceManager.init)
  = ["[INFO] Data loaded from 'a.csv'."]
  /\ printed (AttendanceManager.load_from_csv "2024-01-04"
                (value (AttendanceManager.save_to_csv no_files "a.csv"
                          roster_oversize))
                "a.csv" AttendanceManager.init)
     = ["[ERROR] Failed to load file: field larger than field limit (131072)"]
  /\ state (AttendanceManager.load_from_csv "2024-01-04"
              (value (AttendanceManager.save_to_csv no_files "a.csv"
                        roster_oversize))
              "a.csv" AttendanceManager.init)
     = AttendanceManager.mk
         [("S1", Student.mk "S1" "Ann" [("2024-01-01", true)])].
Proof.
  split; [|split].
  - exact (proj1 (@load_saved_output "2024-01-04" no_files "a.csv"
                    roster_marked AttendanceManager.init eq_refl)).
  - rewrite (proj1 (@load_saved_output "2024-01-04" no_files "a.csv"
                      roster_oversize AttendanceManager.init eq_refl)).
    assert (E : all_fit (AttendanceManager.rows_of roster_oversize) = false)
      by (vm_compute; reflexivity).
    now rewrite E.
  - rewrite (proj2 (@load_saved_output "2024-01-04" no_files "a.csv"
                      roster_oversize AttendanceManager.init eq_refl)
               [["S1"; "Ann"; "2024-01-01"; "True"]]
               ["S2"; oversize_name; "2024-01-01"; "False"]
               [["S3"; "Cy"; "2024-01-01"; "True"]]).
    + reflexivity.
    + reflexivity.
    + reflexivity.
    + vm_compute. reflexivity.
Defined.
